(** * umake.frameworks.ide: the metadata resolvers of the IDE installers

    A shallow embedding of [umake/frameworks/ide.py].  Every handler of the
    module (the callbacks the main loop runs when a batch of fetches is
    done) becomes a function from the installer object and the fetched
    results to a finite tree of effects, [proc]: the log records, the calls
    to the Download Coordinator together with their [on_done] continuation,
    the worker process, the abort through [UI.return_main_screen] and the
    Python exception that escapes, in program order.  The decorator
    [MainLoop.in_mainloop_thread] only moves a handler to the main loop's
    thread; what the handler does there is what is modelled.

    Python values are modelled as they are: a [str] is a sequence of
    Unicode code points, [bytes] a sequence of bytes, [None] an [option].
    Libraries that are not part of the repository (bs4's parser, [re],
    [urllib.parse.urljoin], [int]) are taken through the interface [PyLib]. *)

From Stdlib Require Import List String Ascii ZArith NArith Bool.
From Stdlib Require Import Strings.Byte.
Import ListNotations.

Local Open Scope N_scope.
Local Open Scope list_scope.

Set Warnings "-register-all".

(** ** Python's [str] and [bytes] *)

Module Py.

(** A Python 3 [str]: a sequence of Unicode code points. *)
Definition str := list N.

(** A [bytes] object. *)
Definition bytes := list byte.

(** The [str] a literal of the source denotes (the literals of ide.py are ASCII). *)
Definition u (s : string) : str := map N_of_ascii (list_ascii_of_string s).

(** The empty string. *)
Definition empty : str := [].

(** The [bytes] a literal denotes. *)
Definition b (s : string) : bytes := list_byte_of_string s.

(** [a == b] on [str]. *)
Fixpoint str_eqb (a b : str) : bool :=
  match a, b with
  | [], [] => true
  | x :: a', y :: b' => (x =? y) && str_eqb a' b'
  | _, _ => false
  end.

(** [s.startswith(p)]. *)
Fixpoint startswith (p s : str) : bool :=
  match p, s with
  | [], _ => true
  | x :: p', y :: s' => (x =? y) && startswith p' s'
  | _ :: _, [] => false
  end.

(** [x in l] for a list of [str]. *)
Definition str_in (x : str) (l : list str) : bool := existsb (str_eqb x) l.

(** Truth value of a [str]: the empty string is false. *)
Definition truthy (s : str) : bool :=
  match s with [] => false | _ :: _ => true end.

(** Truth value of a value that is [None] or a [str]. *)
Definition truthy_opt (o : option str) : bool :=
  match o with None => false | Some s => truthy s end.

(** The code points [str.split()] and [str.strip()] take for whitespace
    (CPython's [Py_UNICODE_ISSPACE]). *)
Definition is_space (c : N) : bool :=
  ((0x09 <=? c) && (c <=? 0x0D)) || ((0x1C <=? c) && (c <=? 0x20))
  || (c =? 0x85) || (c =? 0xA0) || (c =? 0x1680)
  || ((0x2000 <=? c) && (c <=? 0x200A))
  || (c =? 0x2028) || (c =? 0x2029) || (c =? 0x202F)
  || (c =? 0x205F) || (c =? 0x3000).

(** [s.split()]: the maximal runs of non-whitespace, in order.  [cur] is
    the run being read, last code point first. *)
Fixpoint split_ws_from (cur : str) (s : str) : list str :=
  match s with
  | [] => match cur with [] => [] | _ :: _ => [rev cur] end
  | c :: s' =>
      if is_space c
      then match cur with
           | [] => split_ws_from [] s'
           | _ :: _ => rev cur :: split_ws_from [] s'
           end
      else split_ws_from (c :: cur) s'
  end.

Definition split_ws (s : str) : list str := split_ws_from [] s.

(** [s.lstrip()], [s.rstrip()], [s.strip()]. *)
Fixpoint lstrip (s : str) : str :=
  match s with
  | [] => []
  | c :: s' => if is_space c then lstrip s' else s
  end.

Definition rstrip (s : str) : str := rev (lstrip (rev s)).

Definition strip (s : str) : str := rstrip (lstrip s).

(** [s.split(sep)] for a non-empty [sep]: the fields between the
    occurrences of [sep], read left to right; always at least one field.
    [skip] counts the code points of a separator still to pass over. *)
Fixpoint split_from (sep : str) (skip : nat) (cur : str) (s : str) : list str :=
  match s with
  | [] => [rev cur]
  | c :: s' =>
      match skip with
      | S n => split_from sep n cur s'
      | O =>
          if startswith sep s
          then rev cur :: split_from sep (pred (List.length sep)) [] s'
          else split_from sep O (c :: cur) s'
      end
  end.

Definition split (sep s : str) : list str := split_from sep O [] s.

(** [s.replace(old, new)] for a non-empty [old]: every occurrence, left
    to right, without overlap. *)
Fixpoint replace_from (old new : str) (skip : nat) (s : str) : str :=
  match s with
  | [] => []
  | c :: s' =>
      match skip with
      | S n => replace_from old new n s'
      | O =>
          if startswith old s
          then new ++ replace_from old new (pred (List.length old)) s'
          else c :: replace_from old new O s'
      end
  end.

Definition replace (old new s : str) : str := replace_from old new O s.

(** [data.decode('ascii')]: [None] stands for [UnicodeDecodeError]. *)
Fixpoint decode_ascii (data : bytes) : option str :=
  match data with
  | [] => Some []
  | x :: data' =>
      if Byte.to_N x <? 0x80
      then option_map (cons (Byte.to_N x)) (decode_ascii data')
      else None
  end.

Definition continuation (x : N) : bool := (0x80 <=? x) && (x <=? 0xBF).

Definition between (lo x hi : N) : bool := (lo <=? x) && (x <=? hi).

(** The well-formed UTF-8 byte sequences (strict: no overlong form, no
    surrogate, nothing above U+10FFFF), as CPython's decoder accepts them. *)
Fixpoint decode_utf8_from (data : list N) : option str :=
  match data with
  | [] => Some []
  | b0 :: r0 =>
      if b0 <? 0x80 then option_map (cons b0) (decode_utf8_from r0)
      else if between 0xC2 b0 0xDF then
        match r0 with
        | b1 :: r1 =>
            if continuation b1
            then option_map (cons ((b0 - 0xC0) * 64 + (b1 - 0x80)))
                            (decode_utf8_from r1)
            else None
        | [] => None
        end
      else if between 0xE0 b0 0xEF then
        match r0 with
        | b1 :: b2 :: r2 =>
            if between (if b0 =? 0xE0 then 0xA0 else 0x80) b1
                       (if b0 =? 0xED then 0x9F else 0xBF)
               && continuation b2
            then option_map
                   (cons ((b0 - 0xE0) * 4096 + (b1 - 0x80) * 64 + (b2 - 0x80)))
                   (decode_utf8_from r2)
            else None
        | _ => None
        end
      else if between 0xF0 b0 0xF4 then
        match r0 with
        | b1 :: b2 :: b3 :: r3 =>
            if between (if b0 =? 0xF0 then 0x90 else 0x80) b1
                       (if b0 =? 0xF4 then 0x8F else 0xBF)
               && continuation b2 && continuation b3
            then option_map
                   (cons ((b0 - 0xF0) * 262144 + (b1 - 0x80) * 4096
                          + (b2 - 0x80) * 64 + (b3 - 0x80)))
                   (decode_utf8_from r3)
            else None
        | _ => None
        end
      else None
  end.

(** [data.decode('utf-8')]: [None] stands for [UnicodeDecodeError]. *)
Definition decode_utf8 (data : bytes) : option str :=
  decode_utf8_from (map Byte.to_N data).

End Py.

Import Py.

(** ** The part of bs4 the resolvers use *)

Module Bs4.

(** A parsed document: tags with their attributes and contents, and the
    text between them. *)
Inductive node :=
| Tag (name : str) (attrs : list (str * str)) (contents : list node)
| NavigableString (s : str).

(** [attrs.get(key)]. *)
Fixpoint get (attrs : list (str * str)) (key : str) : option str :=
  match attrs with
  | [] => None
  | (k, v) :: attrs' => if str_eqb k key then Some v else get attrs' key
  end.

(** [tag.string]: the text of a tag whose only child is a string, or
    whose only child is a tag that has one; [None] otherwise. *)
Fixpoint string_of (n : node) : option str :=
  match n with
  | NavigableString s => Some s
  | Tag _ _ [c] => string_of c
  | Tag _ _ _ => None
  end.

(** What the source reads of a tag it has found: its name, [tag.attrs],
    [tag.string] and the attributes of [tag.parent]. *)
Record element := {
  name : str;
  attrs : list (str * str);
  string : option str;
  parent : list (str * str)
}.

(** The tags below a node, itself first, in document order. *)
Fixpoint elements_of (parent_attrs : list (str * str)) (n : node) : list element :=
  match n with
  | NavigableString _ => []
  | Tag nm ats cs =>
      {| name := nm; attrs := ats; string := string_of n; parent := parent_attrs |}
        :: flat_map (elements_of ats) cs
  end.

(** The tags of a document; the parent of a top-level tag is the
    BeautifulSoup object, which has no attribute. *)
Definition elements (soup : list node) : list element :=
  flat_map (elements_of []) soup.

(** [soup.find_all(...)] and [soup.find(...)] for a filter [f]: every tag
    that passes, and the first one in document order or [None]. *)
Definition find_all (f : element -> bool) (soup : list node) : list element :=
  filter f (elements soup).

Definition find (f : element -> bool) (soup : list node) : option element :=
  List.find f (elements soup).

(** The filter of [find(tag_name, text=s)]: the tag's [.string] is [s]. *)
Definition has_text (tag_name s : str) (e : element) : bool :=
  str_eqb (name e) tag_name
  && match string e with Some t => str_eqb t s | None => false end.

(** The filter of [find(tag_name, text=pattern)], [search] being
    [pattern.search]: the tag's [.string] exists and the pattern is found in it. *)
Definition text_matches (tag_name : str) (search : str -> bool) (e : element) : bool :=
  str_eqb (name e) tag_name
  && match string e with Some t => search t | None => false end.

(** The filter of [find(tag_name, href=pattern)]. *)
Definition href_matches (tag_name : str) (search : str -> bool) (e : element) : bool :=
  str_eqb (name e) tag_name
  && match get (attrs e) (u "href") with Some v => search v | None => false end.

End Bs4.

(** ** Libraries outside the repository *)

(** The library functions the module calls and whose code is not part of
    the repository.  [re_compile pattern multiline] is [None] when [re]
    rejects the pattern ([re.error]); [re_search] and [re_match] return the
    groups 1, 2, ... of the match, or [None]; [int] is [None] for
    [ValueError]. *)
Record PyLib := {
  BeautifulSoup : bytes -> list Bs4.node;
  re_pattern : Type;
  re_compile : str -> bool -> option re_pattern;
  re_search : re_pattern -> str -> option (list str);
  re_match : re_pattern -> str -> option (list str);
  urljoin : str -> str -> str;
  int : str -> option Z
}.

(** Whether a match object was returned. *)
Definition matched (m : option (list str)) : bool :=
  match m with Some _ => true | None => false end.

(** What [subprocess.check_output] does with a command: it returns the
    output of a command that exits with status 0, raises
    [CalledProcessError] when the command exits with another status, and
    raises an [OSError] when the command cannot be run at all (it is not
    installed, or not executable). *)
Inductive check_output :=
| Output (data : bytes)
| NonZeroExit
| CannotRun.

(** The operating system as the module sees it: [os.geteuid()],
    [os.environ], the password database ([pwd.getpwuid(uid).pw_name]),
    the group database ([grp.getgrall()] as pairs of [gr_name] and
    [gr_mem]), [platform.machine()], whether [os.seteuid(0)] and
    [os.setegid(0)] are permitted, and what running [adduser user group]
    through [subprocess.check_output] does. *)
Record OS := {
  geteuid : Z;
  environ : list (str * str);
  getpwuid : Z -> option str;
  getgrall : list (str * list str);
  machine : str;
  seteuid_permitted : bool;
  adduser : str -> str -> check_output
}.

(** [os.getenv(key)]. *)
Definition getenv (os : OS) (key : str) : option str := Bs4.get (environ os) key.

(** [os.path.join(a, b)] (posixpath). *)
Definition join (a b : str) : str :=
  if startswith (u "/") b then b
  else match rev a with
       | [] => b
       | c :: _ => if c =? 0x2F then a ++ b else a ++ u "/" ++ b
       end.

(** ** The data model *)

(** Modelled from the spec: [umake.tools.ChecksumType] and
    [umake.tools.Checksum] are not under src.  The spec: a checksum is "a
    (algorithm, digest) pair"; "supported algorithms: at minimum MD5 and
    SHA-256". *)
Inductive ChecksumType := md5 | sha256.

Record Checksum := {
  checksum_type : ChecksumType;
  checksum_value : str
}.

Definition Cookies := list (str * str).

(** Modelled from the spec: [umake.network.download_center.DownloadItem]
    is not under src.  The spec's DownloadRequest: "URL, optional expected
    checksum (algorithm + digest), optional cookies, optional flag to
    ignore server-declared encoding"; an argument the caller leaves out is
    [None], respectively [False]. *)
Record DownloadItem := {
  url : str;
  checksum : option Checksum;
  ignore_encoding : bool;
  cookies : option Cookies
}.

(** Modelled from the spec: [DownloadResult] is not under src.  The spec:
    "byte buffer (or stream handle), final redirected URL, response
    cookies, optional error"; the batch result maps each requested URL to
    one of them, in request order. *)
Record DownloadResult := {
  buffer : option bytes;
  error : option str;
  final_url : str;
  response_cookies : Cookies
}.

Definition results := list (str * DownloadResult).

(** [results[key]]: [None] stands for [KeyError]. *)
Fixpoint lookup (key : str) (r : results) : option DownloadResult :=
  match r with
  | [] => None
  | (k, v) :: r' => if str_eqb k key then Some v else lookup key r'
  end.

(** [next(iter(results.values()))]: [None] stands for [StopIteration]. *)
Definition first_value (r : results) : option DownloadResult :=
  match r with
  | [] => None
  | (_, v) :: _ => Some v
  end.

(** ** Effects *)

Inductive level := DEBUG | INFO | WARNING | ERROR.

(** The Python exceptions that can leave a handler. *)
Inductive exn :=
| AttributeError | IndexError | KeyError | OSError | PermissionError | StopIteration
| TypeError | UnboundLocalError | UnicodeDecodeError | ValueError | re_error.

(** An argument of a log record. *)
Inductive arg :=
| AStr (s : str)
| ABytes (data : bytes)
| ACookies (c : Cookies).

(** The keyword arguments of [get_application_desktop_file]. *)
Record DesktopFile := {
  df_name : string;
  df_icon_path : str;
  df_exec : str;
  df_comment : string;
  df_categories : string
}.

(** What a handler does, in program order.
    - [Return]: the handler returns.
    - [Raise e]: the exception [e] leaves the handler.
    - [Quit status_code]: the session is over and the main loop is left
      with this exit status.
    - [Log lvl msg args k]: a record of the module's logger, then [k].
    - [DownloadCenter urls on_done download k]: the batch [urls] is handed
      to the Download Coordinator, which calls [on_done] with the results
      once every request has resolved; the call itself returns and the
      handler goes on with [k].
    - [Submit user group k]: [_add_to_group] is submitted to a
      [ProcessPoolExecutor(max_workers=1)] and its result awaited.
    - [start_download_and_install reqs k]: [self.start_download_and_install()]
      is called while [self.download_requests] is [reqs].
    - [create_launcher], [delayed_display]: the calls of [post_install]. *)
Inductive proc :=
| Return
| Raise (e : exn)
| Quit (status_code : Z)
| Log (lvl : level) (msg : string) (args : list arg) (k : proc)
| DownloadCenter (urls : list DownloadItem) (on_done : results -> proc)
                 (download : bool) (k : proc)
| Submit (user group : str) (k : proc)
| start_download_and_install (download_requests : list DownloadItem) (k : proc)
| create_launcher (desktop_filename : str) (content : DesktopFile) (k : proc)
| delayed_display (msg : string) (k : proc).

(** Modelled from the spec: [UI.return_main_screen] (umake.ui) is not under
    src.  The spec: "log and abort the session ([status=1])", and every
    abort path "must terminate through the single defined abort exit
    point": the call does not come back to the handler, it ends the
    session with the status code it is given. *)
Definition return_main_screen (status_code : Z) : proc := Quit status_code.

(** The effects of a handler up to the point where it returns, without the
    continuations it has registered. *)
Inductive event :=
| EvLog (lvl : level) (msg : string) (args : list arg)
| EvDownloadCenter (urls : list DownloadItem) (download : bool)
| EvSubmit (user group : str)
| EvStart (download_requests : list DownloadItem)
| EvLauncher (desktop_filename : str) (content : DesktopFile)
| EvDelayed (msg : string).

Fixpoint events (p : proc) : list event :=
  match p with
  | Return | Raise _ | Quit _ => []
  | Log lvl msg args k => EvLog lvl msg args :: events k
  | DownloadCenter urls _ download k => EvDownloadCenter urls download :: events k
  | Submit user group k => EvSubmit user group :: events k
  | start_download_and_install reqs k => EvStart reqs :: events k
  | create_launcher f c k => EvLauncher f c :: events k
  | delayed_display msg k => EvDelayed msg :: events k
  end.

(** How a handler ends. *)
Inductive ending := Returned | Raised (e : exn) | Aborted (status_code : Z).

Fixpoint end_of (p : proc) : ending :=
  match p with
  | Return => Returned
  | Raise e => Raised e
  | Quit status => Aborted status
  | Log _ _ _ k | DownloadCenter _ _ _ k | Submit _ _ k
  | start_download_and_install _ k | create_launcher _ _ k
  | delayed_display _ k => end_of k
  end.

(** The continuations a handler has handed to the Download Coordinator,
    each with its batch. *)
Fixpoint callbacks (p : proc) : list (list DownloadItem * (results -> proc)) :=
  match p with
  | Return | Raise _ | Quit _ => []
  | DownloadCenter urls on_done _ k => (urls, on_done) :: callbacks k
  | Log _ _ _ k | Submit _ _ k | start_download_and_install _ k
  | create_launcher _ _ k | delayed_display _ k => callbacks k
  end.

Definition is_start (e : event) : bool :=
  match e with EvStart _ => true | _ => false end.

Definition is_submit (e : event) : bool :=
  match e with EvSubmit _ _ => true | _ => false end.

Definition is_launcher (e : event) : bool :=
  match e with EvLauncher _ _ => true | _ => false end.

Definition is_error_log (e : event) : bool :=
  match e with EvLog ERROR _ _ => true | _ => false end.

(** The requests with which the installation was started, if the handler
    reached [start_download_and_install]. *)
Fixpoint started (p : proc) : option (list DownloadItem) :=
  match p with
  | Return | Raise _ | Quit _ => None
  | start_download_and_install reqs _ => Some reqs
  | Log _ _ _ k | DownloadCenter _ _ _ k | Submit _ _ k
  | create_launcher _ _ k | delayed_display _ k => started k
  end.

(** ** The installer base class *)

(** Modelled from the spec: [umake.frameworks.baseinstaller.BaseInstaller]
    is not under src.  Its constructor keeps the descriptor it is given
    (the spec's InstallSpec, of which the fields this module reads are
    kept here) and the session starts with no download request
    ("accumulated download requests"); the install path is the
    framework's choice. *)
Record BaseInstaller := {
  download_page : option str;
  desktop_filename : str;
  only_on_archs : list str;
  need_root_access : bool;
  install_path : str;
  download_requests : list DownloadItem
}.

(** [self.download_requests.append(item)]. *)
Definition append_request (item : DownloadItem) (self : BaseInstaller) : BaseInstaller :=
  {| download_page := download_page self;
     desktop_filename := desktop_filename self;
     only_on_archs := only_on_archs self;
     need_root_access := need_root_access self;
     install_path := install_path self;
     download_requests := download_requests self ++ [item] |}.

(** [self.download_requests = reqs]. *)
Definition set_requests (reqs : list DownloadItem) (self : BaseInstaller) : BaseInstaller :=
  {| download_page := download_page self;
     desktop_filename := desktop_filename self;
     only_on_archs := only_on_archs self;
     need_root_access := need_root_access self;
     install_path := install_path self;
     download_requests := reqs |}.

(** ** [_add_to_group] *)

(** What the parent reads from the future of the worker. *)
Inductive worker_result :=
| WorkerReturned (value : bool)
| WorkerRaised (e : exn).

(** [_add_to_group(user, group)], run in the worker process: its log
    records and its result.  Only [CalledProcessError] is caught: the
    [PermissionError] of a refused [os.seteuid(0)] and the [OSError] of an
    [adduser] that cannot be run leave the function. *)
Definition _add_to_group (os : OS) (user group : str) : list event * worker_result :=
  if seteuid_permitted os then
    match adduser os user group with
    | Output output =>
        ([EvLog DEBUG "Added {} to {}: {}" [AStr user; AStr group; ABytes output]],
         WorkerReturned true)
    | NonZeroExit =>
        ([EvLog ERROR "Couldn't add {} to {}" [AStr user; AStr group]],
         WorkerReturned false)
    | CannotRun => ([], WorkerRaised OSError)
    end
  else ([], WorkerRaised PermissionError).

(** ** Eclipse *)

Module Eclipse.

Definition DOWNLOAD_URL_PAT (arch suf : str) : str :=
  u "https://www.eclipse.org/downloads/download.php?"
  ++ u "file=/technology/epp/downloads/release/luna/R/"
  ++ u "eclipse-standard-luna-R-linux-gtk" ++ arch ++ u ".tar.gz" ++ suf
  ++ u "&r=1".

(** The constructor: [download_page=None], no root access asked for. *)
Definition __init__ (install_path : str) : BaseInstaller :=
  {| download_page := None;
     desktop_filename := u "eclipse.desktop";
     only_on_archs := [u "i386"; u "amd64"];
     need_root_access := false;
     install_path := install_path;
     download_requests := [] |}.

(** The nested [done(download_result)], closed over [arch] and [md5_url]. *)
Definition done (self : BaseInstaller) (arch md5_url : str)
           (download_result : results) : proc :=
  match lookup md5_url download_result with
  | None => Raise KeyError
  | Some res =>
  if truthy_opt (error res) then
    Log ERROR "{}" (match error res with Some e => [AStr e] | None => [] end)
      (return_main_screen 1)
  else
  match buffer res with
  | None => Raise AttributeError
  | Some data =>
  match decode_utf8 data with
  | None => Raise UnicodeDecodeError
  | Some text =>
  match split_ws text with
  | [] => Raise IndexError
  | md5_ :: _ =>
  Log DEBUG "Downloaded MD5 is {}" [AStr md5_]
  (Log DEBUG "Preparing to download the main archive." []
  (let download_url :=
     if str_eqb arch (u "i686") then Some (DOWNLOAD_URL_PAT empty empty)
     else if str_eqb arch (u "x86_64") then Some (DOWNLOAD_URL_PAT (u "-x86_64") empty)
     else None in
   match download_url with
   | None => Raise UnboundLocalError
   | Some download_url =>
       let self := append_request
                     {| url := download_url;
                        checksum := Some {| checksum_type := md5; checksum_value := md5_ |};
                        ignore_encoding := false;
                        cookies := None |} self in
       start_download_and_install (download_requests self) Return
   end))
  end end end end.

Definition download_provider_page (os : OS) (self : BaseInstaller) : proc :=
  Log DEBUG "Preparing to download MD5." []
  (let arch := machine os in
   if str_eqb arch (u "i686") then
     let md5_url := DOWNLOAD_URL_PAT empty (u ".md5") in
     DownloadCenter [{| url := md5_url; checksum := None;
                        ignore_encoding := false; cookies := None |}]
                    (done self arch md5_url) false Return
   else if str_eqb arch (u "x86_64") then
     let md5_url := DOWNLOAD_URL_PAT (u "-x86_64") (u ".md5") in
     DownloadCenter [{| url := md5_url; checksum := None;
                        ignore_encoding := false; cookies := None |}]
                    (done self arch md5_url) false Return
   else
     Log ERROR "Unsupported architecture: {}" [AStr arch]
       (return_main_screen 1)).

End Eclipse.

(** ** The JetBrains installers *)

Module BaseJetBrains.

(** A JetBrains installer: the base object and the class attribute
    [download_page_url] of the subclass. *)
Record t := {
  base : BaseInstaller;
  download_page_url : str
}.

(** The nested [checksum_downloaded(results)], closed over [download_url]. *)
Definition checksum_downloaded (self : t) (download_url : str) (results_ : results) : proc :=
  match first_value results_ with
  | None => Raise StopIteration
  | Some checksum_result =>
  if truthy_opt (error checksum_result) then
    Log ERROR "{}" (match error checksum_result with Some e => [AStr e] | None => [] end)
      (return_main_screen 1)
  else
  match buffer checksum_result with
  | None => Raise AttributeError
  | Some data =>
  match decode_utf8 data with
  | None => Raise UnicodeDecodeError
  | Some text =>
  match split_ws text with
  | [] => Raise IndexError
  | checksum_ :: _ =>
  Log INFO "Obtained SHA256 checksum: {}" [AStr checksum_]
  (let base_ := append_request
                  {| url := download_url;
                     checksum := Some {| checksum_type := sha256; checksum_value := checksum_ |};
                     ignore_encoding := true;
                     cookies := None |} (base self) in
   start_download_and_install (download_requests base_) Return)
  end end end end.

Definition get_metadata_and_check_license (L : PyLib) (self : t) (result : results) : proc :=
  Log DEBUG "Fetched download page, parsing." []
  (match download_page (base self) with
   | None => Raise KeyError
   | Some key =>
   match lookup key result with
   | None => Raise KeyError
   | Some page =>
   if truthy_opt (error page) then
     Log ERROR "An error occurred while downloading {}: {}"
         (AStr (download_page_url self)
            :: match error page with Some e => [AStr e] | None => [] end)
       (return_main_screen 1)
   else
   match buffer page with
   | None => Raise TypeError
   | Some data =>
   let soup := BeautifulSoup L data in
   match Bs4.find (Bs4.has_text (u "a") (u "HTTPS")) soup with
   | None =>
       Log ERROR "Can't parse the download URL from the download page." []
         (return_main_screen 1)
   | Some link =>
   match Bs4.get (Bs4.attrs link) (u "href") with
   | None => Raise KeyError
   | Some download_url =>
   let checksum_url := download_url ++ u ".sha256" in
   Log DEBUG "Found download URL: {}" [AStr download_url]
   (Log DEBUG "Downloading checksum first, from {}" [AStr checksum_url]
   (DownloadCenter [{| url := checksum_url; checksum := None;
                       ignore_encoding := false; cookies := None |}]
                   (checksum_downloaded self download_url) false Return))
   end end end end end).

End BaseJetBrains.

(** ** Arduino *)

Module Arduino.

Definition ARDUINO_GROUP : str := u "dialout".

Record t := {
  base : BaseInstaller;
  _current_user : str;
  was_in_arduino_group : bool;
  scraped_checksum_url : option str;
  scraped_download_url : option str;
  bits : str
}.

(** [int(os.getenv("SUDO_UID", default=0))]: [None] stands for [ValueError]. *)
Definition sudo_uid (L : PyLib) (os : OS) : option Z :=
  match getenv os (u "SUDO_UID") with
  | Some s => int L s
  | None => Some 0%Z
  end.

(** The names of the groups that list [user] among their members. *)
Definition groups_of (os : OS) (user : str) : list str :=
  map fst (filter (fun g => str_in user (snd g)) (getgrall os)).

(** The constructor.  [user] is [self._current_user] as the statements
    assign it, one after the other. *)
Definition __init__ (L : PyLib) (os : OS) (install_path : str) : exn + t :=
  let user := if negb (geteuid os =? 0)%Z then getenv os (u "USER") else None in
  match sudo_uid L os with
  | None => inl ValueError
  | Some uid =>
  match getpwuid os uid with
  | None => inl KeyError
  | Some pw_name =>
  let user := pw_name in
  let was_in := existsb (fun group_name => str_eqb group_name ARDUINO_GROUP)
                        (groups_of os user) in
  inr {| base := {| download_page := Some (u "http://www.arduino.cc/en/Main/Software");
                    desktop_filename := u "arduino.desktop";
                    only_on_archs := [u "i386"; u "amd64"];
                    need_root_access := negb was_in;
                    install_path := install_path;
                    download_requests := [] |};
         _current_user := user;
         was_in_arduino_group := was_in;
         scraped_checksum_url := None;
         scraped_download_url := None;
         bits := if str_eqb (machine os) (u "i686") then u "32" else u "64" |}
  end end.

(** [r'arduino-[\d\.\-r]+-linux' + self.bits + '.tar.xz$'] *)
Definition download_link_pat (bits : str) : str :=
  u "arduino-[\d\.\-r]+-linux" ++ bits ++ u ".tar.xz$".

(** [r'^(\S+)\s+arduino-[\d\.\-r]+-linux' + self.bits + '.tar.xz$'] *)
Definition checksum_line_pat (bits : str) : str :=
  u "^(\S+)\s+arduino-[\d\.\-r]+-linux" ++ bits ++ u ".tar.xz$".

(** The block under [with suppress(TypeError)]: the two scraped URLs as
    the block leaves them, or the exception that is not suppressed.
    Subscripting the [None] of a failed [find] raises the [TypeError]
    that ends the block. *)
Definition scrape (L : PyLib) (self : t) (soup : list Bs4.node)
  : exn + (option str * option str) :=
  match re_compile L (download_link_pat (bits self)) false with
  | None => inl re_error
  | Some pat =>
  match Bs4.find (Bs4.href_matches (u "a") (fun v => matched (re_search L pat v))) soup with
  | None => inr (scraped_download_url self, scraped_checksum_url self)
  | Some link =>
  match Bs4.get (Bs4.attrs link) (u "href") with
  | None => inl KeyError
  | Some download_href =>
  match re_compile L (u "Checksums") false with
  | None => inl re_error
  | Some pat' =>
  match Bs4.find (Bs4.text_matches (u "a") (fun s => matched (re_search L pat' s))) soup with
  | None => inr (Some download_href, scraped_checksum_url self)
  | Some link' =>
  match Bs4.get (Bs4.attrs link') (u "href") with
  | None => inl KeyError
  | Some checksum_href =>
      inr (Some (u "http:" ++ download_href), Some (u "http:" ++ checksum_href))
  end end end end end end.

Definition set_scraped (d c : option str) (self : t) : t :=
  {| base := base self;
     _current_user := _current_user self;
     was_in_arduino_group := was_in_arduino_group self;
     scraped_checksum_url := c;
     scraped_download_url := d;
     bits := bits self |}.

Definition set_base (b : BaseInstaller) (self : t) : t :=
  {| base := b;
     _current_user := _current_user self;
     was_in_arduino_group := was_in_arduino_group self;
     scraped_checksum_url := scraped_checksum_url self;
     scraped_download_url := scraped_download_url self;
     bits := bits self |}.

Definition page_arg (self : t) : list arg :=
  match download_page (base self) with Some p => [AStr p] | None => [] end.

Definition prepare_to_download_archive (L : PyLib) (os : OS) (self : t)
           (results_ : results) : proc :=
  match scraped_download_url self with
  | None => Raise KeyError
  | Some download_key =>
  match lookup download_key results_ with
  | None => Raise KeyError
  | Some download_page_ =>
  match scraped_checksum_url self with
  | None => Raise KeyError
  | Some checksum_key =>
  match lookup checksum_key results_ with
  | None => Raise KeyError
  | Some checksum_page =>
  if truthy_opt (error download_page_) then
    Log ERROR "Error fetching download page: %s"
        (match error download_page_ with Some e => [AStr e] | None => [] end)
      (return_main_screen 1)
  else if truthy_opt (error checksum_page) then
    Log ERROR "Error fetching checksums: %s"
        (match error checksum_page with Some e => [AStr e] | None => [] end)
      (return_main_screen 1)
  else
  match buffer checksum_page with
  | None => Raise AttributeError
  | Some checksum_data =>
  match decode_ascii checksum_data with
  | None => Raise UnicodeDecodeError
  | Some checksum_text =>
  match re_compile L (checksum_line_pat (bits self)) true with
  | None => Raise re_error
  | Some pat =>
  match re_search L pat checksum_text with
  | None => Log ERROR "Can't find a checksum." [] (return_main_screen 1)
  | Some groups =>
  match groups with
  | [] => Raise IndexError
  | checksum_ :: _ =>
  match buffer download_page_ with
  | None => Raise AttributeError
  | Some download_data =>
  let soup := BeautifulSoup L download_data in
  match re_compile L (u "JUST DOWNLOAD") false with
  | None => Raise re_error
  | Some pat' =>
  match Bs4.find (Bs4.text_matches (u "button") (fun s => matched (re_search L pat' s))) soup with
  | None => Log ERROR "Can't parse download button." [] (return_main_screen 1)
  | Some btn =>
  let base_url := final_url download_page_ in
  let cookies_ := response_cookies download_page_ in
  match Bs4.get (Bs4.parent btn) (u "href") with
  | None => Raise KeyError
  | Some href =>
  let final_download_url := urljoin L base_url href in
  Log INFO "Final download url: %s, cookies: %s."
      [AStr final_download_url; ACookies cookies_]
  (let self :=
     set_base (set_requests
                 [{| url := final_download_url;
                     checksum := Some {| checksum_type := md5; checksum_value := checksum_ |};
                     ignore_encoding := false;
                     cookies := Some cookies_ |}] (base self)) self in
   if negb (was_in_arduino_group self) then
     Submit (_current_user self) ARDUINO_GROUP
       (match snd (_add_to_group os (_current_user self) ARDUINO_GROUP) with
        | WorkerRaised e => Raise e
        | WorkerReturned false => return_main_screen 1
        | WorkerReturned true =>
            start_download_and_install (download_requests (base self)) Return
        end)
   else start_download_and_install (download_requests (base self)) Return)
  end end end end end end end end end end end end end.

Definition get_metadata_and_check_license (L : PyLib) (os : OS) (self : t)
           (result : results) : proc :=
  Log DEBUG "Parse download metadata" []
  (match download_page (base self) with
   | None => Raise KeyError
   | Some key =>
   match lookup key result with
   | None => Raise KeyError
   | Some page =>
   if truthy_opt (error page) then
     Log ERROR "An error occurred while downloading {}: {}"
         (AStr key :: match error page with Some e => [AStr e] | None => [] end)
       (return_main_screen 1)
   else
   match buffer page with
   | None => Raise TypeError
   | Some data =>
   let soup := BeautifulSoup L data in
   match scrape L self soup with
   | inl e => Raise e
   | inr (d, c) =>
   let self := set_scraped d c self in
   match (if truthy_opt d then d else None) with
   | None =>
       Log ERROR "Can't parse the download link from %s." (page_arg self)
         (return_main_screen 1)
   | Some download_url =>
   match (if truthy_opt c then c else None) with
   | None =>
       Log ERROR "Can't parse the checksum link from %s." (page_arg self)
         (return_main_screen 1)
   | Some checksum_url =>
       DownloadCenter
         [{| url := download_url; checksum := None;
             ignore_encoding := false; cookies := None |};
          {| url := checksum_url; checksum := None;
             ignore_encoding := false; cookies := None |}]
         (prepare_to_download_archive L os self) false Return
   end end end end end end).

Definition post_install (self : t) : proc :=
  let icon_path := join (join (install_path (base self)) (u "lib")) (u "arduino_icon.ico") in
  let exec_path := [0x22] ++ join (install_path (base self)) (u "arduino") ++ [0x22] ++ u " %f" in
  create_launcher (desktop_filename (base self))
    {| df_name := "Arduino";
       df_icon_path := icon_path;
       df_exec := exec_path;
       df_comment := "The Arduino Software IDE";
       df_categories := "Development;IDE;" |}
    (if negb (was_in_arduino_group self) then
       delayed_display "You need to logout and login again for your installation to work" Return
     else Return).

End Arduino.

(** ** NetBeans *)

Module BaseNetBeans.

Definition BASE_URL : str := u "http://download.netbeans.org/netbeans/".
Definition FALLBACK_VERSION : str := u "8.0.2".

(** The double quote and the line feed, as one-character strings. *)
Definition dq : str := [0x22].
Definition lf : str := [0x0A].

(** An attribute that this class reads and no constructor under src
    sets: absent from the object, [None], or a [str]. *)
Inductive attribute := Missing | PyNone | PyStr (s : str).

Record t := {
  base : BaseInstaller;
  flavour : str;
  version : attribute;
  version_download_page : option str;
  complete_name : option str
}.

(** The constructor; [version] is the attribute as the base class
    leaves it. *)
Definition __init__ (flavour : str) (install_path : str) (version : attribute) : t :=
  let flavour := if truthy flavour then u "-" ++ flavour else flavour in
  {| base := {| download_page := Some (u "https://netbeans.org/downloads/zip.html");
                desktop_filename := u "netbeans" ++ flavour ++ u ".desktop";
                only_on_archs := [u "i386"; u "amd64"];
                need_root_access := false;
                install_path := install_path;
                download_requests := [] |};
     flavour := flavour;
     version := version;
     version_download_page := None;
     complete_name := None |}.

Definition set_version (v : attribute) (p : option str) (self : t) : t :=
  {| base := base self; flavour := flavour self; version := v;
     version_download_page := p; complete_name := complete_name self |}.

(** The loop over the lines of files.js: the cleaned-up text of the last
    line the pattern matches; [None] when the loop never assigns
    [url_string]. *)
Definition scan_files (matches : str -> bool) (url_file : str) : option str :=
  fold_left
    (fun url_string line =>
       if matches line
       then Some (replace dq empty (replace (u ");") empty (replace (u "add_file(") empty line)))
       else url_string)
    (split lf url_file) None.

Definition parse_download_page_callback (L : PyLib) (self : t) (result : results) : proc :=
  match version self with
  | Missing => Raise AttributeError
  | PyNone =>
      Log INFO "Netbeans {}" [AStr (u "None")]
      (match version_download_page self with
       | None => Raise KeyError
       | Some key =>
       match lookup key result with
       | None => Raise KeyError
       | Some page =>
       match buffer page with
       | None =>
           Log ERROR "The download page changed its syntax or is not parsable" []
             (return_main_screen 1)
       | Some data =>
       match decode_utf8 data with
       | None => Raise UnicodeDecodeError
       | Some _ => Raise TypeError
       end end end end)
  | PyStr version_ =>
      Log INFO "Netbeans {}" [AStr version_]
      (match version_download_page self with
       | None => Raise KeyError
       | Some key =>
       match lookup key result with
       | None => Raise KeyError
       | Some page =>
       match buffer page with
       | None =>
           Log ERROR "The download page changed its syntax or is not parsable" []
             (return_main_screen 1)
       | Some data =>
       match decode_utf8 data with
       | None => Raise UnicodeDecodeError
       | Some url_file =>
       match re_compile L (u "add_file\(" ++ dq ++ u "zip/netbeans-" ++ version_
                             ++ u "-[0-9]{12}" ++ flavour self ++ u ".zip" ++ dq) false with
       | None => Raise re_error
       | Some preg =>
       match scan_files (fun line => matched (re_match L preg line)) url_file with
       | None => Raise UnboundLocalError
       | Some url_string =>
       if negb (truthy url_string) then
         Log ERROR "The download page changed its syntax or is not parsable" []
           (return_main_screen 1)
       else
       match split (u ", ") url_string with
       | url_suffix :: _ :: md5_ :: _ =>
           let download_url := BASE_URL ++ version_ ++ u "/final/" ++ url_suffix in
           let base_ := append_request
                          {| url := download_url;
                             checksum := Some {| checksum_type := md5; checksum_value := md5_ |};
                             ignore_encoding := false;
                             cookies := None |} (base self) in
           start_download_and_install (download_requests base_) Return
       | _ =>
           Log ERROR "The download page changed its syntax or is not parsable" []
             (return_main_screen 1)
       end end end end end end end)
  end.

(** The loop over the lines of the download page: [self.version] after
    it, the last matching line winning. *)
Definition scan_version (matches : str -> bool) (url_version_str : str)
           (version0 : attribute) : attribute :=
  fold_left
    (fun version line =>
       if matches line
       then PyStr (strip (replace (u "/" ++ dq ++ u ";") empty
                            (replace (u "var PAGE_ARTIFACTS_LOCATION = " ++ dq
                                        ++ u "/images_www/v6/download/") empty line)))
       else version)
    (split lf url_version_str) version0.

Definition files_js (version_ : str) : str :=
  u "https://netbeans.org/images_www/v6/download/" ++ version_ ++ u "/js/files.js".

(** The end of [get_metadata_and_check_license], once [self.version] is
    a non-empty [str]. *)
Definition fetch_files (L : PyLib) (self : t) (version_ : str) : proc :=
  let self := set_version (PyStr version_) (Some (files_js version_)) self in
  DownloadCenter [{| url := files_js version_; checksum := None;
                     ignore_encoding := false; cookies := None |}]
                 (parse_download_page_callback L self) false Return.

Definition get_metadata_and_check_license (L : PyLib) (self : t) (result : results) : proc :=
  match download_page (base self) with
  | None => Raise KeyError
  | Some key =>
  match lookup key result with
  | None => Raise KeyError
  | Some page =>
  match buffer page with
  | None =>
      Log ERROR ("You either have no connection available or "
                 ++ "the download page changed its syntax or is not parsable") []
        (return_main_screen 1)
  | Some data =>
  match decode_utf8 data with
  | None => Raise UnicodeDecodeError
  | Some url_version_str =>
  match re_compile L (u ".*/images_www/v6/download/.*") false with
  | None => Raise re_error
  | Some preg =>
  match scan_version (fun line => matched (re_match L preg line))
                     url_version_str (version self) with
  | Missing => Raise AttributeError
  | PyStr (c :: s) => fetch_files L self (c :: s)
  | PyNone | PyStr [] =>
      Log WARNING "Could not determine latest version, using version {} as fallback..."
          [AStr FALLBACK_VERSION]
        (fetch_files L self FALLBACK_VERSION)
  end end end end end end.

End BaseNetBeans.

(** ** A reference library, for running the handlers on concrete pages

    An instance of [PyLib] that computes.  Its regular expressions cover
    the syntax ide.py writes (literals, [.], [^], [$], escapes, classes,
    groups, [|], [*], [+], [?], [{n}]) on ASCII subjects; another pattern
    is refused as [re.error] would.  Its HTML parser is a table of pages
    with the trees bs4 builds for them; [urljoin] covers references that
    are absolute, or start with a slash; [int] reads ASCII decimal digits
    with an optional sign, between optional whitespace. *)

Module Ref.

Inductive regex :=
| Eps
| Chr (ok : N -> bool)
| Bol
| Eol
| Seq (r1 r2 : regex)
| Alt (r1 r2 : regex)
| Star (r : regex)
| Group (r : regex).

Fixpoint size (r : regex) : nat :=
  match r with
  | Eps | Chr _ | Bol | Eol => 1
  | Seq r1 r2 | Alt r1 r2 => S (size r1 + size r2)
  | Star r | Group r => S (size r)
  end.

(** A position in the subject: what was read, last code point first,
    what is left, and the groups closed so far. *)
Record state := {
  seen : str;
  rest : str;
  groups : list str
}.

Definition at_bol (multiline : bool) (st : state) : bool :=
  match seen st with
  | [] => true
  | c :: _ => multiline && (c =? 0x0A)
  end.

Definition at_eol (multiline : bool) (st : state) : bool :=
  match rest st with
  | [] => true
  | [c] => c =? 0x0A
  | c :: _ => multiline && (c =? 0x0A)
  end.

(** A backtracking matcher, greedy, leftmost alternative first. *)
Fixpoint run (fuel : nat) (multiline : bool) (r : regex) (st : state)
         (k : state -> option (list str)) : option (list str) :=
  match fuel with
  | O => None
  | S f =>
      match r with
      | Eps => k st
      | Chr ok =>
          match rest st with
          | c :: tl =>
              if ok c
              then k {| seen := c :: seen st; rest := tl; groups := groups st |}
              else None
          | [] => None
          end
      | Bol => if at_bol multiline st then k st else None
      | Eol => if at_eol multiline st then k st else None
      | Seq r1 r2 => run f multiline r1 st (fun st' => run f multiline r2 st' k)
      | Alt r1 r2 =>
          match run f multiline r1 st k with
          | Some g => Some g
          | None => run f multiline r2 st k
          end
      | Star r1 =>
          match run f multiline r1 st
                    (fun st' =>
                       if (List.length (rest st') <? List.length (rest st))%nat
                       then run f multiline (Star r1) st' k
                       else None) with
          | Some g => Some g
          | None => k st
          end
      | Group r1 =>
          run f multiline r1 st
              (fun st' =>
                 k {| seen := seen st'; rest := rest st';
                      groups := groups st'
                                ++ [rev (firstn (List.length (seen st') - List.length (seen st))
                                                (seen st'))] |})
      end
  end.

Definition fuel_for (r : regex) (s : str) : nat :=
  (size r + 2) * (List.length s + 2).

(** [pattern.match]: at the start of the subject only. *)
Definition match_at (multiline : bool) (r : regex) (seen_ rest_ : str)
  : option (list str) :=
  run (fuel_for r (seen_ ++ rest_)) multiline r
      {| seen := seen_; rest := rest_; groups := [] |}
      (fun st => Some (groups st)).

(** [pattern.search]: the first position, left to right, with a match. *)
Fixpoint search_from (multiline : bool) (r : regex) (seen_ rest_ : str)
  : option (list str) :=
  match match_at multiline r seen_ rest_ with
  | Some g => Some g
  | None =>
      match rest_ with
      | [] => None
      | c :: tl => search_from multiline r (c :: seen_) tl
      end
  end.

Definition is_digit (c : N) : bool := (0x30 <=? c) && (c <=? 0x39).

Definition is_alnum (c : N) : bool :=
  is_digit c || ((0x41 <=? c) && (c <=? 0x5A)) || ((0x61 <=? c) && (c <=? 0x7A)).

(** The set an escape denotes, inside or outside a class: [\d], [\s],
    [\S], or the escaped punctuation character itself. *)
Definition escape (c : N) : option (N -> bool) :=
  if c =? 0x64 then Some is_digit
  else if c =? 0x73 then Some is_space
  else if c =? 0x53 then Some (fun x => negb (is_space x))
  else if is_alnum c then None
  else Some (N.eqb c).

(** The items of a class, after the opening bracket, up to the closing one. *)
Fixpoint parse_class (s : str) (acc : N -> bool) : option ((N -> bool) * str) :=
  match s with
  | [] => None
  | c :: s1 =>
      if c =? 0x5D then Some (acc, s1)
      else if c =? 0x5C then
        match s1 with
        | e :: s2 =>
            match escape e with
            | Some ok => parse_class s2 (fun x => acc x || ok x)
            | None => None
            end
        | [] => None
        end
      else
        match s1 with
        | d :: hi :: s3 =>
            if (d =? 0x2D) && negb (hi =? 0x5D)
            then if hi =? 0x5C then None
                 else parse_class s3 (fun x => acc x || ((c <=? x) && (x <=? hi)))
            else parse_class s1 (fun x => acc x || (x =? c))
        | _ => parse_class s1 (fun x => acc x || (x =? c))
        end
  end.

(** A run of decimal digits, as a number, and what follows it. *)
Fixpoint parse_number (s : str) (acc : nat) : nat * str :=
  match s with
  | c :: s' => if is_digit c then parse_number s' (10 * acc + N.to_nat (c - 0x30)) else (acc, s)
  | [] => (acc, s)
  end.

Fixpoint repeat_seq (r : regex) (n : nat) : regex :=
  match n with
  | O => Eps
  | S n' => Seq r (repeat_seq r n')
  end.

(** The quantifier after an atom, if there is one. *)
Definition quantifier (a : regex) (s : str) : option (regex * str) :=
  let lazy (q : regex) (s' : str) :=
    match s' with
    | c :: _ => if (c =? 0x3F) || (c =? 0x2B) || (c =? 0x2A) || (c =? 0x7B)
                then None else Some (q, s')
    | [] => Some (q, s')
    end in
  match s with
  | c :: s' =>
      if c =? 0x2A then lazy (Star a) s'
      else if c =? 0x2B then lazy (Seq a (Star a)) s'
      else if c =? 0x3F then lazy (Alt a Eps) s'
      else if c =? 0x7B then
        match s' with
        | d :: _ =>
            if is_digit d then
              match parse_number s' 0 with
              | (n, e :: s'') => if e =? 0x7D then lazy (repeat_seq a n) s'' else None
              | (_, []) => None
              end
            else None
        | [] => None
        end
      else Some (a, s)
  | [] => Some (a, s)
  end.

(** Concatenations and alternatives, up to a closing parenthesis or the
    end of the pattern. *)
Fixpoint parse_seq (fuel : nat) (s : str) : option (regex * str) :=
  match fuel with
  | O => None
  | S f =>
      match s with
      | [] => Some (Eps, [])
      | c :: s1 =>
          if (c =? 0x29) || (c =? 0x7C) then Some (Eps, s)
          else
            let atom :=
              if c =? 0x28 then
                match s1 with
                | q :: _ =>
                    if q =? 0x3F then None
                    else match parse_alt f s1 with
                         | Some (r, e :: s2) => if e =? 0x29 then Some (Group r, s2) else None
                         | _ => None
                         end
                | [] => None
                end
              else if c =? 0x5B then
                match s1 with
                | n :: s2 =>
                    if n =? 0x5E
                    then match parse_class s2 (fun _ => false) with
                         | Some (ok, s3) => Some (Chr (fun x => negb (ok x)), s3)
                         | None => None
                         end
                    else match parse_class s1 (fun _ => false) with
                         | Some (ok, s3) => Some (Chr ok, s3)
                         | None => None
                         end
                | [] => None
                end
              else if c =? 0x5C then
                match s1 with
                | e :: s2 =>
                    match escape e with
                    | Some ok => Some (Chr ok, s2)
                    | None => None
                    end
                | [] => None
                end
              else if c =? 0x2E then Some (Chr (fun x => negb (x =? 0x0A)), s1)
              else if c =? 0x5E then Some (Bol, s1)
              else if c =? 0x24 then Some (Eol, s1)
              else if (c =? 0x2A) || (c =? 0x2B) || (c =? 0x3F) || (c =? 0x7B) then None
              else Some (Chr (N.eqb c), s1) in
            match atom with
            | None => None
            | Some (a, s2) =>
                match quantifier a s2 with
                | None => None
                | Some (p, s3) =>
                    match parse_seq f s3 with
                    | Some (r, s4) => Some (Seq p r, s4)
                    | None => None
                    end
                end
            end
      end
  end
with parse_alt (fuel : nat) (s : str) : option (regex * str) :=
  match fuel with
  | O => None
  | S f =>
      match parse_seq f s with
      | Some (r1, c :: s1) =>
          if c =? 0x7C
          then match parse_alt f s1 with
               | Some (r2, s2) => Some (Alt r1 r2, s2)
               | None => None
               end
          else Some (r1, c :: s1)
      | other => other
      end
  end.

(** A compiled pattern: the expression and the [re.M] flag. *)
Definition compile (pattern : str) (multiline : bool) : option (regex * bool) :=
  match parse_alt (2 * List.length pattern + 2) pattern with
  | Some (r, []) => Some (r, multiline)
  | _ => None
  end.

Definition search (p : regex * bool) (s : str) : option (list str) :=
  search_from (snd p) (fst p) [] s.

Definition match_ (p : regex * bool) (s : str) : option (list str) :=
  match_at (snd p) (fst p) [] s.

Fixpoint bytes_eqb (x y : bytes) : bool :=
  match x, y with
  | [], [] => true
  | a :: x', c :: y' => Byte.eqb a c && bytes_eqb x' y'
  | _, _ => false
  end.

(** The tree of a page of the table; the empty document for another page. *)
Fixpoint parse (pages : list (bytes * list Bs4.node)) (data : bytes) : list Bs4.node :=
  match pages with
  | [] => []
  | (page, soup) :: pages' => if bytes_eqb page data then soup else parse pages' data
  end.

(** The code points before the first one that satisfies [stop]. *)
Fixpoint take_until (stop : N -> bool) (s : str) : str :=
  match s with
  | [] => []
  | c :: s' => if stop c then [] else c :: take_until stop s'
  end.

(** [scheme://netloc] of an absolute URL. *)
Definition origin (base : str) : str :=
  let scheme := take_until (N.eqb 0x3A) base in
  let after := skipn (List.length scheme + 3) base in
  scheme ++ u "://"
         ++ take_until (fun c => (c =? 0x2F) || (c =? 0x3F) || (c =? 0x23)) after.

Definition join_url (base url_ : str) : str :=
  if startswith (u "http://") url_ || startswith (u "https://") url_ then url_
  else if startswith (u "//") url_ then take_until (N.eqb 0x3A) base ++ u ":" ++ url_
  else if startswith (u "/") url_ then origin base ++ url_
  else match url_ with [] => base | _ :: _ => url_ end.

Fixpoint digits (s : str) (acc : Z) : option Z :=
  match s with
  | [] => Some acc
  | c :: s' => if is_digit c then digits s' (10 * acc + Z.of_N (c - 0x30))%Z else None
  end.

Definition to_int (s : str) : option Z :=
  match strip s with
  | [] => None
  | c :: s' =>
      if c =? 0x2D then
        match s' with [] => None | _ :: _ => option_map Z.opp (digits s' 0%Z) end
      else if c =? 0x2B then
        match s' with [] => None | _ :: _ => digits s' 0%Z end
      else digits (c :: s') 0%Z
  end.

Definition lib (pages : list (bytes * list Bs4.node)) : PyLib :=
  {| BeautifulSoup := parse pages;
     re_pattern := regex * bool;
     re_compile := compile;
     re_search := search;
     re_match := match_;
     urljoin := join_url;
     int := to_int |}.

End Ref.

(** ** Vocabulary of the statements *)

(** [s.split()[0]], when there is one: the first whitespace-delimited token. *)
Definition first_token (text : str) : option str := hd_error (split_ws text).

(** The code points of [s] before its first whitespace. *)
Fixpoint leading_token (s : str) : str :=
  match s with
  | [] => []
  | c :: s' => if is_space c then [] else c :: leading_token s'
  end.

(** The digest a fetched checksum file carries: the first
    whitespace-delimited token of its decoded body, when the fetch
    succeeded and the body has one. *)
Definition nested_digest (res : option DownloadResult) : option str :=
  match res with
  | Some r =>
      if truthy_opt (error r) then None
      else match buffer r with
           | Some data =>
               match decode_utf8 data with
               | Some text => first_token text
               | None => None
               end
           | None => None
           end
  | None => None
  end.

(** A request for a page, as [DownloadItem(url)] builds it. *)
Definition page_request (url_ : str) : DownloadItem :=
  {| url := url_; checksum := None; ignore_encoding := false; cookies := None |}.

(** A request for an archive with its expected digest. *)
Definition archive_request (url_ : str) (kind : ChecksumType) (digest : str)
           (ignore : bool) (cookies_ : option Cookies) : DownloadItem :=
  {| url := url_;
     checksum := Some {| checksum_type := kind; checksum_value := digest |};
     ignore_encoding := ignore;
     cookies := cookies_ |}.

(** A handler with a diagnostic policy: with [strict], a warning counts
    like an error, so that nothing but the abort may follow it. *)
Fixpoint aborts_on (strict : bool) (p : proc) : Prop :=
  match p with
  | Return | Raise _ | Quit _ => True
  | Log ERROR _ _ k => k = Quit 1
  | Log WARNING _ _ k => if strict then k = Quit 1 else aborts_on strict k
  | Log _ _ _ k => aborts_on strict k
  | DownloadCenter _ on_done _ k =>
      (forall r, aborts_on strict (on_done r)) /\ aborts_on strict k
  | Submit _ _ k | start_download_and_install _ k | create_launcher _ _ k
  | delayed_display _ k => aborts_on strict k
  end.

(** [p] stops at the error it detects: the error record is the last thing
    it does and the only error record, the abort with status 1 follows,
    and before that [p] has neither called the Download Coordinator nor
    started the installation. *)
Definition aborted_after_error (p : proc) : Prop :=
  end_of p = Aborted 1 /\ callbacks p = [] /\ started p = None /\
  exists before msg args,
    events p = before ++ [EvLog ERROR msg args] /\ filter is_error_log before = [].

(** [p] calls the Download Coordinator at most once, and the continuation
    it registers never calls it: no page is asked for a second time. *)
Definition single_fetch (p : proc) : Prop :=
  (List.length (callbacks p) <= 1)%nat /\
  Forall (fun cb => forall r, callbacks (snd cb r) = []) (callbacks p).

(** No warning is logged, in the handler or in a continuation it
    registers. *)
Fixpoint no_warning (p : proc) : Prop :=
  match p with
  | Return | Raise _ | Quit _ => True
  | Log WARNING _ _ _ => False
  | Log _ _ _ k => no_warning k
  | DownloadCenter _ on_done _ k => (forall r, no_warning (on_done r)) /\ no_warning k
  | Submit _ _ k | start_download_and_install _ k | create_launcher _ _ k
  | delayed_display _ k => no_warning k
  end.

(** No privilege step: no worker is submitted and no deferred notice is
    queued, in the handler and in every continuation it registers. *)
Fixpoint no_privilege (p : proc) : Prop :=
  match p with
  | Return | Raise _ | Quit _ => True
  | Submit _ _ _ | delayed_display _ _ => False
  | DownloadCenter _ on_done _ k => (forall r, no_privilege (on_done r)) /\ no_privilege k
  | Log _ _ _ k | start_download_and_install _ k | create_launcher _ _ k => no_privilege k
  end.

(** [frame p q]: [q] does what [p] does, in the same order and with the
    same arguments, once the worker submissions and the deferred notices
    of [p] are left out. *)
Inductive frame : proc -> proc -> Prop :=
| frame_Return : frame Return Return
| frame_Raise e : frame (Raise e) (Raise e)
| frame_Quit status : frame (Quit status) (Quit status)
| frame_Log lvl msg args k k' :
    frame k k' -> frame (Log lvl msg args k) (Log lvl msg args k')
| frame_DownloadCenter urls f f' download k k' :
    (forall r, frame (f r) (f' r)) -> frame k k' ->
    frame (DownloadCenter urls f download k) (DownloadCenter urls f' download k')
| frame_start reqs k k' :
    frame k k' ->
    frame (start_download_and_install reqs k) (start_download_and_install reqs k')
| frame_launcher f c k k' :
    frame k k' -> frame (create_launcher f c k) (create_launcher f c k')
| frame_Submit user group k q : frame k q -> frame (Submit user group k) q
| frame_delayed msg k q : frame k q -> frame (delayed_display msg k) q.

(** The Arduino installer with another value of [was_in_arduino_group]. *)
Definition with_membership (member : bool) (self : Arduino.t) : Arduino.t :=
  {| Arduino.base := Arduino.base self;
     Arduino._current_user := Arduino._current_user self;
     Arduino.was_in_arduino_group := member;
     Arduino.scraped_checksum_url := Arduino.scraped_checksum_url self;
     Arduino.scraped_download_url := Arduino.scraped_download_url self;
     Arduino.bits := Arduino.bits self |}.

(** The filters of the Arduino resolver's searches. *)
Definition download_anchor (L : PyLib) (pat : re_pattern L) : Bs4.element -> bool :=
  Bs4.href_matches (u "a") (fun v => matched (re_search L pat v)).

Definition labelled (L : PyLib) (tag_name : str) (pat : re_pattern L) : Bs4.element -> bool :=
  Bs4.text_matches tag_name (fun s => matched (re_search L pat s)).

(** ** Example inputs *)

Module Example.

Definition q : bytes := [x22].

(** A page fetched without error. *)
Definition fetched (body : bytes) : DownloadResult :=
  {| buffer := Some body; error := None; final_url := []; response_cookies := [] |}.

(** A fetch that failed in the transport. *)
Definition failed (message : str) : DownloadResult :=
  {| buffer := None; error := Some message; final_url := []; response_cookies := [] |}.

Definition anchor (href text : str) : Bs4.node :=
  Bs4.Tag (u "a") [(u "href", href)] [Bs4.NavigableString text].

(** *** JetBrains *)

Definition pycharm : BaseJetBrains.t :=
  {| BaseJetBrains.base :=
       {| download_page := Some (u "https://www.jetbrains.com/pycharm/download/download_thanks.jsp?edition=comm&os=linux");
          desktop_filename := u "jetbrains-pycharm.desktop";
          only_on_archs := [u "i386"; u "amd64"];
          need_root_access := false;
          install_path := u "/home/alice/tools/ide/pycharm";
          download_requests := [] |};
     BaseJetBrains.download_page_url :=
       u "https://www.jetbrains.com/pycharm/download/download_thanks.jsp?edition=comm&os=linux" |}.

(** The page [<a href="https://x/archive.tar.gz">HTTPS</a>]. *)
Definition one_link : bytes :=
  b "<a href=" ++ q ++ b "https://x/archive.tar.gz" ++ q ++ b ">HTTPS</a>".

(** The same page with a second anchor labelled HTTPS after the first. *)
Definition two_links : bytes :=
  one_link ++ b "<a href=" ++ q ++ b "https://y/other.tar.gz" ++ q ++ b ">HTTPS</a>".

Definition jetbrains_pages : list (bytes * list Bs4.node) :=
  [(one_link, [anchor (u "https://x/archive.tar.gz") (u "HTTPS")]);
   (two_links, [anchor (u "https://x/archive.tar.gz") (u "HTTPS");
                anchor (u "https://y/other.tar.gz") (u "HTTPS")])].

Definition jetbrains_result (body : bytes) : results :=
  [(u "https://www.jetbrains.com/pycharm/download/download_thanks.jsp?edition=comm&os=linux",
    fetched body)].

(** The checksum file [deadbeef  archive.tar.gz]. *)
Definition sha256_file : results :=
  [(u "https://x/archive.tar.gz.sha256", fetched (b "deadbeef  archive.tar.gz"))].

(** *** Eclipse *)

Definition md5_url_64 : str := Eclipse.DOWNLOAD_URL_PAT (u "-x86_64") (u ".md5").

(** A checksum file that was fetched without error and is empty. *)
Definition empty_md5_file : results := [(md5_url_64, fetched [])].

(** *** Arduino *)

(** A machine where [sudo umake] is run by alice (uid 1000); the members
    of dialout and the success of [adduser] are left open. *)
Definition host (machine_ : str) (dialout_members : list str) (adduser_ok : bool) : OS :=
  {| geteuid := 0%Z;
     environ := [(u "USER", u "root"); (u "SUDO_UID", u "1000")];
     getpwuid := fun uid => if (uid =? 0)%Z then Some (u "root")
                            else if (uid =? 1000)%Z then Some (u "alice")
                            else None;
     getgrall := [(u "sudo", [u "alice"]); (u "dialout", dialout_members)];
     machine := machine_;
     seteuid_permitted := true;
     adduser := fun _ _ => if adduser_ok then Output (b "Adding user to group")
                           else NonZeroExit |}.

(** The Software page: a document whose body holds an anchor to the
    64-bit archive and an anchor labelled Checksums. *)
Definition software_page : bytes :=
  b "<html><head></head><body><a href=" ++ q
    ++ b "//www.arduino.cc/download_handler.php?f=/arduino-1.6.5-linux64.tar.xz" ++ q
    ++ b ">Linux 64 bits</a><a href=" ++ q
    ++ b "//arduino.cc/download.php?f=/arduino-1.6.5.md5sum.txt" ++ q
    ++ b ">Checksums</a></body></html>".

(** The page behind the archive link: its JUST DOWNLOAD button sits in an
    anchor to the archive. *)
Definition click_page : bytes :=
  b "<html><head></head><body><a href=" ++ q ++ b "/arduino-1.6.5-linux64.tar.xz" ++ q
    ++ b "><button>JUST DOWNLOAD</button></a></body></html>".

Definition software_url : str := u "http://www.arduino.cc/en/Main/Software".
Definition scraped_download : str :=
  u "http://www.arduino.cc/download_handler.php?f=/arduino-1.6.5-linux64.tar.xz".
Definition scraped_checksum : str :=
  u "http://arduino.cc/download.php?f=/arduino-1.6.5.md5sum.txt".

(** The trees bs4 builds for the two pages, tag for tag: [html] holds an
    empty [head] and the [body], and the body holds the anchors. *)
Definition arduino_pages : list (bytes * list Bs4.node) :=
  [(software_page,
    [Bs4.Tag (u "html") []
       [Bs4.Tag (u "head") [] [];
        Bs4.Tag (u "body") []
          [anchor (u "//www.arduino.cc/download_handler.php?f=/arduino-1.6.5-linux64.tar.xz")
                  (u "Linux 64 bits");
           anchor (u "//arduino.cc/download.php?f=/arduino-1.6.5.md5sum.txt")
                  (u "Checksums")]]]);
   (click_page,
    [Bs4.Tag (u "html") []
       [Bs4.Tag (u "head") [] [];
        Bs4.Tag (u "body") []
          [Bs4.Tag (u "a") [(u "href", u "/arduino-1.6.5-linux64.tar.xz")]
             [Bs4.Tag (u "button") [] [Bs4.NavigableString (u "JUST DOWNLOAD")]]]]])].

Definition md5sums : bytes :=
  b "ffffffffffffffffffffffffffffffff  arduino-1.6.5-linux32.tar.xz" ++ [x0a]
  ++ b "0123456789abcdef0123456789abcdef  arduino-1.6.5-linux64.tar.xz" ++ [x0a].

Definition software_result : results := [(software_url, fetched software_page)].

Definition click_result : results :=
  [(scraped_download,
    {| buffer := Some click_page; error := None;
       final_url := u "http://downloads.arduino.cc/redirect/thanks";
       response_cookies := [(u "session", u "42")] |});
   (scraped_checksum, fetched md5sums)].

Definition install_dir : str := u "/home/alice/tools/ide/arduino".

(** The installer the constructor builds for alice on a 64-bit host. *)
Definition arduino (member : bool) : Arduino.t :=
  {| Arduino.base :=
       {| download_page := Some software_url;
          desktop_filename := u "arduino.desktop";
          only_on_archs := [u "i386"; u "amd64"];
          need_root_access := negb member;
          install_path := install_dir;
          download_requests := [] |};
     Arduino._current_user := u "alice";
     Arduino.was_in_arduino_group := member;
     Arduino.scraped_checksum_url := None;
     Arduino.scraped_download_url := None;
     Arduino.bits := u "64" |}.

(** The same installer once the Software page has been scraped. *)
Definition arduino_scraped (member : bool) : Arduino.t :=
  Arduino.set_scraped (Some scraped_download) (Some scraped_checksum) (arduino member).

(** *** NetBeans *)

(** A download page whose artifacts line carries an empty version:
    [var PAGE_ARTIFACTS_LOCATION = "/images_www/v6/download//";]. *)
Definition zip_html : bytes :=
  b "<script>" ++ [x0a]
  ++ b "var PAGE_ARTIFACTS_LOCATION = " ++ q ++ b "/images_www/v6/download//" ++ q ++ b ";"
  ++ [x0a] ++ b "</script>".

Definition netbeans : BaseNetBeans.t :=
  BaseNetBeans.__init__ empty (u "/home/alice/tools/ide/netbeans") BaseNetBeans.Missing.

Definition zip_result : results :=
  [(u "https://netbeans.org/downloads/zip.html", fetched zip_html)].

(** The installer once the version is known to be 8.0.2. *)
Definition netbeans_802 : BaseNetBeans.t :=
  BaseNetBeans.set_version (BaseNetBeans.PyStr (u "8.0.2"))
                           (Some (BaseNetBeans.files_js (u "8.0.2"))) netbeans.

(** A files.js without any [add_file] line. *)
Definition files_js_result : results :=
  [(BaseNetBeans.files_js (u "8.0.2"), fetched (b "// no files"))].

(** A download page with the artifacts line of version 8.1. *)
Definition zip_html_81 : bytes :=
  b "var PAGE_ARTIFACTS_LOCATION = " ++ q ++ b "/images_www/v6/download/8.1/" ++ q ++ b ";".

(** A files.js with the line of the 8.0.2 archive:
    [add_file("zip/netbeans-8.0.2-201411181905.zip", 219654477, "0eaa...", "en");]. *)
Definition files_js_802 : results :=
  [(BaseNetBeans.files_js (u "8.0.2"),
    fetched (b "add_file(" ++ q ++ b "zip/netbeans-8.0.2-201411181905.zip" ++ q
               ++ b ", 219654477, " ++ q ++ b "0eaa6d1bd3b4b4d9b2a4e0c3c8a2d1a3" ++ q
               ++ b ", " ++ q ++ b "en" ++ q ++ b ");"))].

End Example.

(** ** The launchers and the installer classes *)

(** ['"{}" %f'.format(path)]. *)
Definition quoted_exec (path : str) : str := [0x22] ++ path ++ [0x22] ++ u " %f".

(** Eclipse: what the constructor passes for [required_files_path], and
    [post_install]. *)
Module EclipseDesktop.

Definition required_files_path : list str := [u "eclipse"].

Definition post_install (self : BaseInstaller) : proc :=
  let icon_filename := u "icon.xpm" in
  let icon_path := join (install_path self) icon_filename in
  let exec_path := quoted_exec (join (install_path self) (u "eclipse")) in
  create_launcher (desktop_filename self)
    {| df_name := "Eclipse Luna";
       df_icon_path := icon_path;
       df_exec := exec_path;
       df_comment := "The Eclipse Luna Integrated Development Environment";
       df_categories := "Development;IDE;" |}
    Return.

End EclipseDesktop.

(** The subclasses of [BaseJetBrains]: their class attributes and the
    arguments their constructors pass on, which [post_install] reads back
    from the object ([description], [desktop_filename], [icon_filename]). *)
Module JetBrains.

Record cls := {
  name : string;
  description : string;
  download_page_url : str;
  executable : str;
  dir_to_decompress_in_tarball : str;
  desktop_file : str;
  icon_filename : str
}.

Definition PyCharm : cls :=
  {| name := "PyCharm";
     description := "PyCharm Community Edition";
     download_page_url :=
       u "https://www.jetbrains.com/pycharm/download/download_thanks.jsp?edition=comm&os=linux";
     executable := u "pycharm.sh";
     dir_to_decompress_in_tarball := u "pycharm-community-*";
     desktop_file := u "jetbrains-pycharm.desktop";
     icon_filename := u "pycharm.png" |}.

Definition PyCharmEducational : cls :=
  {| name := "PyCharm Educational";
     description := "PyCharm Educational Edition";
     download_page_url :=
       u "https://www.jetbrains.com/pycharm-edu/download/download_thanks.jsp?os=linux";
     executable := u "pycharm.sh";
     dir_to_decompress_in_tarball := u "pycharm-edu*";
     desktop_file := u "jetbrains-pycharm.desktop";
     icon_filename := u "pycharm.png" |}.

Definition PyCharmProfessional : cls :=
  {| name := "PyCharm Professional";
     description := "PyCharm Professional Edition";
     download_page_url :=
       u "https://www.jetbrains.com/pycharm/download/download_thanks.jsp?os=linux";
     executable := u "pycharm.sh";
     dir_to_decompress_in_tarball := u "pycharm-*";
     desktop_file := u "jetbrains-pycharm.desktop";
     icon_filename := u "pycharm.png" |}.

Definition Idea : cls :=
  {| name := "Idea";
     description := "IntelliJ IDEA Community Edition";
     download_page_url :=
       u "https://www.jetbrains.com/idea/download/download_thanks.jsp?edition=IC&os=linux";
     executable := u "idea.sh";
     dir_to_decompress_in_tarball := u "idea-IC-*";
     desktop_file := u "jetbrains-idea.desktop";
     icon_filename := u "idea.png" |}.

Definition IdeaUltimate : cls :=
  {| name := "Idea Ultimate";
     description := "IntelliJ IDEA";
     download_page_url :=
       u "https://www.jetbrains.com/idea/download/download_thanks.jsp?edition=IU&os=linux";
     executable := u "idea.sh";
     dir_to_decompress_in_tarball := u "idea-IU-*";
     desktop_file := u "jetbrains-idea.desktop";
     icon_filename := u "idea.png" |}.

Definition RubyMine : cls :=
  {| name := "RubyMine";
     description := "Ruby on Rails IDE";
     download_page_url :=
       u "https://www.jetbrains.com/ruby/download/download_thanks.jsp?os=linux";
     executable := u "rubymine.sh";
     dir_to_decompress_in_tarball := u "RubyMine-*";
     desktop_file := u "jetbrains-rubymine.desktop";
     icon_filename := u "rubymine.png" |}.

Definition WebStorm : cls :=
  {| name := "WebStorm";
     description := "WebStorm";
     download_page_url :=
       u "https://www.jetbrains.com/webstorm/download/download_thanks.jsp?os=linux";
     executable := u "webstorm.sh";
     dir_to_decompress_in_tarball := u "WebStorm-*";
     desktop_file := u "jetbrains-webstorm.desktop";
     icon_filename := u "webide.png" |}.

Definition PhpStorm : cls :=
  {| name := "PhpStorm";
     description := "PhpStorm";
     download_page_url :=
       u "https://www.jetbrains.com/phpstorm/download/download_thanks.jsp?os=linux";
     executable := u "phpstorm.sh";
     dir_to_decompress_in_tarball := u "PhpStorm-*";
     desktop_file := u "jetbrains-phpstorm.desktop";
     icon_filename := u "webide.png" |}.

(** The installer classes of the family, in the order of the module. *)
Definition classes : list cls :=
  [PyCharm; PyCharmEducational; PyCharmProfessional; Idea; IdeaUltimate;
   RubyMine; WebStorm; PhpStorm].

(** [BaseJetBrains.__init__]: the [required_files_path] handed to the base
    class, none of the subclasses passing one of its own. *)
Definition required_files_path (c : cls) : list str :=
  if truthy (executable c) then [] ++ [join (u "bin") (executable c)] else [].

(** The constructor of a subclass. *)
Definition __init__ (c : cls) (install_path_ : str) : BaseJetBrains.t :=
  {| BaseJetBrains.base :=
       {| download_page := Some (download_page_url c);
          desktop_filename := desktop_file c;
          only_on_archs := [u "i386"; u "amd64"];
          need_root_access := false;
          install_path := install_path_;
          download_requests := [] |};
     BaseJetBrains.download_page_url := download_page_url c |}.

(** [BaseJetBrains.post_install] for an object of class [c]. *)
Definition post_install (c : cls) (self : BaseJetBrains.t) : proc :=
  let path := install_path (BaseJetBrains.base self) in
  let icon_path := join (join path (u "bin")) (icon_filename c) in
  let exec_path := quoted_exec (join (join path (u "bin")) (executable c)) in
  create_launcher (desktop_filename (BaseJetBrains.base self))
    {| df_name := description c;
       df_icon_path := icon_path;
       df_exec := exec_path;
       df_comment := (description c ++ " (UDTC)")%string;
       df_categories := "Development;IDE;" |}
    Return.

End JetBrains.

(** [BaseNetBeans.post_install]. *)
Module NetBeansDesktop.

Definition post_install (self : BaseNetBeans.t) : proc :=
  let path := install_path (BaseNetBeans.base self) in
  create_launcher (desktop_filename (BaseNetBeans.base self))
    {| df_name := "Netbeans IDE";
       df_icon_path := join (join path (u "nb")) (u "netbeans.png");
       df_exec := join (join path (u "bin")) (u "netbeans");
       df_comment := "Netbeans IDE";
       df_categories := "Development;IDE;" |}
    Return.

End NetBeansDesktop.

(** ** Further vocabulary *)

(** The launcher a [post_install] creates first, if it creates one. *)
Fixpoint launcher_of (p : proc) : option (str * DesktopFile) :=
  match p with
  | Return | Raise _ | Quit _ => None
  | create_launcher f c _ => Some (f, c)
  | Log _ _ _ k | DownloadCenter _ _ _ k | Submit _ _ k
  | start_download_and_install _ k | delayed_display _ k => launcher_of k
  end.

(** Every call to the Download Coordinator, in the handler and in the
    continuations it registers, passes [download=False] and asks for pages
    only: requests without checksum, cookies or encoding flag. *)
Fixpoint pages_only (p : proc) : Prop :=
  match p with
  | Return | Raise _ | Quit _ => True
  | DownloadCenter urls on_done download k =>
      download = false /\ Forall (fun item => item = page_request (url item)) urls
      /\ (forall r, pages_only (on_done r)) /\ pages_only k
  | Log _ _ _ k | Submit _ _ k | start_download_and_install _ k
  | create_launcher _ _ k | delayed_display _ k => pages_only k
  end.

(** Every worker the handler or one of its continuations submits is for
    this user and this group. *)
Fixpoint submits_only (user group : str) (p : proc) : Prop :=
  match p with
  | Return | Raise _ | Quit _ => True
  | Submit user' group' k => user' = user /\ group' = group /\ submits_only user group k
  | DownloadCenter _ on_done _ k =>
      (forall r, submits_only user group (on_done r)) /\ submits_only user group k
  | Log _ _ _ k | start_download_and_install _ k | create_launcher _ _ k
  | delayed_display _ k => submits_only user group k
  end.

(** The line of the NetBeans download page that carries the version [v]:
    [var PAGE_ARTIFACTS_LOCATION = "/images_www/v6/download/<v>/";]. *)
Definition artifacts_line (v : str) : str :=
  (u "var PAGE_ARTIFACTS_LOCATION = " ++ BaseNetBeans.dq ++ u "/images_www/v6/download/")
  ++ v ++ (u "/" ++ BaseNetBeans.dq ++ u ";").

(** A code point that is neither whitespace, nor a slash, nor the letter v. *)
Definition version_char (c : N) : bool :=
  negb (is_space c) && negb (c =? 0x2F) && negb (c =? 0x76).

(** What the loop of [parse_download_page_callback] makes of a line. *)
Definition cleaned (line : str) : str :=
  replace BaseNetBeans.dq empty
          (replace (u ");") empty (replace (u "add_file(") empty line)).

(** How a line of files.js that describes an archive begins: [add_file(],
    a double quote, [zip/netbeans-]. *)
Definition add_file_prefix : str :=
  u "add_file(" ++ BaseNetBeans.dq ++ u "zip/netbeans-".

(** The pattern [parse_download_page_callback] compiles for a version and
    a flavour. *)
Definition add_file_pattern (version_ flavour_ : str) : str :=
  u "add_file\(" ++ BaseNetBeans.dq ++ u "zip/netbeans-" ++ version_
    ++ u "-[0-9]{12}" ++ flavour_ ++ u ".zip" ++ BaseNetBeans.dq.

(** The results with other [error] fields: [f url] for the result of [url]. *)
Definition with_errors (f : str -> option str) (r : results) : results :=
  map (fun kv => (fst kv,
                  {| buffer := buffer (snd kv);
                     error := f (fst kv);
                     final_url := final_url (snd kv);
                     response_cookies := response_cookies (snd kv) |})) r.

(** ** More example inputs *)

Module Sample.

(** A body that is not UTF-8 (and not ASCII): the single byte 0xFF. *)
Definition not_utf8 : bytes := [xff].

(** A machine where bob (uid 1001), a member of dialout, runs umake
    himself, without sudo: SUDO_UID is not set. *)
Definition bob_host : OS :=
  {| geteuid := 1001%Z;
     environ := [(u "USER", u "bob")];
     getpwuid := fun uid => if (uid =? 0)%Z then Some (u "root")
                            else if (uid =? 1001)%Z then Some (u "bob")
                            else None;
     getgrall := [(u "dialout", [u "bob"])];
     machine := u "x86_64";
     seteuid_permitted := false;
     adduser := fun _ _ => CannotRun |}.


(** A fetch that the coordinator reports without error and without buffer. *)
Definition no_buffer : DownloadResult :=
  {| buffer := None; error := None; final_url := []; response_cookies := [] |}.

Definition zip_url : str := u "https://netbeans.org/downloads/zip.html".

(** A download page with two artifacts lines, of versions 7.4 and 8.1. *)
Definition two_versions : bytes :=
  b "var PAGE_ARTIFACTS_LOCATION = " ++ Example.q ++ b "/images_www/v6/download/7.4/"
    ++ Example.q ++ b ";" ++ [x0a]
  ++ b "var PAGE_ARTIFACTS_LOCATION = " ++ Example.q ++ b "/images_www/v6/download/8.1/"
    ++ Example.q ++ b ";" ++ [x0a]
  ++ b "// end".

(** A download page whose artifacts line carries the version [8.1(]. *)
Definition odd_version : bytes :=
  b "var PAGE_ARTIFACTS_LOCATION = " ++ Example.q ++ b "/images_www/v6/download/8.1(/"
    ++ Example.q ++ b ";".

(** A files.js with two archive lines of version 8.0.2. *)
Definition two_archives : bytes :=
  b "add_file(" ++ Example.q ++ b "zip/netbeans-8.0.2-201408251540.zip" ++ Example.q
    ++ b ", 1, " ++ Example.q ++ b "aaaa" ++ Example.q ++ b ");" ++ [x0a]
  ++ b "add_file(" ++ Example.q ++ b "zip/netbeans-8.0.2-201411181905.zip" ++ Example.q
    ++ b ", 2, " ++ Example.q ++ b "bbbb" ++ Example.q ++ b ");" ++ [x0a]
  ++ b "add_file(" ++ Example.q ++ b "zip/netbeans-8.0.2-201411181905-cpp.zip" ++ Example.q
    ++ b ", 3, " ++ Example.q ++ b "cccc" ++ Example.q ++ b ");".

End Sample.

(** * Properties *)

(** ** Strings and documents *)

Lemma str_eqb_eq (x y : str) : str_eqb x y = true <-> x = y.
Proof.
  revert y; induction x as [|c x IH]; intros [|d y]; simpl; split;
    try congruence; try reflexivity.
  - intros H. apply andb_true_iff in H as [Hc Hx].
    apply N.eqb_eq in Hc. apply IH in Hx. congruence.
  - intros H. injection H as -> ->. rewrite N.eqb_refl. simpl. now apply IH.
Qed.

Lemma str_eqb_refl (x : str) : str_eqb x x = true.
Proof. now apply str_eqb_eq. Qed.

Lemma str_in_In (x : str) (l : list str) : str_in x l = true <-> In x l.
Proof.
  unfold str_in. rewrite existsb_exists. split.
  - intros (y & Hy & Heq). apply str_eqb_eq in Heq. now subst.
  - intros H. exists x. split; [assumption | apply str_eqb_refl].
Qed.

(** [find] returns the first of the tags [find_all] returns. *)
Lemma find_first (f : Bs4.element -> bool) (soup : list Bs4.node) :
  Bs4.find f soup = hd_error (Bs4.find_all f soup).
Proof.
  unfold Bs4.find, Bs4.find_all.
  induction (Bs4.elements soup) as [|e l IH]; simpl; [reflexivity|].
  destruct (f e); simpl; [reflexivity | exact IH].
Qed.

(** With a run in progress, the first token is that run, extended up to
    the next whitespace. *)
Lemma split_ws_from_run (c : N) (cur s : str) :
  hd_error (split_ws_from (c :: cur) s) = Some (rev (c :: cur) ++ leading_token s).
Proof.
  revert c cur; induction s as [|d s IH]; intros c cur.
  - simpl. now rewrite app_nil_r.
  - cbn [split_ws_from leading_token]. destruct (is_space d).
    + simpl. now rewrite app_nil_r.
    + rewrite IH. simpl. now rewrite <- !app_assoc.
Qed.

(** The first whitespace-delimited token: what follows the leading
    whitespace, up to the next whitespace; none if nothing follows. *)
Lemma first_token_spec (text : str) :
  first_token text =
  match lstrip text with
  | [] => None
  | c :: s => Some (c :: leading_token s)
  end.
Proof.
  unfold first_token, split_ws.
  induction text as [|c s IH]; [reflexivity|].
  cbn [split_ws_from lstrip]. destruct (is_space c); [exact IH|].
  now rewrite split_ws_from_run.
Qed.

(** ** C1: the nested checksum fetch *)

Ltac break_match :=
  repeat match goal with
         | |- context [match ?x with _ => _ end] => destruct x eqn:?
         end.

(** The continuation of the JetBrains resolver starts the installation
    exactly when the checksum file yields a digest, with that digest. *)
Lemma checksum_downloaded_started (self : BaseJetBrains.t) (download_url : str) (r : results) :
  started (BaseJetBrains.checksum_downloaded self download_url r) =
  option_map (fun digest =>
                download_requests (BaseJetBrains.base self)
                ++ [archive_request download_url sha256 digest true None])
             (nested_digest (first_value r)).
Proof.
  unfold BaseJetBrains.checksum_downloaded, nested_digest, first_token.
  destruct (first_value r) as [res|]; [|reflexivity].
  destruct (truthy_opt (error res)); [reflexivity|].
  destruct (buffer res) as [data|]; [|reflexivity].
  destruct (decode_utf8 data) as [text|]; [|reflexivity].
  destruct (split_ws text); reflexivity.
Qed.

(** The same for Eclipse's [done], on either supported architecture. *)
Lemma done_started (self : BaseInstaller) (arch md5_url : str) (r : results) :
  arch = u "i686" \/ arch = u "x86_64" ->
  started (Eclipse.done self arch md5_url r) =
  option_map (fun digest =>
                download_requests self
                ++ [archive_request
                      (Eclipse.DOWNLOAD_URL_PAT
                         (if str_eqb arch (u "i686") then empty else u "-x86_64") empty)
                      md5 digest false None])
             (nested_digest (lookup md5_url r)).
Proof.
  intros Harch. unfold Eclipse.done, nested_digest, first_token.
  destruct (lookup md5_url r) as [res|]; [|reflexivity].
  destruct (truthy_opt (error res)); [reflexivity|].
  destruct (buffer res) as [data|]; [|reflexivity].
  destruct (decode_utf8 data) as [text|]; [|reflexivity].
  destruct (split_ws text); [reflexivity|].
  destruct Harch as [-> | ->]; reflexivity.
Qed.

(** C1.  In the two resolvers that need a nested checksum fetch, the
    handler itself never starts the archive download: it only hands the
    checksum URL to the Download Coordinator, without download.  The
    archive request is built inside the continuation of that fetch, and
    the installation starts there exactly when the fetched checksum file
    yields a digest; the digest attached to the archive request is the
    first whitespace-delimited token of the decoded body. *)
Theorem nested_checksum_before_archive (L : PyLib) (os : OS)
        (jetbrains : BaseJetBrains.t) (eclipse : BaseInstaller) (result : results) :
  let p := BaseJetBrains.get_metadata_and_check_license L jetbrains result in
  let p' := Eclipse.download_provider_page os eclipse in
  (started p = None /\
   Forall (fun cb =>
             exists download_url,
               fst cb = [page_request (download_url ++ u ".sha256")] /\
               forall r,
                 started (snd cb r) =
                 option_map (fun digest =>
                               download_requests (BaseJetBrains.base jetbrains)
                               ++ [archive_request download_url sha256 digest true None])
                            (nested_digest (first_value r)))
          (callbacks p)) /\
  (started p' = None /\
   Forall (fun cb =>
             exists arch,
               fst cb = [page_request (Eclipse.DOWNLOAD_URL_PAT arch (u ".md5"))] /\
               forall r,
                 started (snd cb r) =
                 option_map (fun digest =>
                               download_requests eclipse
                               ++ [archive_request (Eclipse.DOWNLOAD_URL_PAT arch empty)
                                                   md5 digest false None])
                            (nested_digest
                               (lookup (Eclipse.DOWNLOAD_URL_PAT arch (u ".md5")) r)))
          (callbacks p')) /\
  Forall (fun e => match e with EvDownloadCenter _ download => download = false | _ => True end)
         (events p ++ events p').
Proof.
  cbv zeta. split; [|split].
  - unfold BaseJetBrains.get_metadata_and_check_license.
    cbn [started callbacks].
    destruct (download_page (BaseJetBrains.base jetbrains)) as [key|];
      [|split; [reflexivity | constructor]].
    destruct (lookup key result) as [page|]; [|split; [reflexivity | constructor]].
    destruct (truthy_opt (error page)); [split; [reflexivity | constructor]|].
    destruct (buffer page) as [data|]; [|split; [reflexivity | constructor]].
    destruct (Bs4.find _ _) as [link|]; [|split; [reflexivity | constructor]].
    destruct (Bs4.get _ _) as [download_url|]; [|split; [reflexivity | constructor]].
    cbn [started callbacks]. split; [reflexivity|].
    constructor; [|constructor].
    exists download_url. split; [reflexivity|].
    intros r. apply checksum_downloaded_started.
  - unfold Eclipse.download_provider_page.
    cbn [started callbacks].
    destruct (str_eqb (machine os) (u "i686")) eqn:H32;
      [|destruct (str_eqb (machine os) (u "x86_64")) eqn:H64];
      cbn [started callbacks return_main_screen];
      (split; [reflexivity|]); try constructor; try constructor.
    + exists empty. split; [reflexivity|]. intros r. cbn [snd].
      rewrite done_started by (left; now apply str_eqb_eq).
      now rewrite H32.
    + exists (u "-x86_64"). split; [reflexivity|]. intros r. cbn [snd].
      rewrite done_started by (right; now apply str_eqb_eq).
      now rewrite H32.
  - apply Forall_app. split.
    + unfold BaseJetBrains.get_metadata_and_check_license.
      cbn [events]. break_match; cbn [events return_main_screen];
        repeat constructor.
    + unfold Eclipse.download_provider_page.
      cbn [events]. break_match; cbn [events return_main_screen];
        repeat constructor.
Qed.

(** Scenario B of the spec: the page [<a href="https://x/archive.tar.gz">HTTPS</a>]
    and the checksum body [deadbeef  archive.tar.gz] resolve to the request
    for [https://x/archive.tar.gz] with the SHA-256 digest [deadbeef]. *)
Example scenario_B :
  let p := BaseJetBrains.get_metadata_and_check_license
             (Ref.lib Example.jetbrains_pages) Example.pycharm
             (Example.jetbrains_result Example.one_link) in
  map fst (callbacks p) = [[page_request (u "https://x/archive.tar.gz.sha256")]] /\
  map (fun cb => started (snd cb Example.sha256_file)) (callbacks p) =
  [Some [archive_request (u "https://x/archive.tar.gz") sha256 (u "deadbeef") true None]].
Proof. vm_compute. split; reflexivity. Qed.

(** ** C9: the user considered for the dialout group *)


(** On the example host, run through sudo by alice: the user is alice
    although the effective user is root and USER says so. *)
Example arduino_user_on_host :
  match Arduino.__init__ (Ref.lib []) (Example.host (u "x86_64") [] false)
                         Example.install_dir with
  | inr self => Arduino._current_user self = u "alice"
                /\ Arduino.was_in_arduino_group self = false
                /\ need_root_access (Arduino.base self) = true
  | inl _ => False
  end.
Proof. vm_compute. repeat split. Qed.

(** ** The Arduino resolver and the dialout group *)

(** The constructor's flag says whether a group named dialout lists the user. *)
Lemma was_in_group_iff (os : OS) (user : str) :
  existsb (fun group_name => str_eqb group_name Arduino.ARDUINO_GROUP)
          (Arduino.groups_of os user) = true <->
  exists members, In (Arduino.ARDUINO_GROUP, members) (getgrall os) /\ In user members.
Proof.
  unfold Arduino.groups_of. rewrite existsb_exists. split.
  - intros (nm & Hin & Heq). apply str_eqb_eq in Heq. subst nm.
    apply in_map_iff in Hin as ([nm members] & Hfst & Hin). simpl in Hfst. subst nm.
    apply filter_In in Hin as [Hin Hmem]. exists members. split; [assumption|].
    now apply str_in_In.
  - intros (members & Hin & Hmem). exists Arduino.ARDUINO_GROUP.
    split; [|apply str_eqb_refl].
    apply in_map_iff. exists (Arduino.ARDUINO_GROUP, members). split; [reflexivity|].
    apply filter_In. split; [assumption|]. now apply str_in_In.
Qed.

Lemma init_membership (L : PyLib) (os : OS) (path : str) (self : Arduino.t) :
  Arduino.__init__ L os path = inr self ->
  (Arduino.was_in_arduino_group self = true <->
   exists members, In (Arduino.ARDUINO_GROUP, members) (getgrall os)
                   /\ In (Arduino._current_user self) members) /\
  need_root_access (Arduino.base self) = negb (Arduino.was_in_arduino_group self).
Proof.
  unfold Arduino.__init__.
  destruct (Arduino.sudo_uid L os) as [uid|]; [|discriminate].
  destruct (getpwuid os uid) as [pw_name|]; [|discriminate].
  intros H. injection H as <-. cbn. split; [apply was_in_group_iff | reflexivity].
Qed.

(** The three ways [prepare_to_download_archive] can go: an exception, an
    error record followed by the abort, or the archive request built from
    the button's parent link, after which the group step decides. *)
Lemma prepare_cases (L : PyLib) (os : OS) (self : Arduino.t) (r : results) :
  let p := Arduino.prepare_to_download_archive L os self r in
  (exists e, p = Raise e) \/
  (exists msg args, p = Log ERROR msg args (Quit 1)) \/
  exists download_key page data pat btn href digest,
    Arduino.scraped_download_url self = Some download_key /\
    lookup download_key r = Some page /\
    buffer page = Some data /\
    re_compile L (u "JUST DOWNLOAD") false = Some pat /\
    Bs4.find (labelled L (u "button") pat) (BeautifulSoup L data) = Some btn /\
    Bs4.get (Bs4.parent btn) (u "href") = Some href /\
    let req := archive_request (urljoin L (final_url page) href) md5 digest false
                               (Some (response_cookies page)) in
    p = Log INFO "Final download url: %s, cookies: %s."
            [AStr (url req); ACookies (response_cookies page)]
            (if negb (Arduino.was_in_arduino_group self) then
               Submit (Arduino._current_user self) Arduino.ARDUINO_GROUP
                 (match snd (_add_to_group os (Arduino._current_user self)
                                           Arduino.ARDUINO_GROUP) with
                  | WorkerRaised e => Raise e
                  | WorkerReturned false => Quit 1
                  | WorkerReturned true => start_download_and_install [req] Return
                  end)
             else start_download_and_install [req] Return).
Proof.
  cbv zeta. unfold Arduino.prepare_to_download_archive.
  destruct (Arduino.scraped_download_url self) as [download_key|]; [|left; eauto].
  destruct (lookup download_key r) as [page|] eqn:Hpage; [|left; eauto].
  destruct (Arduino.scraped_checksum_url self) as [checksum_key|]; [|left; eauto].
  destruct (lookup checksum_key r) as [checksum_page|]; [|left; eauto].
  destruct (truthy_opt (error page)); [right; left; eauto|].
  destruct (truthy_opt (error checksum_page)); [right; left; eauto|].
  destruct (buffer checksum_page) as [checksum_data|]; [|left; eauto].
  destruct (decode_ascii checksum_data) as [text|]; [|left; eauto].
  destruct (re_compile L (Arduino.checksum_line_pat _) true) as [pat|]; [|left; eauto].
  destruct (re_search L pat text) as [[|digest groups]|];
    [left; eauto | | right; left; eauto].
  destruct (buffer page) as [data|] eqn:Hdata; [|left; eauto].
  destruct (re_compile L (u "JUST DOWNLOAD") false) as [pat'|] eqn:Hpat; [|left; eauto].
  destruct (Bs4.find _ (BeautifulSoup L data)) as [btn|] eqn:Hbtn; [|right; left; eauto].
  destruct (Bs4.get (Bs4.parent btn) (u "href")) as [href|] eqn:Hhref; [|left; eauto].
  right; right. exists download_key, page, data, pat', btn, href, digest.
  repeat (split; [try reflexivity; assumption|]).
  reflexivity.
Qed.

(** ** C7: the redirect and the cookies of the click-to-download page *)

(** C7.  Whenever the Arduino resolver starts the installation, its only
    request is for the join of the final (redirected) URL of the download
    page with the [href] of the parent of the JUST DOWNLOAD button, and the
    response cookies of that page are attached to it. *)
Theorem arduino_request_carries_redirect_and_cookies
        (L : PyLib) (os : OS) (self : Arduino.t) (r : results) (reqs : list DownloadItem) :
  started (Arduino.prepare_to_download_archive L os self r) = Some reqs ->
  exists download_key page data pat btn href item,
    Arduino.scraped_download_url self = Some download_key /\
    lookup download_key r = Some page /\
    buffer page = Some data /\
    re_compile L (u "JUST DOWNLOAD") false = Some pat /\
    Bs4.find (labelled L (u "button") pat) (BeautifulSoup L data) = Some btn /\
    Bs4.get (Bs4.parent btn) (u "href") = Some href /\
    reqs = [item] /\
    url item = urljoin L (final_url page) href /\
    cookies item = Some (response_cookies page).
Proof.
  intros Hstart.
  destruct (prepare_cases L os self r)
    as [[e Hp] | [(msg & args & Hp) |
        (download_key & page & data & pat & btn & href & digest &
         Hkey & Hpage & Hdata & Hpat & Hbtn & Hhref & Hp)]];
    cbv zeta in *; rewrite Hp in Hstart; cbn [started] in Hstart; try discriminate.
  exists download_key, page, data, pat, btn, href.
  eexists. repeat (split; [eassumption|]).
  destruct (negb (Arduino.was_in_arduino_group self)); cbn [started] in Hstart.
  - destruct (snd (_add_to_group os (Arduino._current_user self) Arduino.ARDUINO_GROUP))
      as [[|]|e]; cbn [started] in Hstart; try discriminate.
    injection Hstart as <-. repeat split.
  - injection Hstart as <-. repeat split.
Qed.

(** On the example pages: the button's parent links to
    [/arduino-1.6.5-linux64.tar.xz], the download page was served from
    [http://downloads.arduino.cc/redirect/thanks] with a session cookie. *)
Lemma arduino_request_example :
  started (Arduino.prepare_to_download_archive
             (Ref.lib Example.arduino_pages) (Example.host (u "x86_64") [u "alice"] true)
             (Example.arduino_scraped true) Example.click_result)
  = Some [archive_request (u "http://downloads.arduino.cc/arduino-1.6.5-linux64.tar.xz")
                          md5 (u "0123456789abcdef0123456789abcdef") false
                          (Some [(u "session", u "42")])].
Proof. vm_compute. reflexivity. Qed.

Lemma arduino_request_carries_redirect_and_cookies_witness :
  exists download_key page data pat btn href item,
    Arduino.scraped_download_url (Example.arduino_scraped true) = Some download_key /\
    lookup download_key Example.click_result = Some page /\
    buffer page = Some data /\
    re_compile (Ref.lib Example.arduino_pages) (u "JUST DOWNLOAD") false = Some pat /\
    Bs4.find (labelled (Ref.lib Example.arduino_pages) (u "button") pat)
             (BeautifulSoup (Ref.lib Example.arduino_pages) data) = Some btn /\
    Bs4.get (Bs4.parent btn) (u "href") = Some href /\
    [archive_request (u "http://downloads.arduino.cc/arduino-1.6.5-linux64.tar.xz")
                     md5 (u "0123456789abcdef0123456789abcdef") false
                     (Some [(u "session", u "42")])] = [item] /\
    url item = urljoin (Ref.lib Example.arduino_pages) (final_url page) href /\
    cookies item = Some (response_cookies page).
Proof.
  apply (arduino_request_carries_redirect_and_cookies
           (Ref.lib Example.arduino_pages) (Example.host (u "x86_64") [u "alice"] true)
           (Example.arduino_scraped true) Example.click_result).
  vm_compute. reflexivity.
Defined.

(** ** C5: the group helper fails *)


(** Once both pages are fetched, the checksum line is found and the button
    sits in a link, [prepare_to_download_archive] builds the request and
    comes to the group step. *)
Lemma prepare_reaches_group_step
      (L : PyLib) (os : OS) (self : Arduino.t) (r : results)
      (download_key checksum_key : str) (page checksum_page : DownloadResult)
      (checksum_data data : bytes) (text digest href : str) (groups : list str)
      (pat pat' : re_pattern L) (btn : Bs4.element) :
  Arduino.scraped_download_url self = Some download_key ->
  lookup download_key r = Some page ->
  Arduino.scraped_checksum_url self = Some checksum_key ->
  lookup checksum_key r = Some checksum_page ->
  truthy_opt (error page) = false ->
  truthy_opt (error checksum_page) = false ->
  buffer checksum_page = Some checksum_data ->
  decode_ascii checksum_data = Some text ->
  re_compile L (Arduino.checksum_line_pat (Arduino.bits self)) true = Some pat ->
  re_search L pat text = Some (digest :: groups) ->
  buffer page = Some data ->
  re_compile L (u "JUST DOWNLOAD") false = Some pat' ->
  Bs4.find (labelled L (u "button") pat') (BeautifulSoup L data) = Some btn ->
  Bs4.get (Bs4.parent btn) (u "href") = Some href ->
  let req := archive_request (urljoin L (final_url page) href) md5 digest false
                             (Some (response_cookies page)) in
  Arduino.prepare_to_download_archive L os self r =
  Log INFO "Final download url: %s, cookies: %s."
      [AStr (url req); ACookies (response_cookies page)]
      (if negb (Arduino.was_in_arduino_group self) then
         Submit (Arduino._current_user self) Arduino.ARDUINO_GROUP
           (match snd (_add_to_group os (Arduino._current_user self)
                                     Arduino.ARDUINO_GROUP) with
            | WorkerRaised e => Raise e
            | WorkerReturned false => Quit 1
            | WorkerReturned true => start_download_and_install [req] Return
            end)
       else start_download_and_install [req] Return).
Proof.
  intros Hdk Hdp Hck Hcp Hde Hce Hcb Hdec Hpat Hsearch Hbuf Hpat' Hbtn Hhref. cbv zeta.
  unfold Arduino.prepare_to_download_archive.
  rewrite Hdk, Hdp, Hck, Hcp, Hde, Hce, Hcb, Hdec, Hpat, Hsearch, Hbuf, Hpat'.
  unfold labelled in Hbtn. rewrite Hbtn, Hhref. reflexivity.
Qed.




(** ** C10: the user is in dialout already *)

Lemma prepare_no_privilege (L : PyLib) (os : OS) (self : Arduino.t) (r : results) :
  Arduino.was_in_arduino_group self = true ->
  no_privilege (Arduino.prepare_to_download_archive L os self r).
Proof.
  intros Hin.
  destruct (prepare_cases L os self r)
    as [[e Hp] | [(msg & args & Hp) | (? & ? & ? & ? & ? & ? & ? & _ & _ & _ & _ & _ & _ & Hp)]];
    cbv zeta in Hp; rewrite Hp; [exact I | exact I |].
  rewrite Hin. exact I.
Qed.

Lemma metadata_no_privilege (L : PyLib) (os : OS) (self : Arduino.t) (result : results) :
  Arduino.was_in_arduino_group self = true ->
  no_privilege (Arduino.get_metadata_and_check_license L os self result).
Proof.
  intros Hin. unfold Arduino.get_metadata_and_check_license. cbn [no_privilege].
  destruct (download_page (Arduino.base self)) as [key|]; [|exact I].
  destruct (lookup key result) as [page|]; [|exact I].
  destruct (truthy_opt (error page)); [exact I|].
  destruct (buffer page) as [data|]; [|exact I].
  destruct (Arduino.scrape L self (BeautifulSoup L data)) as [e|[d c]]; [exact I|].
  destruct (if truthy_opt d then d else None); [|exact I].
  destruct (if truthy_opt c then c else None); [|exact I].
  cbn [no_privilege]. split; [|exact I].
  intros r. now apply prepare_no_privilege.
Qed.

(** With a helper that succeeds, the non-member's run of
    [prepare_to_download_archive] is the member's run plus the submission. *)
Lemma prepare_frame (L : PyLib) (os : OS) (self : Arduino.t) (r : results) :
  snd (_add_to_group os (Arduino._current_user self) Arduino.ARDUINO_GROUP)
  = WorkerReturned true ->
  frame (Arduino.prepare_to_download_archive L os (with_membership false self) r)
        (Arduino.prepare_to_download_archive L os (with_membership true self) r).
Proof.
  intros Hok. unfold Arduino.prepare_to_download_archive.
  cbn [with_membership Arduino.scraped_download_url Arduino.scraped_checksum_url
       Arduino.bits Arduino.base Arduino.was_in_arduino_group Arduino._current_user
       Arduino.set_base negb].
  rewrite Hok.
  destruct (Arduino.scraped_download_url self) as [download_key|]; [|constructor].
  destruct (lookup download_key r) as [page|]; [|constructor].
  destruct (Arduino.scraped_checksum_url self) as [checksum_key|]; [|constructor].
  destruct (lookup checksum_key r) as [checksum_page|]; [|constructor].
  destruct (truthy_opt (error page)); [repeat constructor|].
  destruct (truthy_opt (error checksum_page)); [repeat constructor|].
  destruct (buffer checksum_page) as [checksum_data|]; [|constructor].
  destruct (decode_ascii checksum_data) as [text|]; [|constructor].
  destruct (re_compile L (Arduino.checksum_line_pat _) true) as [pat|]; [|constructor].
  destruct (re_search L pat text) as [[|digest groups]|];
    [constructor | | repeat constructor].
  destruct (buffer page) as [data|]; [|constructor].
  destruct (re_compile L (u "JUST DOWNLOAD") false) as [pat'|]; [|constructor].
  destruct (Bs4.find _ (BeautifulSoup L data)) as [btn|]; [|repeat constructor].
  destruct (Bs4.get (Bs4.parent btn) (u "href")) as [href|]; [|constructor].
  repeat constructor.
Qed.

Lemma metadata_frame (L : PyLib) (os : OS) (self : Arduino.t) (result : results) :
  snd (_add_to_group os (Arduino._current_user self) Arduino.ARDUINO_GROUP)
  = WorkerReturned true ->
  frame (Arduino.get_metadata_and_check_license L os (with_membership false self) result)
        (Arduino.get_metadata_and_check_license L os (with_membership true self) result).
Proof.
  intros Hok. unfold Arduino.get_metadata_and_check_license.
  change (Arduino.scrape L (with_membership false self))
    with (Arduino.scrape L (with_membership true self)).
  cbn [with_membership Arduino.base].
  constructor.
  destruct (download_page (Arduino.base self)) as [key|]; [|constructor].
  destruct (lookup key result) as [page|]; [|constructor].
  destruct (truthy_opt (error page)); [repeat constructor|].
  destruct (buffer page) as [data|]; [|constructor].
  destruct (Arduino.scrape L _ (BeautifulSoup L data)) as [e|[d c]]; [constructor|].
  destruct (if truthy_opt d then d else None); [|repeat constructor].
  destruct (if truthy_opt c then c else None); [|repeat constructor].
  constructor; [|constructor].
  intros r.
  exact (prepare_frame L os (Arduino.set_scraped d c self) r Hok).
Qed.

(** When a group named dialout lists the user the constructor considers,
    the account of the uid in SUDO_UID, the installer asks for no root
    access, neither handler of the resolver submits a worker, and
    [post_install] queues no notice.  Apart from that, the handlers and
    [post_install] do what they do for a non-member whose helper succeeds:
    the same effects, in the same order. *)
Theorem dialout_member_skips_privilege
        (L : PyLib) (os : OS) (path : str) (self : Arduino.t) :
  Arduino.__init__ L os path = inr self ->
  (exists members, In (u "dialout", members) (getgrall os)
                   /\ In (Arduino._current_user self) members) ->
  need_root_access (Arduino.base self) = false /\
  (forall result, no_privilege (Arduino.get_metadata_and_check_license L os self result)) /\
  (forall r s, Arduino.was_in_arduino_group s = true ->
               no_privilege (Arduino.prepare_to_download_archive L os s r)) /\
  no_privilege (Arduino.post_install self) /\
  (snd (_add_to_group os (Arduino._current_user self) Arduino.ARDUINO_GROUP)
   = WorkerReturned true ->
   (forall result,
      frame (Arduino.get_metadata_and_check_license L os (with_membership false self) result)
            (Arduino.get_metadata_and_check_license L os self result)) /\
   frame (Arduino.post_install (with_membership false self)) (Arduino.post_install self)).
Proof.
  intros Hinit Hmember.
  destruct (init_membership L os path self Hinit) as [Hiff Hroot].
  assert (Hin : Arduino.was_in_arduino_group self = true) by now apply Hiff.
  assert (Hself : with_membership true self = self).
  { destruct self; cbn in *. now rewrite Hin. }
  split; [now rewrite Hroot, Hin|].
  split; [intros result; now apply metadata_no_privilege|].
  split; [intros r s Hs; now apply prepare_no_privilege|].
  split; [unfold Arduino.post_install; rewrite Hin; exact I|].
  intros Hok. split.
  - intros result. rewrite <- Hself at 2. now apply metadata_frame.
  - unfold Arduino.post_install. cbn [with_membership Arduino.base Arduino.was_in_arduino_group].
    rewrite Hin. repeat constructor.
Qed.

Lemma dialout_member_skips_privilege_witness :
  need_root_access (Arduino.base (Example.arduino true)) = false /\
  no_privilege (Arduino.get_metadata_and_check_license
                  (Ref.lib Example.arduino_pages)
                  (Example.host (u "x86_64") [u "alice"] true)
                  (Example.arduino true) Example.software_result) /\
  no_privilege (Arduino.post_install (Example.arduino true)).
Proof.
  destruct (dialout_member_skips_privilege
              (Ref.lib Example.arduino_pages)
              (Example.host (u "x86_64") [u "alice"] true)
              Example.install_dir (Example.arduino true))
    as (Hroot & Hmeta & _ & Hpost & _).
  - vm_compute. reflexivity.
  - exists [u "alice"]. split; [right; left; reflexivity | left; reflexivity].
  - split; [exact Hroot|]. split; [apply Hmeta | exact Hpost].
Defined.

(** C10, at the failing input.  umake is run without sudo by a user who
    is a member of dialout.  The constructor reads the name of that user
    from USER, and then overwrites it: SUDO_UID is not set, so the
    membership it checks is the one of the account of uid 0.  When no
    group named dialout lists that account, the installer asks for root
    access although the invoking user is in the group; its continuation
    submits the worker for the account of uid 0 whenever it gets past
    its own errors, and its [post_install] queues the notice to log out
    and in again. *)
Theorem dialout_member_without_sudo_needs_root
        (L : PyLib) (os : OS) (path invoking root_name : str) :
  (geteuid os =? 0)%Z = false ->
  getenv os (u "USER") = Some invoking ->
  getenv os (u "SUDO_UID") = None ->
  getpwuid os 0%Z = Some root_name ->
  (exists members, In (u "dialout", members) (getgrall os) /\ In invoking members) ->
  (forall members, In (u "dialout", members) (getgrall os) -> ~ In root_name members) ->
  exists self,
    Arduino.__init__ L os path = inr self /\
    Arduino._current_user self = root_name /\
    Arduino.was_in_arduino_group self = false /\
    need_root_access (Arduino.base self) = true /\
    (forall d c r,
       let p := Arduino.prepare_to_download_archive L os (Arduino.set_scraped d c self) r in
       (exists e, p = Raise e) \/
       (exists msg args, p = Log ERROR msg args (Quit 1)) \/
       (exists msg args k, p = Log INFO msg args (Submit root_name (u "dialout") k))) /\
    (exists f c,
       events (Arduino.post_install self) =
       [EvLauncher f c;
        EvDelayed "You need to logout and login again for your installation to work"]).
Proof.
  intros _ _ Hsudo Hroot _ Hout.
  destruct (Arduino.__init__ L os path) as [e|self] eqn:Hinit.
  { revert Hinit. unfold Arduino.__init__, Arduino.sudo_uid. rewrite Hsudo, Hroot.
    discriminate. }
  exists self. split; [reflexivity|].
  destruct (init_membership L os path self Hinit) as [Hiff Hneed].
  assert (Huser : Arduino._current_user self = root_name).
  { revert Hinit. unfold Arduino.__init__, Arduino.sudo_uid. rewrite Hsudo, Hroot.
    intros H. injection H as <-. reflexivity. }
  assert (Hwas : Arduino.was_in_arduino_group self = false).
  { destruct (Arduino.was_in_arduino_group self); [|reflexivity].
    destruct Hiff as [Hiff _]. destruct (Hiff eq_refl) as (members & Hin & Hmem).
    rewrite Huser in Hmem. destruct (Hout members Hin Hmem). }
  split; [exact Huser|]. split; [exact Hwas|]. split; [now rewrite Hneed, Hwas|].
  split.
  - intros d c r. cbv zeta.
    destruct (prepare_cases L os (Arduino.set_scraped d c self) r)
      as [[e Hp] | [(msg & args & Hp) |
          (? & ? & ? & ? & ? & ? & ? & _ & _ & _ & _ & _ & _ & Hp)]];
      cbv zeta in Hp; rewrite Hp; [left; eauto | right; left; eauto |].
    right; right.
    cbn [Arduino.set_scraped Arduino.was_in_arduino_group Arduino._current_user].
    rewrite Hwas, Huser. cbn [negb]. do 3 eexists. reflexivity.
  - unfold Arduino.post_install. rewrite Hwas. cbn [negb events]. do 2 eexists. reflexivity.
Qed.

(** bob (uid 1001) is in dialout and runs umake himself: the installer is
    built for root and asks for root access; on the example pages its
    continuation submits the worker that adds root to dialout. *)
Lemma dialout_member_without_sudo_needs_root_witness :
  exists self,
    Arduino.__init__ (Ref.lib Example.arduino_pages) Sample.bob_host Example.install_dir
    = inr self /\
    getenv Sample.bob_host (u "USER") = Some (u "bob") /\
    Arduino.groups_of Sample.bob_host (u "bob") = [u "dialout"] /\
    Arduino._current_user self = u "root" /\
    Arduino.was_in_arduino_group self = false /\
    need_root_access (Arduino.base self) = true /\
    filter is_submit
           (events (Arduino.prepare_to_download_archive
                      (Ref.lib Example.arduino_pages) Sample.bob_host
                      (Arduino.set_scraped (Some Example.scraped_download)
                                           (Some Example.scraped_checksum) self)
                      Example.click_result))
    = [EvSubmit (u "root") (u "dialout")] /\
    map is_launcher (events (Arduino.post_install self)) = [true; false].
Proof.
  destruct (dialout_member_without_sudo_needs_root
              (Ref.lib Example.arduino_pages) Sample.bob_host Example.install_dir
              (u "bob") (u "root") eq_refl eq_refl eq_refl eq_refl)
    as (self & Hinit & Huser & Hwas & Hneed & Hprepare & (f & c & Hpost)).
  - exists [u "bob"]. split; left; reflexivity.
  - intros members [H|[]]. injection H as <-. intros [H|[]]. discriminate H.
  - exists self. split; [exact Hinit|].
    split; [reflexivity|]. split; [reflexivity|].
    split; [exact Huser|]. split; [exact Hwas|]. split; [exact Hneed|].
    split; [|rewrite Hpost; reflexivity].
    vm_compute in Hinit. injection Hinit as <-. vm_compute. reflexivity.
Defined.

(** On the example host the member's run ends with the installation
    started and nothing else happening around it. *)
Example member_run :
  let p := Arduino.prepare_to_download_archive
             (Ref.lib Example.arduino_pages) (Example.host (u "x86_64") [u "alice"] true)
             (Example.arduino_scraped true) Example.click_result in
  filter is_submit (events p) = [] /\ end_of p = Returned /\
  map is_start (events p) = [false; true].
Proof. vm_compute. repeat split. Qed.

(** The Software page of the example leads to the two scraped URLs. *)
Example software_page_scraped :
  map fst (callbacks (Arduino.get_metadata_and_check_license
                        (Ref.lib Example.arduino_pages)
                        (Example.host (u "x86_64") [u "alice"] true)
                        (Example.arduino true) Example.software_result))
  = [[page_request Example.scraped_download; page_request Example.scraped_checksum]].
Proof. vm_compute. reflexivity. Qed.

(** ** C6: a fetched page with an error, or with nothing in it *)

(** A transport error makes each callback log it and abort with status 1. *)
Lemma transport_error_aborts (L : PyLib) (os : OS) (key : str) (page : DownloadResult)
      (result : results) :
  lookup key result = Some page ->
  truthy_opt (error page) = true ->
  (forall self, download_page (BaseJetBrains.base self) = Some key ->
     exists args,
       BaseJetBrains.get_metadata_and_check_license L self result =
       Log DEBUG "Fetched download page, parsing." []
         (Log ERROR "An error occurred while downloading {}: {}" args (Quit 1))) /\
  (forall self arch,
     exists args, Eclipse.done self arch key result = Log ERROR "{}" args (Quit 1)) /\
  (forall self, Arduino.scraped_download_url self = Some key ->
     forall checksum_key checksum_page,
       Arduino.scraped_checksum_url self = Some checksum_key ->
       lookup checksum_key result = Some checksum_page ->
       exists args,
         Arduino.prepare_to_download_archive L os self result =
         Log ERROR "Error fetching download page: %s" args (Quit 1)) /\
  (forall self download_key download_page_,
     Arduino.scraped_download_url self = Some download_key ->
     lookup download_key result = Some download_page_ ->
     truthy_opt (error download_page_) = false ->
     Arduino.scraped_checksum_url self = Some key ->
     exists args,
       Arduino.prepare_to_download_archive L os self result =
       Log ERROR "Error fetching checksums: %s" args (Quit 1)).
Proof.
  intros Hpage Herr. repeat split.
  - intros self Hkey. unfold BaseJetBrains.get_metadata_and_check_license.
    rewrite Hkey, Hpage, Herr. eexists. reflexivity.
  - intros self arch. unfold Eclipse.done. rewrite Hpage, Herr. eexists. reflexivity.
  - intros self Hkey checksum_key checksum_page Hck Hcp.
    unfold Arduino.prepare_to_download_archive.
    rewrite Hkey, Hpage, Hck, Hcp, Herr. eexists. reflexivity.
  - intros self download_key download_page_ Hdk Hdp Hok Hck.
    unfold Arduino.prepare_to_download_archive.
    rewrite Hdk, Hdp, Hck, Hpage, Hok, Herr. eexists. reflexivity.
Qed.

(** C6, at the failing input.  A checksum file that was fetched without
    error but holds no token (it is empty, or whitespace only) makes the
    callbacks of Eclipse and of the JetBrains installers raise
    [IndexError]: no error is logged and [UI.return_main_screen] is not
    called. *)
Theorem empty_checksum_file_raises
        (self : BaseInstaller) (jetbrains : BaseJetBrains.t)
        (arch md5_url download_url : str) (r : results)
        (res : DownloadResult) (data : bytes) (text : str) :
  lookup md5_url r = Some res ->
  first_value r = Some res ->
  truthy_opt (error res) = false ->
  buffer res = Some data ->
  decode_utf8 data = Some text ->
  lstrip text = [] ->
  Eclipse.done self arch md5_url r = Raise IndexError /\
  BaseJetBrains.checksum_downloaded jetbrains download_url r = Raise IndexError.
Proof.
  intros Hlookup Hfirst Herr Hbuf Hdec Hempty.
  assert (Hsplit : split_ws text = []).
  { pose proof (first_token_spec text) as H. rewrite Hempty in H.
    unfold first_token in H. destruct (split_ws text); [reflexivity | discriminate]. }
  unfold Eclipse.done, BaseJetBrains.checksum_downloaded.
  rewrite Hlookup, Hfirst, Herr, Hbuf, Hdec, Hsplit. split; reflexivity.
Qed.

Lemma empty_checksum_file_raises_witness :
  Eclipse.done (Eclipse.__init__ (u "/home/alice/tools/ide/eclipse")) (u "x86_64")
               Example.md5_url_64 Example.empty_md5_file = Raise IndexError /\
  BaseJetBrains.checksum_downloaded Example.pycharm (u "https://x/archive.tar.gz")
                                    Example.empty_md5_file = Raise IndexError.
Proof.
  apply (empty_checksum_file_raises
           (Eclipse.__init__ (u "/home/alice/tools/ide/eclipse")) Example.pycharm
           (u "x86_64") Example.md5_url_64 (u "https://x/archive.tar.gz")
           Example.empty_md5_file (Example.fetched []) [] []);
    reflexivity.
Defined.

(** A page that could not be fetched: the JetBrains resolver logs the
    transport error and aborts. *)
Example jetbrains_transport_error :
  BaseJetBrains.get_metadata_and_check_license
    (Ref.lib Example.jetbrains_pages) Example.pycharm
    [(u "https://www.jetbrains.com/pycharm/download/download_thanks.jsp?edition=comm&os=linux",
      Example.failed (u "Connection refused"))]
  = Log DEBUG "Fetched download page, parsing." []
      (Log ERROR "An error occurred while downloading {}: {}"
           [AStr (BaseJetBrains.download_page_url Example.pycharm);
            AStr (u "Connection refused")]
         (Quit 1)).
Proof. vm_compute. reflexivity. Qed.

(** ** C4: a page without the expected anchor or pattern *)

(** The NetBeans resolver on pages of the expected form: the version is
    read from the artifacts line, and the archive URL and its MD5 digest
    from the [add_file] line of files.js. *)
Example netbeans_resolves :
  map fst (callbacks (BaseNetBeans.get_metadata_and_check_license
                        (Ref.lib []) Example.netbeans
                        [(u "https://netbeans.org/downloads/zip.html",
                          Example.fetched Example.zip_html_81)]))
  = [[page_request (u "https://netbeans.org/images_www/v6/download/8.1/js/files.js")]] /\
  started (BaseNetBeans.parse_download_page_callback
             (Ref.lib []) Example.netbeans_802 Example.files_js_802)
  = Some [archive_request
            (u "http://download.netbeans.org/netbeans/8.0.2/final/zip/netbeans-8.0.2-201411181905.zip")
            md5 (u "0eaa6d1bd3b4b4d9b2a4e0c3c8a2d1a3") false None].
Proof. vm_compute. split; reflexivity. Qed.

(** C4, at the failing input.  When no line of files.js matches the
    [add_file] pattern, the loop of [parse_download_page_callback] never
    assigns [url_string], and the test that follows it raises
    [UnboundLocalError] instead of logging the error and aborting with
    status 1. *)
Theorem files_js_without_match_raises
        (L : PyLib) (self : BaseNetBeans.t) (result : results)
        (version_ key : str) (page : DownloadResult) (data : bytes) (url_file : str)
        (preg : re_pattern L) :
  BaseNetBeans.version self = BaseNetBeans.PyStr version_ ->
  BaseNetBeans.version_download_page self = Some key ->
  lookup key result = Some page ->
  buffer page = Some data ->
  decode_utf8 data = Some url_file ->
  re_compile L (u "add_file\(" ++ BaseNetBeans.dq ++ u "zip/netbeans-" ++ version_
                  ++ u "-[0-9]{12}" ++ BaseNetBeans.flavour self ++ u ".zip"
                  ++ BaseNetBeans.dq) false = Some preg ->
  (forall line, In line (split BaseNetBeans.lf url_file) -> re_match L preg line = None) ->
  BaseNetBeans.parse_download_page_callback L self result =
  Log INFO "Netbeans {}" [AStr version_] (Raise UnboundLocalError).
Proof.
  intros Hv Hkey Hpage Hbuf Hdec Hpat Hnone.
  unfold BaseNetBeans.parse_download_page_callback.
  rewrite Hv, Hkey, Hpage, Hbuf, Hdec, Hpat.
  assert (Hscan : BaseNetBeans.scan_files (fun line => matched (re_match L preg line)) url_file
                  = None).
  { unfold BaseNetBeans.scan_files.
    induction (split BaseNetBeans.lf url_file) as [|line lines IH]; [reflexivity|].
    cbn [fold_left]. rewrite (Hnone line (or_introl eq_refl)). cbn [matched].
    apply IH. intros l Hl. apply Hnone. now right. }
  now rewrite Hscan.
Qed.

Lemma files_js_without_match_raises_witness :
  BaseNetBeans.parse_download_page_callback (Ref.lib []) Example.netbeans_802
                                            Example.files_js_result =
  Log INFO "Netbeans {}" [AStr (u "8.0.2")] (Raise UnboundLocalError).
Proof.
  assert (Hpat : exists preg,
             re_compile (Ref.lib [])
                        (u "add_file\(" ++ BaseNetBeans.dq ++ u "zip/netbeans-" ++ u "8.0.2"
                           ++ u "-[0-9]{12}" ++ BaseNetBeans.flavour Example.netbeans_802
                           ++ u ".zip" ++ BaseNetBeans.dq) false = Some preg).
  { vm_compute. eexists. reflexivity. }
  destruct Hpat as [preg Hpat].
  apply (files_js_without_match_raises
           (Ref.lib []) Example.netbeans_802 Example.files_js_result (u "8.0.2")
           (BaseNetBeans.files_js (u "8.0.2")) (Example.fetched (b "// no files"))
           (b "// no files") (u "// no files") preg);
    try reflexivity; try exact Hpat.
  intros line [<-|[]].
  revert Hpat. vm_compute. intros H. injection H as <-. reflexivity.
Defined.

(** ** C8: the machine architecture *)



(** ** C3: how many tags match *)

(** Two anchors are labelled HTTPS: the JetBrains resolver does not treat
    the page as unparsable, it goes on with the first one. *)
Lemma two_anchors_counterexample :
  let L := Ref.lib Example.jetbrains_pages in
  let p := BaseJetBrains.get_metadata_and_check_license
             L Example.pycharm (Example.jetbrains_result Example.two_links) in
  map (fun e => Bs4.get (Bs4.attrs e) (u "href"))
      (Bs4.find_all (Bs4.has_text (u "a") (u "HTTPS")) (BeautifulSoup L Example.two_links))
  = [Some (u "https://x/archive.tar.gz"); Some (u "https://y/other.tar.gz")] /\
  end_of p = Returned /\
  filter is_error_log (events p) = [] /\
  map fst (callbacks p) = [[page_request (u "https://x/archive.tar.gz.sha256")]].
Proof. vm_compute. repeat split. Qed.

(** The JetBrains resolver on a page that was fetched without error: no
    anchor labelled HTTPS makes it log the error and abort; otherwise the
    first such anchor decides, however many follow. *)
Lemma jetbrains_first_anchor (L : PyLib) (self : BaseJetBrains.t) (result : results)
      (key : str) (page : DownloadResult) (data : bytes) :
  download_page (BaseJetBrains.base self) = Some key ->
  lookup key result = Some page ->
  truthy_opt (error page) = false ->
  buffer page = Some data ->
  let p := BaseJetBrains.get_metadata_and_check_license L self result in
  match Bs4.find_all (Bs4.has_text (u "a") (u "HTTPS")) (BeautifulSoup L data) with
  | [] =>
      p = Log DEBUG "Fetched download page, parsing." []
            (Log ERROR "Can't parse the download URL from the download page." [] (Quit 1))
  | link :: _ =>
      match Bs4.get (Bs4.attrs link) (u "href") with
      | Some download_url =>
          map fst (callbacks p) = [[page_request (download_url ++ u ".sha256")]]
          /\ end_of p = Returned /\ filter is_error_log (events p) = []
      | None => end_of p = Raised KeyError /\ callbacks p = []
      end
  end.
Proof.
  intros Hkey Hpage Herr Hbuf. cbv zeta.
  unfold BaseJetBrains.get_metadata_and_check_license.
  rewrite Hkey, Hpage, Herr, Hbuf, find_first.
  destruct (Bs4.find_all _ _) as [|link rest]; cbn [hd_error]; [reflexivity|].
  destruct (Bs4.get (Bs4.attrs link) (u "href")); cbn; repeat split.
Qed.

(** The block of the Arduino resolver under [suppress(TypeError)], for an
    installer that has scraped nothing yet: the first anchor to the
    archive and the first anchor labelled Checksums decide. *)
Lemma arduino_first_anchors (L : PyLib) (self : Arduino.t) (soup : list Bs4.node)
      (pat pat' : re_pattern L) :
  re_compile L (Arduino.download_link_pat (Arduino.bits self)) false = Some pat ->
  re_compile L (u "Checksums") false = Some pat' ->
  Arduino.scraped_download_url self = None ->
  Arduino.scraped_checksum_url self = None ->
  Arduino.scrape L self soup =
  match Bs4.find_all (download_anchor L pat) soup with
  | [] => inr (None, None)
  | link :: _ =>
      match Bs4.get (Bs4.attrs link) (u "href") with
      | None => inl KeyError
      | Some download_href =>
          match Bs4.find_all (labelled L (u "a") pat') soup with
          | [] => inr (Some download_href, None)
          | link' :: _ =>
              match Bs4.get (Bs4.attrs link') (u "href") with
              | None => inl KeyError
              | Some checksum_href =>
                  inr (Some (u "http:" ++ download_href), Some (u "http:" ++ checksum_href))
              end
          end
      end
  end.
Proof.
  intros Hpat Hpat' Hd Hc. unfold Arduino.scrape.
  rewrite Hpat, Hd, Hc.
  fold (download_anchor L pat). rewrite find_first.
  destruct (Bs4.find_all (download_anchor L pat) soup) as [|link rest];
    cbn [hd_error]; [reflexivity|].
  destruct (Bs4.get (Bs4.attrs link) (u "href")); [|reflexivity].
  rewrite Hpat'. fold (labelled L (u "a") pat'). rewrite find_first.
  destruct (Bs4.find_all (labelled L (u "a") pat') soup) as [|link' rest'];
    cbn [hd_error]; reflexivity.
Qed.

(** What the Arduino resolver does with the two URLs the block leaves. *)
Lemma arduino_after_scrape (L : PyLib) (os : OS) (self : Arduino.t) (result : results)
      (key : str) (page : DownloadResult) (data : bytes) (d c : option str) :
  download_page (Arduino.base self) = Some key ->
  lookup key result = Some page ->
  truthy_opt (error page) = false ->
  buffer page = Some data ->
  Arduino.scrape L self (BeautifulSoup L data) = inr (d, c) ->
  let p := Arduino.get_metadata_and_check_license L os self result in
  match d, c with
  | Some (x :: download_url), Some (y :: checksum_url) =>
      map fst (callbacks p) =
      [[page_request (x :: download_url); page_request (y :: checksum_url)]]
      /\ end_of p = Returned /\ filter is_error_log (events p) = []
  | Some (_ :: _), _ =>
      p = Log DEBUG "Parse download metadata" []
            (Log ERROR "Can't parse the checksum link from %s." [AStr key] (Quit 1))
  | _, _ =>
      p = Log DEBUG "Parse download metadata" []
            (Log ERROR "Can't parse the download link from %s." [AStr key] (Quit 1))
  end.
Proof.
  intros Hkey Hpage Herr Hbuf Hscrape. cbv zeta.
  unfold Arduino.get_metadata_and_check_license, Arduino.page_arg.
  rewrite Hkey, Hpage, Herr, Hbuf, Hscrape.
  cbn [Arduino.set_scraped Arduino.base].
  rewrite Hkey.
  destruct d as [[|x download_url]|]; cbn [truthy_opt truthy]; try reflexivity.
  destruct c as [[|y checksum_url]|]; cbn [truthy_opt truthy]; try reflexivity.
  cbn. repeat split.
Qed.

(** C3, amended.  A search that finds no tag makes the resolver log the
    error and abort with status 1, without calling the Download
    Coordinator: the anchor labelled HTTPS for JetBrains, the anchor to
    the archive or the anchor labelled Checksums for Arduino.  A search
    that finds several tags is not an error: [find] returns the first one
    in document order and the resolver goes on with it. *)
Theorem first_match_or_abort (L : PyLib) (os : OS) (result : results)
        (key : str) (page : DownloadResult) (data : bytes) :
  lookup key result = Some page ->
  truthy_opt (error page) = false ->
  buffer page = Some data ->
  (forall self : BaseJetBrains.t,
     download_page (BaseJetBrains.base self) = Some key ->
     let p := BaseJetBrains.get_metadata_and_check_license L self result in
     match Bs4.find_all (Bs4.has_text (u "a") (u "HTTPS")) (BeautifulSoup L data) with
     | [] => end_of p = Aborted 1 /\ callbacks p = []
             /\ map is_error_log (events p) = [false; true]
     | link :: _ =>
         forall download_url,
           Bs4.get (Bs4.attrs link) (u "href") = Some download_url ->
           map fst (callbacks p) = [[page_request (download_url ++ u ".sha256")]]
           /\ end_of p = Returned /\ filter is_error_log (events p) = []
     end) /\
  (forall (self : Arduino.t) (pat pat' : re_pattern L),
     download_page (Arduino.base self) = Some key ->
     re_compile L (Arduino.download_link_pat (Arduino.bits self)) false = Some pat ->
     re_compile L (u "Checksums") false = Some pat' ->
     Arduino.scraped_download_url self = None ->
     Arduino.scraped_checksum_url self = None ->
     let p := Arduino.get_metadata_and_check_license L os self result in
     match Bs4.find_all (download_anchor L pat) (BeautifulSoup L data),
           Bs4.find_all (labelled L (u "a") pat') (BeautifulSoup L data) with
     | link :: _, link' :: _ =>
         forall download_href checksum_href,
           Bs4.get (Bs4.attrs link) (u "href") = Some download_href ->
           Bs4.get (Bs4.attrs link') (u "href") = Some checksum_href ->
           map fst (callbacks p) = [[page_request (u "http:" ++ download_href);
                                     page_request (u "http:" ++ checksum_href)]]
           /\ end_of p = Returned /\ filter is_error_log (events p) = []
     | [], _ =>
         end_of p = Aborted 1 /\ callbacks p = []
         /\ map is_error_log (events p) = [false; true]
     | link :: _, [] =>
         forall download_href,
           Bs4.get (Bs4.attrs link) (u "href") = Some download_href ->
           end_of p = Aborted 1 /\ callbacks p = []
           /\ map is_error_log (events p) = [false; true]
     end).
Proof.
  intros Hpage Herr Hbuf. split.
  - intros self Hkey. cbv zeta.
    pose proof (jetbrains_first_anchor L self result key page data Hkey Hpage Herr Hbuf) as H.
    cbv zeta in H.
    destruct (Bs4.find_all _ _) as [|link rest].
    + rewrite H. repeat split.
    + intros download_url Hhref. now rewrite Hhref in H.
  - intros self pat pat' Hkey Hpat Hpat' Hd Hc. cbv zeta.
    pose proof (arduino_first_anchors L self (BeautifulSoup L data) pat pat' Hpat Hpat' Hd Hc)
      as Hscrape.
    destruct (Bs4.find_all (download_anchor L pat) (BeautifulSoup L data)) as [|link rest].
    + pose proof (arduino_after_scrape L os self result key page data None None
                                       Hkey Hpage Herr Hbuf Hscrape) as H.
      cbv zeta in H. rewrite H. repeat split.
    + destruct (Bs4.find_all (labelled L (u "a") pat') (BeautifulSoup L data))
        as [|link' rest'].
      * intros download_href Hhref. rewrite Hhref in Hscrape.
        pose proof (arduino_after_scrape L os self result key page data _ _
                                         Hkey Hpage Herr Hbuf Hscrape) as H.
        cbv zeta in H. destruct download_href; rewrite H; repeat split.
      * intros download_href checksum_href Hhref Hhref'.
        rewrite Hhref, Hhref' in Hscrape.
        pose proof (arduino_after_scrape L os self result key page data _ _
                                         Hkey Hpage Herr Hbuf Hscrape) as H.
        exact H.
Qed.

Lemma first_match_or_abort_witness :
  let L := Ref.lib Example.jetbrains_pages in
  let p := BaseJetBrains.get_metadata_and_check_license
             L Example.pycharm (Example.jetbrains_result Example.two_links) in
  map fst (callbacks p) = [[page_request (u "https://x/archive.tar.gz" ++ u ".sha256")]]
  /\ end_of p = Returned /\ filter is_error_log (events p) = [].
Proof.
  cbv zeta.
  pose proof (first_match_or_abort
                (Ref.lib Example.jetbrains_pages)
                (Example.host (u "x86_64") [] true)
                (Example.jetbrains_result Example.two_links)
                (u "https://www.jetbrains.com/pycharm/download/download_thanks.jsp?edition=comm&os=linux")
                (Example.fetched Example.two_links) Example.two_links
                eq_refl eq_refl eq_refl) as [H _].
  exact (H Example.pycharm eq_refl (u "https://x/archive.tar.gz") eq_refl).
Defined.

(** ** C2: errors, retries and fallbacks *)

(** The artifacts line of the page carries an empty version: the NetBeans
    resolver logs a warning, takes 8.0.2 for the version and goes on to
    fetch the files.js of that version. *)
Lemma netbeans_fallback_counterexample :
  let p := BaseNetBeans.get_metadata_and_check_license
             (Ref.lib []) Example.netbeans Example.zip_result in
  events p =
  [EvLog WARNING "Could not determine latest version, using version {} as fallback..."
         [AStr (u "8.0.2")];
   EvDownloadCenter
     [page_request (u "https://netbeans.org/images_www/v6/download/8.0.2/js/files.js")]
     false] /\
  end_of p = Returned.
Proof. vm_compute. split; reflexivity. Qed.

(** The strict policy implies the other one. *)
Lemma aborts_on_weaken (p : proc) : aborts_on true p -> aborts_on false p.
Proof.
  induction p as [| | |lvl msg args k IH|urls f IHf dl k IH|? ? k IH|? k IH|? ? k IH|? k IH];
    cbn [aborts_on]; try tauto.
  - destruct lvl; try tauto. intros ->. exact I.
  - intros [Hf Hk]. split; [intros r; apply IHf, Hf | apply IH, Hk].
Qed.

Lemma done_aborts (self : BaseInstaller) (arch md5_url : str) (r : results) :
  aborts_on true (Eclipse.done self arch md5_url r).
Proof.
  unfold Eclipse.done.
  destruct (lookup md5_url r) as [res|]; [|exact I].
  destruct (truthy_opt (error res)); [reflexivity|].
  destruct (buffer res) as [data|]; [|exact I].
  destruct (decode_utf8 data) as [text|]; [|exact I].
  destruct (split_ws text); [exact I|].
  cbn [aborts_on].
  destruct (str_eqb arch (u "i686")); [exact I|].
  destruct (str_eqb arch (u "x86_64")); exact I.
Qed.

Lemma checksum_downloaded_aborts (self : BaseJetBrains.t) (download_url : str) (r : results) :
  aborts_on true (BaseJetBrains.checksum_downloaded self download_url r).
Proof.
  unfold BaseJetBrains.checksum_downloaded.
  destruct (first_value r) as [res|]; [|exact I].
  destruct (truthy_opt (error res)); [reflexivity|].
  destruct (buffer res) as [data|]; [|exact I].
  destruct (decode_utf8 data) as [text|]; [|exact I].
  destruct (split_ws text); exact I.
Qed.

Lemma prepare_aborts (L : PyLib) (os : OS) (self : Arduino.t) (r : results) :
  aborts_on true (Arduino.prepare_to_download_archive L os self r).
Proof.
  destruct (prepare_cases L os self r)
    as [[e Hp] | [(msg & args & Hp) | (? & ? & ? & ? & ? & ? & ? & _ & _ & _ & _ & _ & _ & Hp)]];
    cbv zeta in Hp; rewrite Hp; [exact I | reflexivity |].
  cbn [aborts_on].
  destruct (negb (Arduino.was_in_arduino_group self)); [|exact I].
  cbn [aborts_on]. destruct (snd _) as [[|]|e]; exact I.
Qed.

Lemma parse_download_page_aborts (L : PyLib) (self : BaseNetBeans.t) (r : results) :
  aborts_on true (BaseNetBeans.parse_download_page_callback L self r).
Proof.
  unfold BaseNetBeans.parse_download_page_callback.
  destruct (BaseNetBeans.version self) as [| |version_]; [exact I| |];
    cbn [aborts_on];
    (destruct (BaseNetBeans.version_download_page self) as [key|]; [|exact I]);
    (destruct (lookup key r) as [page|]; [|exact I]);
    (destruct (buffer page) as [data|]; [|reflexivity]);
    (destruct (decode_utf8 data) as [url_file|]; [|exact I]); [exact I|].
  destruct (re_compile L _ false) as [preg|]; [|exact I].
  destruct (BaseNetBeans.scan_files _ url_file) as [url_string|]; [|exact I].
  destruct (negb (truthy url_string)); [reflexivity|].
  destruct (split (u ", ") url_string) as [|? [|? [|? ?]]]; try reflexivity.
Qed.

(** The continuations never call the Download Coordinator. *)
Lemma done_no_callbacks (self : BaseInstaller) (arch md5_url : str) (r : results) :
  callbacks (Eclipse.done self arch md5_url r) = [].
Proof.
  unfold Eclipse.done.
  destruct (lookup md5_url r) as [res|]; [|reflexivity].
  destruct (truthy_opt (error res)); [reflexivity|].
  destruct (buffer res) as [data|]; [|reflexivity].
  destruct (decode_utf8 data) as [text|]; [|reflexivity].
  destruct (split_ws text); [reflexivity|].
  cbn [callbacks].
  destruct (str_eqb arch (u "i686")); [reflexivity|].
  destruct (str_eqb arch (u "x86_64")); reflexivity.
Qed.

Lemma checksum_downloaded_no_callbacks (self : BaseJetBrains.t) (download_url : str)
      (r : results) :
  callbacks (BaseJetBrains.checksum_downloaded self download_url r) = [].
Proof.
  unfold BaseJetBrains.checksum_downloaded.
  destruct (first_value r) as [res|]; [|reflexivity].
  destruct (truthy_opt (error res)); [reflexivity|].
  destruct (buffer res) as [data|]; [|reflexivity].
  destruct (decode_utf8 data) as [text|]; [|reflexivity].
  destruct (split_ws text); reflexivity.
Qed.

Lemma prepare_no_callbacks (L : PyLib) (os : OS) (self : Arduino.t) (r : results) :
  callbacks (Arduino.prepare_to_download_archive L os self r) = [].
Proof.
  destruct (prepare_cases L os self r)
    as [[e Hp] | [(msg & args & Hp) | (? & ? & ? & ? & ? & ? & ? & _ & _ & _ & _ & _ & _ & Hp)]];
    cbv zeta in Hp; rewrite Hp; [reflexivity | reflexivity |].
  cbn [callbacks].
  destruct (negb (Arduino.was_in_arduino_group self)); [|reflexivity].
  cbn [callbacks]. destruct (snd _) as [[|]|e]; reflexivity.
Qed.

Lemma parse_download_page_no_callbacks (L : PyLib) (self : BaseNetBeans.t) (r : results) :
  callbacks (BaseNetBeans.parse_download_page_callback L self r) = [].
Proof.
  unfold BaseNetBeans.parse_download_page_callback.
  destruct (BaseNetBeans.version self) as [| |version_]; [reflexivity| |];
    cbn [callbacks];
    (destruct (BaseNetBeans.version_download_page self) as [key|]; [|reflexivity]);
    (destruct (lookup key r) as [page|]; [|reflexivity]);
    (destruct (buffer page) as [data|]; [|reflexivity]);
    (destruct (decode_utf8 data) as [url_file|]; [|reflexivity]); [reflexivity|].
  destruct (re_compile L _ false) as [preg|]; [|reflexivity].
  destruct (BaseNetBeans.scan_files _ url_file) as [url_string|]; [|reflexivity].
  destruct (negb (truthy url_string)); [reflexivity|].
  destruct (split (u ", ") url_string) as [|? [|? [|? ?]]]; reflexivity.
Qed.

(** The continuations never log a warning. *)
Lemma done_no_warning (self : BaseInstaller) (arch md5_url : str) (r : results) :
  no_warning (Eclipse.done self arch md5_url r).
Proof.
  unfold Eclipse.done.
  destruct (lookup md5_url r) as [res|]; [|exact I].
  destruct (truthy_opt (error res)); [exact I|].
  destruct (buffer res) as [data|]; [|exact I].
  destruct (decode_utf8 data) as [text|]; [|exact I].
  destruct (split_ws text); [exact I|].
  cbn [no_warning].
  destruct (str_eqb arch (u "i686")); [exact I|].
  destruct (str_eqb arch (u "x86_64")); exact I.
Qed.

Lemma checksum_downloaded_no_warning (self : BaseJetBrains.t) (download_url : str)
      (r : results) :
  no_warning (BaseJetBrains.checksum_downloaded self download_url r).
Proof.
  unfold BaseJetBrains.checksum_downloaded.
  destruct (first_value r) as [res|]; [|exact I].
  destruct (truthy_opt (error res)); [exact I|].
  destruct (buffer res) as [data|]; [|exact I].
  destruct (decode_utf8 data) as [text|]; [|exact I].
  destruct (split_ws text); exact I.
Qed.

Lemma prepare_no_warning (L : PyLib) (os : OS) (self : Arduino.t) (r : results) :
  no_warning (Arduino.prepare_to_download_archive L os self r).
Proof.
  destruct (prepare_cases L os self r)
    as [[e Hp] | [(msg & args & Hp) | (? & ? & ? & ? & ? & ? & ? & _ & _ & _ & _ & _ & _ & Hp)]];
    cbv zeta in Hp; rewrite Hp; [exact I | exact I |].
  cbn [no_warning].
  destruct (negb (Arduino.was_in_arduino_group self)); [|exact I].
  cbn [no_warning]. destruct (snd _) as [[|]|e]; exact I.
Qed.

Lemma parse_download_page_no_warning (L : PyLib) (self : BaseNetBeans.t) (r : results) :
  no_warning (BaseNetBeans.parse_download_page_callback L self r).
Proof.
  unfold BaseNetBeans.parse_download_page_callback.
  destruct (BaseNetBeans.version self) as [| |version_]; [exact I| |];
    cbn [no_warning];
    (destruct (BaseNetBeans.version_download_page self) as [key|]; [|exact I]);
    (destruct (lookup key r) as [page|]; [|exact I]);
    (destruct (buffer page) as [data|]; [|exact I]);
    (destruct (decode_utf8 data) as [url_file|]; [|exact I]); [exact I|].
  destruct (re_compile L _ false) as [preg|]; [|exact I].
  destruct (BaseNetBeans.scan_files _ url_file) as [url_string|]; [|exact I].
  destruct (negb (truthy url_string)); [exact I|].
  destruct (split (u ", ") url_string) as [|? [|? [|? ?]]]; exact I.
Qed.

(** An error record followed by the abort, alone or after one record of
    another level. *)
Lemma abort_after_log (msg : string) (args : list arg) :
  aborted_after_error (Log ERROR msg args (Quit 1)).
Proof.
  unfold aborted_after_error. cbn [end_of callbacks started events].
  split; [reflexivity|]. split; [reflexivity|]. split; [reflexivity|].
  exists [], msg, args. split; reflexivity.
Qed.

Lemma abort_after_logs (lvl : level) (msg0 msg : string) (args0 args : list arg) :
  lvl <> ERROR ->
  aborted_after_error (Log lvl msg0 args0 (Log ERROR msg args (Quit 1))).
Proof.
  intros Hlvl. unfold aborted_after_error. cbn [end_of callbacks started events].
  split; [reflexivity|]. split; [reflexivity|]. split; [reflexivity|].
  exists [EvLog lvl msg0 args0], msg, args. split; [reflexivity|].
  destruct lvl; try reflexivity. contradiction.
Qed.

Ltac no_fetch :=
  unfold single_fetch; cbn [callbacks List.length];
  split; [apply Nat.le_0_l | constructor].

Ltac one_fetch lem :=
  unfold single_fetch; cbn [callbacks List.length snd];
  split; [apply le_n | constructor; [intros ?; cbn [snd]; apply lem | constructor]].

(** C2, amended.  No resolver retries: a handler calls the Download
    Coordinator at most once and the continuation it registers never
    calls it.  Every error a resolver detects, that is a page that could
    not be fetched, a page without the expected link, button, checksum or
    fields, an unsupported machine, stops it there: the error record is
    the last thing it does, the abort with status 1 follows, and neither
    the coordinator nor the installation has been called; a group helper
    that returns [False] aborts in the same way, without a record of the
    parent.  Whenever a resolver logs an error the abort follows at once.
    Eclipse, the JetBrains installers, Arduino and the continuation of
    NetBeans never log a warning.  The first stage of NetBeans does, in
    one place, and goes on after it: when the version it reads from the
    download page is missing or empty, it logs a warning, takes
    [FALLBACK_VERSION] (8.0.2) instead and fetches the files.js of that
    version. *)
Theorem errors_abort_but_netbeans_falls_back (L : PyLib) (os : OS) :
  (forall self, aborts_on true (Eclipse.download_provider_page os self)) /\
  (forall self result,
     aborts_on true (BaseJetBrains.get_metadata_and_check_license L self result)) /\
  (forall self result,
     aborts_on true (Arduino.get_metadata_and_check_license L os self result)) /\
  (forall self result,
     aborts_on false (BaseNetBeans.get_metadata_and_check_license L self result)) /\
  (forall self result key page data url_version_str preg,
     download_page (BaseNetBeans.base self) = Some key ->
     lookup key result = Some page ->
     buffer page = Some data ->
     decode_utf8 data = Some url_version_str ->
     re_compile L (u ".*/images_www/v6/download/.*") false = Some preg ->
     BaseNetBeans.get_metadata_and_check_license L self result =
     match BaseNetBeans.scan_version (fun line => matched (re_match L preg line))
                                     url_version_str (BaseNetBeans.version self) with
     | BaseNetBeans.Missing => Raise AttributeError
     | BaseNetBeans.PyStr (c :: s) => BaseNetBeans.fetch_files L self (c :: s)
     | _ =>
         Log WARNING "Could not determine latest version, using version {} as fallback..."
             [AStr (u "8.0.2")]
           (DownloadCenter
              [page_request (u "https://netbeans.org/images_www/v6/download/8.0.2/js/files.js")]
              (BaseNetBeans.parse_download_page_callback
                 L (BaseNetBeans.set_version
                      (BaseNetBeans.PyStr (u "8.0.2"))
                      (Some (u "https://netbeans.org/images_www/v6/download/8.0.2/js/files.js"))
                      self))
              false Return)
     end) /\
  (* no retry *)
  (forall self, single_fetch (Eclipse.download_provider_page os self)) /\
  (forall self result,
     single_fetch (BaseJetBrains.get_metadata_and_check_license L self result)) /\
  (forall self result,
     single_fetch (Arduino.get_metadata_and_check_license L os self result)) /\
  (forall self result,
     single_fetch (BaseNetBeans.get_metadata_and_check_license L self result)) /\
  (forall self result,
     aborts_on true (BaseNetBeans.parse_download_page_callback L self result)) /\
  (* one fallback *)
  (forall self, no_warning (Eclipse.download_provider_page os self)) /\
  (forall self result,
     no_warning (BaseJetBrains.get_metadata_and_check_license L self result)) /\
  (forall self result,
     no_warning (Arduino.get_metadata_and_check_license L os self result)) /\
  (forall self result,
     let p := BaseNetBeans.get_metadata_and_check_license L self result in
     no_warning p \/
     exists on_done,
       p = Log WARNING "Could not determine latest version, using version {} as fallback..."
               [AStr BaseNetBeans.FALLBACK_VERSION]
             (DownloadCenter [page_request (BaseNetBeans.files_js BaseNetBeans.FALLBACK_VERSION)]
                             on_done false Return)
       /\ forall r, no_warning (on_done r)) /\
  (* Eclipse: the machine, the MD5 file *)
  (forall self,
     machine os <> u "i686" -> machine os <> u "x86_64" ->
     aborted_after_error (Eclipse.download_provider_page os self)) /\
  (forall self arch md5_url r res,
     lookup md5_url r = Some res ->
     truthy_opt (error res) = true ->
     aborted_after_error (Eclipse.done self arch md5_url r)) /\
  (* JetBrains: the download page, its anchor, the SHA-256 file *)
  (forall self result key page,
     download_page (BaseJetBrains.base self) = Some key ->
     lookup key result = Some page ->
     truthy_opt (error page) = true \/
     (exists data,
        truthy_opt (error page) = false /\ buffer page = Some data /\
        Bs4.find_all (Bs4.has_text (u "a") (u "HTTPS")) (BeautifulSoup L data) = []) ->
     aborted_after_error (BaseJetBrains.get_metadata_and_check_license L self result)) /\
  (forall self download_url r res,
     first_value r = Some res ->
     truthy_opt (error res) = true ->
     aborted_after_error (BaseJetBrains.checksum_downloaded self download_url r)) /\
  (* Arduino, first stage: the Software page and its two anchors *)
  (forall self result key page,
     download_page (Arduino.base self) = Some key ->
     lookup key result = Some page ->
     truthy_opt (error page) = true ->
     aborted_after_error (Arduino.get_metadata_and_check_license L os self result)) /\
  (forall self result key page data pat pat',
     download_page (Arduino.base self) = Some key ->
     lookup key result = Some page ->
     truthy_opt (error page) = false ->
     buffer page = Some data ->
     Arduino.scraped_download_url self = None ->
     Arduino.scraped_checksum_url self = None ->
     re_compile L (Arduino.download_link_pat (Arduino.bits self)) false = Some pat ->
     re_compile L (u "Checksums") false = Some pat' ->
     Bs4.find_all (download_anchor L pat) (BeautifulSoup L data) = [] \/
     (exists link rest download_href,
        Bs4.find_all (download_anchor L pat) (BeautifulSoup L data) = link :: rest /\
        Bs4.get (Bs4.attrs link) (u "href") = Some download_href /\
        Bs4.find_all (labelled L (u "a") pat') (BeautifulSoup L data) = []) ->
     aborted_after_error (Arduino.get_metadata_and_check_license L os self result)) /\
  (* Arduino, second stage: the two pages, the checksum line, the button *)
  (forall self r download_key checksum_key page checksum_page,
     Arduino.scraped_download_url self = Some download_key ->
     lookup download_key r = Some page ->
     Arduino.scraped_checksum_url self = Some checksum_key ->
     lookup checksum_key r = Some checksum_page ->
     truthy_opt (error page) = true \/ truthy_opt (error checksum_page) = true ->
     aborted_after_error (Arduino.prepare_to_download_archive L os self r)) /\
  (forall self r download_key checksum_key page checksum_page checksum_data text pat,
     Arduino.scraped_download_url self = Some download_key ->
     lookup download_key r = Some page ->
     Arduino.scraped_checksum_url self = Some checksum_key ->
     lookup checksum_key r = Some checksum_page ->
     truthy_opt (error page) = false ->
     truthy_opt (error checksum_page) = false ->
     buffer checksum_page = Some checksum_data ->
     decode_ascii checksum_data = Some text ->
     re_compile L (Arduino.checksum_line_pat (Arduino.bits self)) true = Some pat ->
     re_search L pat text = None \/
     (exists digest groups data pat',
        re_search L pat text = Some (digest :: groups) /\
        buffer page = Some data /\
        re_compile L (u "JUST DOWNLOAD") false = Some pat' /\
        Bs4.find (labelled L (u "button") pat') (BeautifulSoup L data) = None) ->
     aborted_after_error (Arduino.prepare_to_download_archive L os self r)) /\
  (* Arduino, second stage: the group helper *)
  (forall self r download_key checksum_key page checksum_page checksum_data data
          text digest href groups pat pat' btn,
     Arduino.scraped_download_url self = Some download_key ->
     lookup download_key r = Some page ->
     Arduino.scraped_checksum_url self = Some checksum_key ->
     lookup checksum_key r = Some checksum_page ->
     truthy_opt (error page) = false ->
     truthy_opt (error checksum_page) = false ->
     buffer checksum_page = Some checksum_data ->
     decode_ascii checksum_data = Some text ->
     re_compile L (Arduino.checksum_line_pat (Arduino.bits self)) true = Some pat ->
     re_search L pat text = Some (digest :: groups) ->
     buffer page = Some data ->
     re_compile L (u "JUST DOWNLOAD") false = Some pat' ->
     Bs4.find (labelled L (u "button") pat') (BeautifulSoup L data) = Some btn ->
     Bs4.get (Bs4.parent btn) (u "href") = Some href ->
     Arduino.was_in_arduino_group self = false ->
     snd (_add_to_group os (Arduino._current_user self) Arduino.ARDUINO_GROUP)
     = WorkerReturned false ->
     let p := Arduino.prepare_to_download_archive L os self r in
     end_of p = Aborted 1 /\ callbacks p = [] /\ started p = None /\
     filter is_error_log (events p) = []) /\
  (* NetBeans: the two pages, the fields of the archive line *)
  (forall self result key page,
     download_page (BaseNetBeans.base self) = Some key ->
     lookup key result = Some page ->
     buffer page = None ->
     aborted_after_error (BaseNetBeans.get_metadata_and_check_license L self result)) /\
  (forall self result key page,
     BaseNetBeans.version self <> BaseNetBeans.Missing ->
     BaseNetBeans.version_download_page self = Some key ->
     lookup key result = Some page ->
     buffer page = None ->
     aborted_after_error (BaseNetBeans.parse_download_page_callback L self result)) /\
  (forall self result version_ key page data url_file preg url_string,
     BaseNetBeans.version self = BaseNetBeans.PyStr version_ ->
     BaseNetBeans.version_download_page self = Some key ->
     lookup key result = Some page ->
     buffer page = Some data ->
     decode_utf8 data = Some url_file ->
     re_compile L (u "add_file\(" ++ BaseNetBeans.dq ++ u "zip/netbeans-" ++ version_
                     ++ u "-[0-9]{12}" ++ BaseNetBeans.flavour self ++ u ".zip"
                     ++ BaseNetBeans.dq) false = Some preg ->
     BaseNetBeans.scan_files (fun line => matched (re_match L preg line)) url_file
     = Some url_string ->
     (List.length (split (u ", ") url_string) <=? 2)%nat = true ->
     aborted_after_error (BaseNetBeans.parse_download_page_callback L self result)).
Proof.
  repeat lazymatch goal with |- _ /\ _ => split end.
  - intros self. unfold Eclipse.download_provider_page. cbn [aborts_on].
    destruct (str_eqb (machine os) (u "i686")).
    + cbn [aborts_on]. split; [|exact I]. intros r. apply done_aborts.
    + destruct (str_eqb (machine os) (u "x86_64")); [|reflexivity].
      cbn [aborts_on]. split; [|exact I]. intros r. apply done_aborts.
  - intros self result. unfold BaseJetBrains.get_metadata_and_check_license.
    cbn [aborts_on].
    destruct (download_page (BaseJetBrains.base self)) as [key|]; [|exact I].
    destruct (lookup key result) as [page|]; [|exact I].
    destruct (truthy_opt (error page)); [reflexivity|].
    destruct (buffer page) as [data|]; [|exact I].
    destruct (Bs4.find _ _) as [link|]; [|reflexivity].
    destruct (Bs4.get _ _) as [download_url|]; [|exact I].
    cbn [aborts_on]. split; [|exact I]. intros r. apply checksum_downloaded_aborts.
  - intros self result. unfold Arduino.get_metadata_and_check_license.
    cbn [aborts_on].
    destruct (download_page (Arduino.base self)) as [key|]; [|exact I].
    destruct (lookup key result) as [page|]; [|exact I].
    destruct (truthy_opt (error page)); [reflexivity|].
    destruct (buffer page) as [data|]; [|exact I].
    destruct (Arduino.scrape L self (BeautifulSoup L data)) as [e|[d c]]; [exact I|].
    destruct (if truthy_opt d then d else None); [|reflexivity].
    destruct (if truthy_opt c then c else None); [|reflexivity].
    cbn [aborts_on]. split; [|exact I]. intros r. apply prepare_aborts.
  - intros self result. unfold BaseNetBeans.get_metadata_and_check_license.
    destruct (download_page (BaseNetBeans.base self)) as [key|]; [|exact I].
    destruct (lookup key result) as [page|]; [|exact I].
    destruct (buffer page) as [data|]; [|reflexivity].
    destruct (decode_utf8 data) as [url_version_str|]; [|exact I].
    destruct (re_compile L _ false) as [preg|]; [|exact I].
    assert (Hfetch : forall s v, aborts_on false (BaseNetBeans.fetch_files L s v)).
    { intros s v. unfold BaseNetBeans.fetch_files. cbn [aborts_on].
      split; [|exact I]. intros r. apply aborts_on_weaken, parse_download_page_aborts. }
    destruct (BaseNetBeans.scan_version _ _ _) as [| |[|c s]];
      [exact I | | | apply Hfetch]; cbn [aborts_on]; apply Hfetch.
  - intros self result key page data url_version_str preg Hkey Hpage Hbuf Hdec Hpat.
    unfold BaseNetBeans.get_metadata_and_check_license.
    rewrite Hkey, Hpage, Hbuf, Hdec, Hpat.
    destruct (BaseNetBeans.scan_version _ _ _) as [| |[|c s]]; reflexivity.
  - intros self. unfold Eclipse.download_provider_page.
    destruct (str_eqb (machine os) (u "i686")); [one_fetch done_no_callbacks|].
    destruct (str_eqb (machine os) (u "x86_64")); [one_fetch done_no_callbacks | no_fetch].
  - intros self result. unfold BaseJetBrains.get_metadata_and_check_license.
    destruct (download_page (BaseJetBrains.base self)) as [key|]; [|no_fetch].
    destruct (lookup key result) as [page|]; [|no_fetch].
    destruct (truthy_opt (error page)); [no_fetch|].
    destruct (buffer page) as [data|]; [|no_fetch].
    destruct (Bs4.find _ _) as [link|]; [|no_fetch].
    destruct (Bs4.get _ _) as [download_url|]; [|no_fetch].
    one_fetch checksum_downloaded_no_callbacks.
  - intros self result. unfold Arduino.get_metadata_and_check_license.
    destruct (download_page (Arduino.base self)) as [key|]; [|no_fetch].
    destruct (lookup key result) as [page|]; [|no_fetch].
    destruct (truthy_opt (error page)); [no_fetch|].
    destruct (buffer page) as [data|]; [|no_fetch].
    destruct (Arduino.scrape L self (BeautifulSoup L data)) as [e|[d c]]; [no_fetch|].
    destruct (if truthy_opt d then d else None); [|no_fetch].
    destruct (if truthy_opt c then c else None); [|no_fetch].
    one_fetch prepare_no_callbacks.
  - intros self result. unfold BaseNetBeans.get_metadata_and_check_license.
    destruct (download_page (BaseNetBeans.base self)) as [key|]; [|no_fetch].
    destruct (lookup key result) as [page|]; [|no_fetch].
    destruct (buffer page) as [data|]; [|no_fetch].
    destruct (decode_utf8 data) as [url_version_str|]; [|no_fetch].
    destruct (re_compile L _ false) as [preg|]; [|no_fetch].
    destruct (BaseNetBeans.scan_version _ _ _) as [| |[|c s]];
      [no_fetch | | |]; unfold BaseNetBeans.fetch_files;
      one_fetch parse_download_page_no_callbacks.
  - intros self result. apply parse_download_page_aborts.
  - intros self. unfold Eclipse.download_provider_page. cbn [no_warning].
    destruct (str_eqb (machine os) (u "i686")).
    + cbn [no_warning]. split; [|exact I]. intros r. apply done_no_warning.
    + destruct (str_eqb (machine os) (u "x86_64")); [|exact I].
      cbn [no_warning]. split; [|exact I]. intros r. apply done_no_warning.
  - intros self result. unfold BaseJetBrains.get_metadata_and_check_license.
    cbn [no_warning].
    destruct (download_page (BaseJetBrains.base self)) as [key|]; [|exact I].
    destruct (lookup key result) as [page|]; [|exact I].
    destruct (truthy_opt (error page)); [exact I|].
    destruct (buffer page) as [data|]; [|exact I].
    destruct (Bs4.find _ _) as [link|]; [|exact I].
    destruct (Bs4.get _ _) as [download_url|]; [|exact I].
    cbn [no_warning]. split; [|exact I]. intros r. apply checksum_downloaded_no_warning.
  - intros self result. unfold Arduino.get_metadata_and_check_license.
    cbn [no_warning].
    destruct (download_page (Arduino.base self)) as [key|]; [|exact I].
    destruct (lookup key result) as [page|]; [|exact I].
    destruct (truthy_opt (error page)); [exact I|].
    destruct (buffer page) as [data|]; [|exact I].
    destruct (Arduino.scrape L self (BeautifulSoup L data)) as [e|[d c]]; [exact I|].
    destruct (if truthy_opt d then d else None); [|exact I].
    destruct (if truthy_opt c then c else None); [|exact I].
    cbn [no_warning]. split; [|exact I]. intros r. apply prepare_no_warning.
  - intros self result. cbv zeta. unfold BaseNetBeans.get_metadata_and_check_license.
    destruct (download_page (BaseNetBeans.base self)) as [key|]; [|left; exact I].
    destruct (lookup key result) as [page|]; [|left; exact I].
    destruct (buffer page) as [data|]; [|left; exact I].
    destruct (decode_utf8 data) as [url_version_str|]; [|left; exact I].
    destruct (re_compile L _ false) as [preg|]; [|left; exact I].
    destruct (BaseNetBeans.scan_version _ _ _) as [| |[|c s]].
    + left. exact I.
    + right. unfold BaseNetBeans.fetch_files. eexists. split; [reflexivity|].
      intros r. apply parse_download_page_no_warning.
    + right. unfold BaseNetBeans.fetch_files. eexists. split; [reflexivity|].
      intros r. apply parse_download_page_no_warning.
    + left. unfold BaseNetBeans.fetch_files. cbn [no_warning]. split; [|exact I].
      intros r. apply parse_download_page_no_warning.
  - intros self H32 H64. unfold Eclipse.download_provider_page.
    destruct (str_eqb (machine os) (u "i686")) eqn:E32;
      [apply str_eqb_eq in E32; contradiction|].
    destruct (str_eqb (machine os) (u "x86_64")) eqn:E64;
      [apply str_eqb_eq in E64; contradiction|].
    apply abort_after_logs. discriminate.
  - intros self arch md5_url r res Hres Herr. unfold Eclipse.done.
    rewrite Hres, Herr. apply abort_after_log.
  - intros self result key page Hkey Hpage H.
    unfold BaseJetBrains.get_metadata_and_check_license. rewrite Hkey, Hpage.
    destruct H as [Herr | (data & Herr & Hbuf & Hnone)].
    + rewrite Herr. apply abort_after_logs. discriminate.
    + rewrite Herr, Hbuf, find_first, Hnone. cbn [hd_error].
      apply abort_after_logs. discriminate.
  - intros self download_url r res Hres Herr. unfold BaseJetBrains.checksum_downloaded.
    rewrite Hres, Herr. apply abort_after_log.
  - intros self result key page Hkey Hpage Herr.
    unfold Arduino.get_metadata_and_check_license. rewrite Hkey, Hpage, Herr.
    apply abort_after_logs. discriminate.
  - intros self result key page data pat pat' Hkey Hpage Herr Hbuf Hd Hc Hpat Hpat' H.
    pose proof (arduino_first_anchors L self (BeautifulSoup L data) pat pat' Hpat Hpat' Hd Hc)
      as Hscrape.
    destruct H as [Hnone | (link & rest & download_href & Hlink & Hhref & Hnone)].
    + rewrite Hnone in Hscrape.
      pose proof (arduino_after_scrape L os self result key page data None None
                                       Hkey Hpage Herr Hbuf Hscrape) as H.
      cbv zeta in H. rewrite H. apply abort_after_logs. discriminate.
    + rewrite Hlink, Hhref, Hnone in Hscrape.
      pose proof (arduino_after_scrape L os self result key page data _ _
                                       Hkey Hpage Herr Hbuf Hscrape) as H.
      cbv zeta in H. destruct download_href; rewrite H; apply abort_after_logs; discriminate.
  - intros self r download_key checksum_key page checksum_page Hdk Hdp Hck Hcp H.
    unfold Arduino.prepare_to_download_archive. rewrite Hdk, Hdp, Hck, Hcp.
    destruct H as [H | H].
    + rewrite H. apply abort_after_log.
    + destruct (truthy_opt (error page)); [apply abort_after_log|].
      rewrite H. apply abort_after_log.
  - intros self r download_key checksum_key page checksum_page checksum_data text pat
           Hdk Hdp Hck Hcp Hde Hce Hcb Hdec Hpat H.
    unfold Arduino.prepare_to_download_archive.
    rewrite Hdk, Hdp, Hck, Hcp, Hde, Hce, Hcb, Hdec, Hpat.
    destruct H as [Hnone | (digest & groups & data & pat' & Hsearch & Hbuf & Hpat' & Hnone)].
    + rewrite Hnone. apply abort_after_log.
    + rewrite Hsearch, Hbuf, Hpat'. unfold labelled in Hnone. rewrite Hnone.
      apply abort_after_log.
  - intros self r download_key checksum_key page checksum_page checksum_data data
           text digest href groups pat pat' btn
           Hdk Hdp Hck Hcp Hde Hce Hcb Hdec Hpat Hsearch Hbuf Hpat' Hbtn Hhref Hout Hfalse.
    cbv zeta.
    rewrite (prepare_reaches_group_step
               L os self r download_key checksum_key page checksum_page checksum_data
               data text digest href groups pat pat' btn
               Hdk Hdp Hck Hcp Hde Hce Hcb Hdec Hpat Hsearch Hbuf Hpat' Hbtn Hhref).
    rewrite Hout, Hfalse. repeat split.
  - intros self result key page Hkey Hpage Hbuf.
    unfold BaseNetBeans.get_metadata_and_check_license. rewrite Hkey, Hpage, Hbuf.
    apply abort_after_log.
  - intros self result key page Hv Hkey Hpage Hbuf.
    unfold BaseNetBeans.parse_download_page_callback.
    destruct (BaseNetBeans.version self) as [| |version_]; [contradiction| |];
      rewrite Hkey, Hpage, Hbuf; apply abort_after_logs; discriminate.
  - intros self result version_ key page data url_file preg url_string
           Hv Hkey Hpage Hbuf Hdec Hpat Hscan Hlen.
    unfold BaseNetBeans.parse_download_page_callback.
    rewrite Hv, Hkey, Hpage, Hbuf, Hdec, Hpat, Hscan.
    destruct (negb (truthy url_string)); [apply abort_after_logs; discriminate|].
    destruct (split (u ", ") url_string) as [|a [|c [|d rest]]];
      try (apply abort_after_logs; discriminate).
    discriminate Hlen.
Qed.

(** * Further properties of the module *)

(** ** Paths *)

Lemma startswith_app (p s : str) : startswith p (p ++ s) = true.
Proof.
  induction p as [|c p IH]; [reflexivity|].
  simpl. now rewrite N.eqb_refl, IH.
Qed.

Lemma startswith_nil (p : str) : startswith p [] = true -> p = [].
Proof. destruct p; [reflexivity | discriminate]. Qed.

(** Joining a relative component extends the path. *)
Lemma join_extends (a c : str) :
  startswith (u "/") c = false -> exists t, join a c = a ++ t.
Proof.
  intros Hrel. unfold join. rewrite Hrel.
  destruct (rev a) as [|x r] eqn:Hrev.
  - assert (a = []) as -> by (apply (f_equal (@rev N)) in Hrev;
                              now rewrite rev_involutive in Hrev).
    now exists c.
  - destruct (x =? 0x2F); eexists; reflexivity.
Qed.

Lemma join_absolute (a c : str) : startswith (u "/") c = true -> join a c = c.
Proof. intros H. unfold join. now rewrite H. Qed.

(** Joining a relative component to a path that does not end with a slash. *)
Lemma join_after (a c : str) (x : N) :
  startswith (u "/") c = false -> (x =? 0x2F) = false ->
  join (a ++ [x]) c = (a ++ [x]) ++ u "/" ++ c.
Proof.
  intros Hrel Hx. unfold join. rewrite Hrel, rev_app_distr. cbn [rev app].
  now rewrite Hx.
Qed.

(** [join(a, "bin", e)] is [join(a, join("bin", e))]. *)
Lemma join_bin (a e : str) :
  join (join a (u "bin")) e = join a (join (u "bin") e).
Proof.
  destruct (startswith (u "/") e) eqn:He.
  - rewrite (join_absolute (u "bin") e He). now rewrite !(join_absolute _ e He).
  - assert (Hbin : join (u "bin") e = u "bin/" ++ e).
    { unfold join. rewrite He. reflexivity. }
    rewrite Hbin.
    assert (Hleft : exists y, join a (u "bin") = y ++ [0x6E]
                              /\ join a (u "bin/" ++ e) = (y ++ [0x6E]) ++ u "/" ++ e).
    { unfold join. change (startswith (u "/") (u "bin")) with false.
      change (startswith (u "/") (u "bin/" ++ e)) with false. cbv iota.
      destruct (rev a) as [|x r].
      - exists (u "bi"). split; reflexivity.
      - destruct (x =? 0x2F).
        + exists (a ++ u "bi"). rewrite <- !app_assoc. split; reflexivity.
        + exists (a ++ u "/bi"). rewrite <- !app_assoc. split; reflexivity. }
    destruct Hleft as (y & -> & ->).
    now apply join_after.
Qed.

(** ** The launchers *)

Lemma join2_extends (a c d : str) :
  startswith (u "/") c = false -> startswith (u "/") d = false ->
  exists t, join (join a c) d = a ++ t.
Proof.
  intros Hc Hd.
  destruct (join_extends a c Hc) as [t1 H1]. rewrite H1.
  destruct (join_extends (a ++ t1) d Hd) as [t2 H2]. rewrite H2.
  exists (t1 ++ t2). now rewrite app_assoc.
Qed.

(** X1.  Every [post_install] creates its launcher under the desktop
    filename of the installer, and the icon and the program of the
    launcher lie under the install path, whatever that path is.  Eclipse,
    the JetBrains installers and Arduino quote the program and pass it the
    file to open; NetBeans gives the bare path. *)
Theorem launchers_inside_install_path :
  (forall self : BaseInstaller,
     exists c t t',
       launcher_of (EclipseDesktop.post_install self) = Some (desktop_filename self, c)
       /\ df_icon_path c = install_path self ++ t
       /\ df_exec c = quoted_exec (install_path self ++ t')) /\
  Forall (fun cl =>
            forall self : BaseJetBrains.t,
            exists c t t',
              launcher_of (JetBrains.post_install cl self)
              = Some (desktop_filename (BaseJetBrains.base self), c)
              /\ df_icon_path c = install_path (BaseJetBrains.base self) ++ t
              /\ df_exec c = quoted_exec (install_path (BaseJetBrains.base self) ++ t'))
         JetBrains.classes /\
  (forall self : Arduino.t,
     exists c t t',
       launcher_of (Arduino.post_install self)
       = Some (desktop_filename (Arduino.base self), c)
       /\ df_icon_path c = install_path (Arduino.base self) ++ t
       /\ df_exec c = quoted_exec (install_path (Arduino.base self) ++ t')) /\
  (forall self : BaseNetBeans.t,
     exists c t t',
       launcher_of (NetBeansDesktop.post_install self)
       = Some (desktop_filename (BaseNetBeans.base self), c)
       /\ df_icon_path c = install_path (BaseNetBeans.base self) ++ t
       /\ df_exec c = install_path (BaseNetBeans.base self) ++ t').
Proof.
  split; [|split; [|split]].
  - intros self. unfold EclipseDesktop.post_install. cbn [launcher_of].
    destruct (join_extends (install_path self) (u "icon.xpm") eq_refl) as [t Ht].
    destruct (join_extends (install_path self) (u "eclipse") eq_refl) as [t' Ht'].
    eexists. exists t, t'. split; [reflexivity|]. cbn [df_icon_path df_exec].
    now rewrite Ht, Ht'.
  - unfold JetBrains.classes.
    repeat (constructor;
            [intros self; unfold JetBrains.post_install; cbn [launcher_of];
             match goal with
             | |- context [join (join ?a ?x) (JetBrains.icon_filename ?cl)] =>
                 destruct (join2_extends a x (JetBrains.icon_filename cl) eq_refl eq_refl)
                   as [t Ht];
                 destruct (join2_extends a x (JetBrains.executable cl) eq_refl eq_refl)
                   as [t' Ht']
             end;
             eexists; exists t, t'; split; [reflexivity|];
             cbn [df_icon_path df_exec]; now rewrite Ht, Ht'|]).
    constructor.
  - intros self. unfold Arduino.post_install. cbn [launcher_of].
    destruct (join2_extends (install_path (Arduino.base self)) (u "lib")
                            (u "arduino_icon.ico") eq_refl eq_refl) as [t Ht].
    destruct (join_extends (install_path (Arduino.base self)) (u "arduino") eq_refl)
      as [t' Ht'].
    eexists. exists t, t'. split; [reflexivity|]. cbn [df_icon_path df_exec].
    rewrite Ht, Ht'. split; reflexivity.
  - intros self. unfold NetBeansDesktop.post_install. cbn [launcher_of].
    destruct (join2_extends (install_path (BaseNetBeans.base self)) (u "nb")
                            (u "netbeans.png") eq_refl eq_refl) as [t Ht].
    destruct (join2_extends (install_path (BaseNetBeans.base self)) (u "bin")
                            (u "netbeans") eq_refl eq_refl) as [t' Ht'].
    eexists. exists t, t'. split; [reflexivity|]. cbn [df_icon_path df_exec].
    now rewrite Ht, Ht'.
Qed.

(** X2.  The program of the launcher is the file whose presence marks the
    installation: for Eclipse and for every JetBrains class the
    constructor requires one file, relative to the install path, and the
    launcher runs the join of the install path with it.  Every class of
    the family has an executable, and its launcher goes under the desktop
    filename its constructor passes. *)
Theorem launcher_runs_required_file :
  (forall self : BaseInstaller,
     option_map (fun fc => [df_exec (snd fc)])
                (launcher_of (EclipseDesktop.post_install self))
     = Some (map (fun r => quoted_exec (join (install_path self) r))
                 EclipseDesktop.required_files_path)) /\
  (forall (cl : JetBrains.cls) (self : BaseJetBrains.t),
     truthy (JetBrains.executable cl) = true ->
     option_map (fun fc => [df_exec (snd fc)])
                (launcher_of (JetBrains.post_install cl self))
     = Some (map (fun r => quoted_exec (join (install_path (BaseJetBrains.base self)) r))
                 (JetBrains.required_files_path cl))) /\
  Forall (fun cl =>
            truthy (JetBrains.executable cl) = true
            /\ forall path,
                 option_map fst (launcher_of (JetBrains.post_install
                                                cl (JetBrains.__init__ cl path)))
                 = Some (JetBrains.desktop_file cl))
         JetBrains.classes.
Proof.
  split; [|split].
  - intros self. reflexivity.
  - intros cl self Hexe. unfold JetBrains.post_install, JetBrains.required_files_path.
    rewrite Hexe. cbn [launcher_of option_map snd df_exec app map].
    now rewrite join_bin.
  - unfold JetBrains.classes. repeat constructor.
Qed.

(** ** What the handlers read of the results *)

Lemma lookup_with_errors (f : str -> option str) (key : str) (r : results) :
  lookup key (with_errors f r) =
  option_map (fun res => {| buffer := buffer res; error := f key;
                            final_url := final_url res;
                            response_cookies := response_cookies res |})
             (lookup key r).
Proof.
  induction r as [|[k v] r IH]; [reflexivity|].
  cbn [with_errors map lookup fst snd]. destruct (str_eqb k key) eqn:Hk.
  - apply str_eqb_eq in Hk. now subst.
  - exact IH.
Qed.

(** X3.  The NetBeans resolver decides on the buffer alone.  A result
    without buffer makes either stage log an error and abort with status
    1, without calling the Download Coordinator; the [error] field of the
    result is never read, so that both stages do the same whatever the
    results say in it. *)
Theorem netbeans_reads_buffer_only (L : PyLib) (self : BaseNetBeans.t) (result : results) :
  (forall key page,
     lookup key result = Some page -> buffer page = None ->
     (download_page (BaseNetBeans.base self) = Some key ->
      BaseNetBeans.get_metadata_and_check_license L self result =
      Log ERROR ("You either have no connection available or "
                 ++ "the download page changed its syntax or is not parsable") []
        (Quit 1)) /\
     (forall v, BaseNetBeans.version self = BaseNetBeans.PyStr v ->
                BaseNetBeans.version_download_page self = Some key ->
                BaseNetBeans.parse_download_page_callback L self result =
                Log INFO "Netbeans {}" [AStr v]
                  (Log ERROR "The download page changed its syntax or is not parsable" []
                     (Quit 1)))) /\
  (forall f,
     BaseNetBeans.get_metadata_and_check_license L self (with_errors f result)
     = BaseNetBeans.get_metadata_and_check_license L self result
     /\ BaseNetBeans.parse_download_page_callback L self (with_errors f result)
        = BaseNetBeans.parse_download_page_callback L self result).
Proof.
  split.
  - intros key page Hpage Hbuf. split.
    + intros Hkey. unfold BaseNetBeans.get_metadata_and_check_license.
      now rewrite Hkey, Hpage, Hbuf.
    + intros v Hv Hkey. unfold BaseNetBeans.parse_download_page_callback.
      now rewrite Hv, Hkey, Hpage, Hbuf.
  - intros f. split.
    + unfold BaseNetBeans.get_metadata_and_check_license.
      destruct (download_page (BaseNetBeans.base self)) as [key|]; [|reflexivity].
      rewrite lookup_with_errors. destruct (lookup key result) as [page|]; reflexivity.
    + unfold BaseNetBeans.parse_download_page_callback.
      destruct (BaseNetBeans.version self) as [| |v]; [reflexivity| |];
        (destruct (BaseNetBeans.version_download_page self) as [key|]; [|reflexivity]);
        rewrite lookup_with_errors; destruct (lookup key result) as [page|]; reflexivity.
Qed.

(** X4.  A handler whose page is not among the results raises [KeyError]
    ([StopIteration] for the JetBrains continuation, which reads the first
    result whatever its URL) before it logs an error or calls the Download
    Coordinator. *)
Theorem missing_page_raises (L : PyLib) (os : OS) (result : results) (key : str) :
  lookup key result = None ->
  (forall self, download_page (BaseJetBrains.base self) = Some key ->
     BaseJetBrains.get_metadata_and_check_license L self result
     = Log DEBUG "Fetched download page, parsing." [] (Raise KeyError)) /\
  (forall self arch, Eclipse.done self arch key result = Raise KeyError) /\
  (forall self, download_page (Arduino.base self) = Some key ->
     Arduino.get_metadata_and_check_license L os self result
     = Log DEBUG "Parse download metadata" [] (Raise KeyError)) /\
  (forall self, Arduino.scraped_download_url self = Some key
                \/ (exists key' page, Arduino.scraped_download_url self = Some key'
                                      /\ lookup key' result = Some page
                                      /\ Arduino.scraped_checksum_url self = Some key) ->
     Arduino.prepare_to_download_archive L os self result = Raise KeyError) /\
  (forall self, download_page (BaseNetBeans.base self) = Some key ->
     BaseNetBeans.get_metadata_and_check_license L self result = Raise KeyError) /\
  (forall self v, BaseNetBeans.version self = BaseNetBeans.PyStr v ->
     BaseNetBeans.version_download_page self = Some key ->
     BaseNetBeans.parse_download_page_callback L self result
     = Log INFO "Netbeans {}" [AStr v] (Raise KeyError)) /\
  (forall self download_url,
     BaseJetBrains.checksum_downloaded self download_url [] = Raise StopIteration /\
     forall k k' v rest,
       BaseJetBrains.checksum_downloaded self download_url ((k, v) :: rest)
       = BaseJetBrains.checksum_downloaded self download_url [(k', v)]).
Proof.
  intros Hnone. repeat split.
  - intros self Hkey. unfold BaseJetBrains.get_metadata_and_check_license.
    now rewrite Hkey, Hnone.
  - intros self arch. unfold Eclipse.done. now rewrite Hnone.
  - intros self Hkey. unfold Arduino.get_metadata_and_check_license.
    now rewrite Hkey, Hnone.
  - intros self [Hkey | (key' & page & Hkey' & Hpage & Hkey)];
      unfold Arduino.prepare_to_download_archive.
    + now rewrite Hkey, Hnone.
    + now rewrite Hkey', Hpage, Hkey, Hnone.
  - intros self Hkey. unfold BaseNetBeans.get_metadata_and_check_license.
    now rewrite Hkey, Hnone.
  - intros self v Hv Hkey. unfold BaseNetBeans.parse_download_page_callback.
    now rewrite Hv, Hkey, Hnone.
Qed.

Lemma missing_page_raises_witness :
  BaseJetBrains.get_metadata_and_check_license
    (Ref.lib Example.jetbrains_pages) Example.pycharm Example.sha256_file
  = Log DEBUG "Fetched download page, parsing." [] (Raise KeyError).
Proof.
  refine (proj1 (missing_page_raises
                   (Ref.lib Example.jetbrains_pages) (Example.host (u "x86_64") [] true)
                   Example.sha256_file
                   (u "https://www.jetbrains.com/pycharm/download/download_thanks.jsp?edition=comm&os=linux")
                   eq_refl) Example.pycharm eq_refl).
Defined.

(** X5.  A body that cannot be decoded makes the handler raise
    [UnicodeDecodeError]: bytes that are not UTF-8 for Eclipse, the
    JetBrains installers and NetBeans (whose [except AttributeError] does
    not catch it), bytes that are not ASCII for the checksums of Arduino. *)
Theorem undecodable_body_raises (L : PyLib) (os : OS) (key : str) (res : DownloadResult)
        (data : bytes) (r : results) :
  lookup key r = Some res ->
  buffer res = Some data ->
  truthy_opt (error res) = false ->
  (decode_utf8 data = None ->
   (forall self arch, Eclipse.done self arch key r = Raise UnicodeDecodeError) /\
   (forall self download_url,
      first_value r = Some res ->
      BaseJetBrains.checksum_downloaded self download_url r = Raise UnicodeDecodeError) /\
   (forall self, download_page (BaseNetBeans.base self) = Some key ->
      BaseNetBeans.get_metadata_and_check_license L self r = Raise UnicodeDecodeError) /\
   (forall self v, BaseNetBeans.version self = BaseNetBeans.PyStr v ->
      BaseNetBeans.version_download_page self = Some key ->
      BaseNetBeans.parse_download_page_callback L self r
      = Log INFO "Netbeans {}" [AStr v] (Raise UnicodeDecodeError))) /\
  (decode_ascii data = None ->
   forall self download_key download_page_,
     Arduino.scraped_download_url self = Some download_key ->
     lookup download_key r = Some download_page_ ->
     truthy_opt (error download_page_) = false ->
     Arduino.scraped_checksum_url self = Some key ->
     Arduino.prepare_to_download_archive L os self r = Raise UnicodeDecodeError).
Proof.
  intros Hres Hbuf Herr. split.
  - intros Hdec. repeat split.
    + intros self arch. unfold Eclipse.done. now rewrite Hres, Herr, Hbuf, Hdec.
    + intros self download_url Hfirst. unfold BaseJetBrains.checksum_downloaded.
      now rewrite Hfirst, Herr, Hbuf, Hdec.
    + intros self Hkey. unfold BaseNetBeans.get_metadata_and_check_license.
      now rewrite Hkey, Hres, Hbuf, Hdec.
    + intros self v Hv Hkey. unfold BaseNetBeans.parse_download_page_callback.
      now rewrite Hv, Hkey, Hres, Hbuf, Hdec.
  - intros Hdec self download_key download_page_ Hdk Hdp Hok Hck.
    unfold Arduino.prepare_to_download_archive.
    now rewrite Hdk, Hdp, Hck, Hres, Hok, Herr, Hbuf, Hdec.
Qed.

Lemma undecodable_body_raises_witness :
  BaseNetBeans.get_metadata_and_check_license
    (Ref.lib []) Example.netbeans [(Sample.zip_url, Example.fetched Sample.not_utf8)]
  = Raise UnicodeDecodeError
  /\ Arduino.prepare_to_download_archive
       (Ref.lib Example.arduino_pages) (Example.host (u "x86_64") [] true)
       (Example.arduino_scraped false)
       [(Example.scraped_download, Example.fetched Example.click_page);
        (Example.scraped_checksum, Example.fetched Sample.not_utf8)]
     = Raise UnicodeDecodeError.
Proof.
  split.
  - refine (proj1 (proj2 (proj2
             (proj1 (undecodable_body_raises
                       (Ref.lib []) (Example.host (u "x86_64") [] true)
                       Sample.zip_url (Example.fetched Sample.not_utf8) Sample.not_utf8
                       [(Sample.zip_url, Example.fetched Sample.not_utf8)]
                       eq_refl eq_refl eq_refl) eq_refl))) Example.netbeans eq_refl).
  - refine (proj2 (undecodable_body_raises
                     (Ref.lib Example.arduino_pages) (Example.host (u "x86_64") [] true)
                     Example.scraped_checksum (Example.fetched Sample.not_utf8)
                     Sample.not_utf8
                     [(Example.scraped_download, Example.fetched Example.click_page);
                      (Example.scraped_checksum, Example.fetched Sample.not_utf8)]
                     eq_refl eq_refl eq_refl) eq_refl
                  (Example.arduino_scraped false) Example.scraped_download
                  (Example.fetched Example.click_page) eq_refl eq_refl eq_refl eq_refl).
Defined.

(** ** [replace], [strip] and [split] on lines of a known form *)

Lemma replace_from_skip (old new x s : str) :
  replace_from old new (List.length x) (x ++ s) = replace_from old new 0 s.
Proof. induction x as [|c x IH]; [reflexivity | exact IH]. Qed.

(** An occurrence at the front is replaced, and the scan goes on behind it. *)
Lemma replace_occurrence (old new s : str) :
  old <> [] -> replace old new (old ++ s) = new ++ replace old new s.
Proof.
  destruct old as [|c o]; [congruence|]. intros _. unfold replace.
  cbn [app replace_from].
  change (c :: o ++ s) with ((c :: o) ++ s). rewrite startswith_app.
  cbn [List.length pred]. now rewrite replace_from_skip.
Qed.

(** Code points that cannot begin an occurrence are copied. *)
Lemma replace_other (c : N) (o new p s : str) :
  forallb (fun x => negb (x =? c)) p = true ->
  replace (c :: o) new (p ++ s) = p ++ replace (c :: o) new s.
Proof.
  unfold replace. induction p as [|x p IH]; [reflexivity|].
  cbn [forallb]. intros H. apply andb_true_iff in H as [Hx Hp].
  cbn [app replace_from startswith].
  rewrite N.eqb_sym. apply negb_true_iff in Hx. rewrite Hx. cbn [andb].
  now rewrite IH.
Qed.

Lemma lstrip_id (s : str) :
  match s with [] => True | c :: _ => is_space c = false end -> lstrip s = s.
Proof. destruct s as [|c s]; [reflexivity|]. intros H. cbn. now rewrite H. Qed.

(** A string without whitespace is its own [strip()]. *)
Lemma strip_id (s : str) :
  forallb (fun c => negb (is_space c)) s = true -> strip s = s.
Proof.
  intros H. unfold strip, rstrip.
  assert (Hall : forall t, forallb (fun c => negb (is_space c)) t = true -> lstrip t = t).
  { intros t Ht. apply lstrip_id. destruct t as [|c t]; [exact I|].
    cbn in Ht. apply andb_true_iff in Ht as [Hc _]. now apply negb_true_iff in Hc. }
  rewrite (Hall s H). rewrite Hall; [apply rev_involutive|].
  rewrite forallb_forall in *. intros x Hx. apply H. now apply in_rev.
Qed.

Lemma version_chars (v : str) :
  forallb version_char v = true ->
  forallb (fun c => negb (is_space c)) v = true
  /\ forallb (fun c => negb (c =? 0x2F)) v = true
  /\ forallb (fun c => negb (c =? 0x76)) v = true.
Proof.
  intros H. rewrite !forallb_forall in *.
  repeat split; intros x Hx; specialize (H x Hx); unfold version_char in H;
    apply andb_true_iff in H as [H H3]; apply andb_true_iff in H as [H1 H2];
    assumption.
Qed.

(** The two replacements and the [strip()] of the version loop give back
    the version of an artifacts line. *)
Lemma artifacts_line_version (v : str) :
  forallb version_char v = true ->
  strip (replace (u "/" ++ BaseNetBeans.dq ++ u ";") empty
           (replace (u "var PAGE_ARTIFACTS_LOCATION = " ++ BaseNetBeans.dq
                       ++ u "/images_www/v6/download/") empty (artifacts_line v))) = v.
Proof.
  intros Hv. destruct (version_chars v Hv) as (Hspace & Hslash & Hletter).
  unfold artifacts_line.
  set (A := u "var PAGE_ARTIFACTS_LOCATION = " ++ BaseNetBeans.dq
              ++ u "/images_www/v6/download/").
  set (B := u "/" ++ BaseNetBeans.dq ++ u ";").
  rewrite replace_occurrence by discriminate.
  assert (HA : replace A empty (v ++ B) = v ++ B).
  { change A with (0x76 :: tl A). rewrite replace_other by exact Hletter.
    f_equal. }
  assert (HB : replace B empty (v ++ B) = v ++ []).
  { change B with (0x2F :: tl B) at 1. rewrite replace_other by exact Hslash.
    f_equal. }
  change (empty ++ replace A empty (v ++ B)) with (replace A empty (v ++ B)).
  rewrite HA, HB, app_nil_r. now apply strip_id.
Qed.

Lemma fold_left_unmatched {A : Type} (matches : str -> bool) (f : str -> A)
      (lines : list str) (a : A) :
  (forall l, In l lines -> matches l = false) ->
  fold_left (fun acc line => if matches line then f line else acc) lines a = a.
Proof.
  revert a; induction lines as [|l lines IH]; intros a H; [reflexivity|].
  cbn [fold_left]. rewrite (H l (or_introl eq_refl)). apply IH.
  intros l' Hl'. apply H. now right.
Qed.

(** In a loop that keeps what the last matching line gives, the lines
    before the last matching one do not count. *)
Lemma fold_left_last_match {A : Type} (matches : str -> bool) (f : str -> A)
      (before after : list str) (line : str) (a : A) :
  matches line = true ->
  (forall l, In l after -> matches l = false) ->
  fold_left (fun acc l => if matches l then f l else acc) (before ++ line :: after) a
  = f line.
Proof.
  intros Hline Hafter. rewrite fold_left_app. cbn [fold_left]. rewrite Hline.
  now apply fold_left_unmatched.
Qed.

(** ** NetBeans: the version *)

(** The loop of [get_metadata_and_check_license] on a page whose last
    matching line is the artifacts line of version [v]. *)
Lemma scan_version_artifacts (matches : str -> bool) (text : str)
      (before after : list str) (v : str) (version0 : BaseNetBeans.attribute) :
  split BaseNetBeans.lf text = before ++ artifacts_line v :: after ->
  matches (artifacts_line v) = true ->
  (forall l, In l after -> matches l = false) ->
  forallb version_char v = true ->
  BaseNetBeans.scan_version matches text version0 = BaseNetBeans.PyStr v.
Proof.
  intros Hsplit Hline Hafter Hv. unfold BaseNetBeans.scan_version. rewrite Hsplit.
  rewrite (fold_left_last_match
             matches
             (fun line =>
                BaseNetBeans.PyStr
                  (strip (replace (u "/" ++ BaseNetBeans.dq ++ u ";") empty
                            (replace (u "var PAGE_ARTIFACTS_LOCATION = " ++ BaseNetBeans.dq
                                        ++ u "/images_www/v6/download/") empty line))))
             before after (artifacts_line v) version0 Hline Hafter).
  now rewrite artifacts_line_version.
Qed.

(** X6.  The NetBeans resolver recovers the version from the last
    artifacts line of the download page: when that line carries a
    non-empty version without whitespace, slash or the letter v, the
    resolver fetches the files.js of exactly that version, without any
    diagnostic.  Lines before it do not count, nor does the version the
    object held before. *)
Theorem netbeans_version_round_trip
        (L : PyLib) (self : BaseNetBeans.t) (result : results) (key : str)
        (page : DownloadResult) (data : bytes) (text : str) (preg : re_pattern L)
        (before after : list str) (c : N) (v : str) :
  download_page (BaseNetBeans.base self) = Some key ->
  lookup key result = Some page ->
  buffer page = Some data ->
  decode_utf8 data = Some text ->
  re_compile L (u ".*/images_www/v6/download/.*") false = Some preg ->
  split BaseNetBeans.lf text = before ++ artifacts_line (c :: v) :: after ->
  matched (re_match L preg (artifacts_line (c :: v))) = true ->
  (forall l, In l after -> matched (re_match L preg l) = false) ->
  forallb version_char (c :: v) = true ->
  let p := BaseNetBeans.get_metadata_and_check_license L self result in
  p = BaseNetBeans.fetch_files L self (c :: v) /\
  events p =
  [EvDownloadCenter
     [page_request (u "https://netbeans.org/images_www/v6/download/" ++ (c :: v)
                      ++ u "/js/files.js")] false] /\
  end_of p = Returned.
Proof.
  intros Hkey Hpage Hbuf Hdec Hpat Hsplit Hline Hafter Hv. cbv zeta.
  assert (Hp : BaseNetBeans.get_metadata_and_check_license L self result
               = BaseNetBeans.fetch_files L self (c :: v)).
  { unfold BaseNetBeans.get_metadata_and_check_license.
    rewrite Hkey, Hpage, Hbuf, Hdec, Hpat.
    now rewrite (scan_version_artifacts _ text before after (c :: v) _ Hsplit Hline Hafter Hv). }
  rewrite Hp. repeat split.
Qed.

Lemma netbeans_version_round_trip_witness :
  events (BaseNetBeans.get_metadata_and_check_license
            (Ref.lib []) Example.netbeans
            [(Sample.zip_url, Example.fetched Sample.two_versions)])
  = [EvDownloadCenter
       [page_request (u "https://netbeans.org/images_www/v6/download/" ++ u "8.1"
                        ++ u "/js/files.js")] false].
Proof.
  refine (proj1 (proj2
            (netbeans_version_round_trip
               (Ref.lib []) Example.netbeans
               [(Sample.zip_url, Example.fetched Sample.two_versions)]
               Sample.zip_url (Example.fetched Sample.two_versions) Sample.two_versions
               (u "var PAGE_ARTIFACTS_LOCATION = " ++ BaseNetBeans.dq
                  ++ u "/images_www/v6/download/7.4/" ++ BaseNetBeans.dq ++ u ";"
                  ++ BaseNetBeans.lf
                  ++ u "var PAGE_ARTIFACTS_LOCATION = " ++ BaseNetBeans.dq
                  ++ u "/images_www/v6/download/8.1/" ++ BaseNetBeans.dq ++ u ";"
                  ++ BaseNetBeans.lf ++ u "// end")
               (match Ref.compile (u ".*/images_www/v6/download/.*") false with
                | Some preg => preg
                | None => (Ref.Eps, false)
                end)
               [artifacts_line (u "7.4")] [u "// end"] 0x38 (u ".1")
               eq_refl eq_refl eq_refl eq_refl eq_refl eq_refl eq_refl _ eq_refl))).
  intros l [<-|[]]. reflexivity.
Defined.

(** ** NetBeans: the archive *)

(** The three replacements of the files.js loop leave [zip/netbeans-] at
    the front of a line that begins as an archive line does. *)
Lemma cleaned_archive_line (rest : str) :
  cleaned (add_file_prefix ++ rest) = u "zip/netbeans-" ++ cleaned rest.
Proof. reflexivity. Qed.

Lemma split_from_head (sep : str) (s : str) :
  forall skip cur, exists f fields, split_from sep skip cur s = (rev cur ++ f) :: fields.
Proof.
  induction s as [|c s IH]; intros skip cur.
  - exists [], []. cbn. now rewrite app_nil_r.
  - cbn [split_from]. destruct skip as [|n]; [|apply IH].
    destruct (startswith sep (c :: s)).
    + exists [], (split_from sep (pred (List.length sep)) [] s). now rewrite app_nil_r.
    + destruct (IH 0%nat (c :: cur)) as (f & fields & H). rewrite H.
      exists (c :: f), fields. cbn [rev]. now rewrite <- app_assoc.
Qed.

(** The first field begins with whatever precedes the first code point
    that could begin a separator. *)
Lemma split_head_other (c : N) (o p s : str) :
  forallb (fun x => negb (x =? c)) p = true ->
  exists f fields, split (c :: o) (p ++ s) = (p ++ f) :: fields.
Proof.
  intros Hp. unfold split.
  assert (H : forall cur, split_from (c :: o) 0 cur (p ++ s)
                          = split_from (c :: o) 0 (rev p ++ cur) s).
  { induction p as [|x p IH]; intros cur; [reflexivity|].
    cbn [forallb] in Hp. apply andb_true_iff in Hp as [Hx Hp].
    cbn [app split_from startswith]. rewrite N.eqb_sym.
    apply negb_true_iff in Hx. rewrite Hx. cbn [andb].
    rewrite (IH Hp). cbn [rev]. now rewrite <- app_assoc. }
  rewrite H. destruct (split_from_head (c :: o) s 0%nat (rev p ++ [])) as (f & fields & Hs).
  rewrite Hs. exists f, fields. now rewrite app_nil_r, rev_involutive.
Qed.

Lemma scan_files_last (matches : str -> bool) (url_file : str)
      (before after : list str) (line : str) :
  split BaseNetBeans.lf url_file = before ++ line :: after ->
  matches line = true ->
  (forall l, In l after -> matches l = false) ->
  BaseNetBeans.scan_files matches url_file = Some (cleaned line).
Proof.
  intros Hsplit Hline Hafter. unfold BaseNetBeans.scan_files. rewrite Hsplit.
  exact (fold_left_last_match matches (fun l => Some (cleaned l))
                              before after line None Hline Hafter).
Qed.

(** X7.  The NetBeans resolver builds its request from the last line of
    files.js that the pattern matches.  When that line begins as an
    archive line does, the archive URL is [BASE_URL], the version,
    [/final/] and the first field of the line, which begins with
    [zip/netbeans-]; the MD5 digest is the third field.  With fewer than
    three fields the resolver logs the error and aborts with status 1. *)
Theorem netbeans_archive_from_last_line
        (L : PyLib) (self : BaseNetBeans.t) (result : results) (key v : str)
        (page : DownloadResult) (data : bytes) (url_file : str) (preg : re_pattern L)
        (before after : list str) (rest : str) :
  BaseNetBeans.version self = BaseNetBeans.PyStr v ->
  BaseNetBeans.version_download_page self = Some key ->
  lookup key result = Some page ->
  buffer page = Some data ->
  decode_utf8 data = Some url_file ->
  re_compile L (add_file_pattern v (BaseNetBeans.flavour self)) false = Some preg ->
  split BaseNetBeans.lf url_file = before ++ (add_file_prefix ++ rest) :: after ->
  matched (re_match L preg (add_file_prefix ++ rest)) = true ->
  (forall l, In l after -> matched (re_match L preg l) = false) ->
  let p := BaseNetBeans.parse_download_page_callback L self result in
  exists tail fields,
    split (u ", ") (cleaned (add_file_prefix ++ rest)) = (u "zip/netbeans-" ++ tail) :: fields /\
    match fields with
    | _ :: md5_ :: _ =>
        started p =
        Some (download_requests (BaseNetBeans.base self)
                ++ [archive_request
                      (BaseNetBeans.BASE_URL ++ v ++ u "/final/" ++ u "zip/netbeans-" ++ tail)
                      md5 md5_ false None])
        /\ end_of p = Returned
    | _ =>
        p = Log INFO "Netbeans {}" [AStr v]
              (Log ERROR "The download page changed its syntax or is not parsable" []
                 (Quit 1))
    end.
Proof.
  intros Hv Hkey Hpage Hbuf Hdec Hpat Hsplit Hline Hafter. cbv zeta.
  destruct (split_head_other 0x2C (u " ") (u "zip/netbeans-") (cleaned rest) eq_refl)
    as (f & fields & Hfields).
  exists f, fields. rewrite cleaned_archive_line. split; [exact Hfields|].
  unfold BaseNetBeans.parse_download_page_callback.
  rewrite Hv, Hkey, Hpage, Hbuf, Hdec.
  change (u "add_file\(" ++ BaseNetBeans.dq ++ u "zip/netbeans-" ++ v ++ u "-[0-9]{12}"
            ++ BaseNetBeans.flavour self ++ u ".zip" ++ BaseNetBeans.dq)
    with (add_file_pattern v (BaseNetBeans.flavour self)).
  rewrite Hpat.
  rewrite (scan_files_last _ url_file before after _ Hsplit Hline Hafter).
  rewrite cleaned_archive_line.
  change (truthy (u "zip/netbeans-" ++ cleaned rest)) with true. cbn [negb].
  change (u ", ") with (0x2C :: u " ") in *. rewrite Hfields.
  destruct fields as [|x [|md5_ more]]; [reflexivity | reflexivity |].
  cbn [started end_of append_request download_requests]. split; reflexivity.
Qed.

Lemma netbeans_archive_from_last_line_witness :
  started (BaseNetBeans.parse_download_page_callback
             (Ref.lib []) Example.netbeans_802
             [(BaseNetBeans.files_js (u "8.0.2"), Example.fetched Sample.two_archives)])
  = Some [archive_request
            (u "http://download.netbeans.org/netbeans/8.0.2/final/zip/netbeans-8.0.2-201411181905.zip")
            md5 (u "bbbb") false None].
Proof.
  destruct (netbeans_archive_from_last_line
              (Ref.lib []) Example.netbeans_802
              [(BaseNetBeans.files_js (u "8.0.2"), Example.fetched Sample.two_archives)]
              (BaseNetBeans.files_js (u "8.0.2")) (u "8.0.2")
              (Example.fetched Sample.two_archives) Sample.two_archives
              (match decode_utf8 Sample.two_archives with Some t => t | None => [] end)
              (match Ref.compile (add_file_pattern (u "8.0.2") empty) false with
               | Some preg => preg
               | None => (Ref.Eps, false)
               end)
              [add_file_prefix ++ u "8.0.2-201408251540.zip" ++ BaseNetBeans.dq ++ u ", 1, "
                 ++ BaseNetBeans.dq ++ u "aaaa" ++ BaseNetBeans.dq ++ u ");"]
              [add_file_prefix ++ u "8.0.2-201411181905-cpp.zip" ++ BaseNetBeans.dq
                 ++ u ", 3, " ++ BaseNetBeans.dq ++ u "cccc" ++ BaseNetBeans.dq ++ u ");"]
              (u "8.0.2-201411181905.zip" ++ BaseNetBeans.dq ++ u ", 2, "
                 ++ BaseNetBeans.dq ++ u "bbbb" ++ BaseNetBeans.dq ++ u ");")
              eq_refl eq_refl eq_refl eq_refl eq_refl eq_refl eq_refl eq_refl)
    as (tail & fields & Hsplit & H).
  - intros l [<-|[]]. reflexivity.
  - vm_compute in Hsplit. injection Hsplit as <- <-. exact (proj1 H).
Defined.

(** X8.  The version read from the download page goes into the pattern of
    the second stage as it is, without escaping: when [re] rejects the
    pattern so built, the continuation the first stage registered raises
    [re.error] as soon as files.js has been read. *)
Theorem scraped_version_reaches_pattern
        (L : PyLib) (self : BaseNetBeans.t) (result : results) (key : str)
        (page : DownloadResult) (data : bytes) (text : str) (preg : re_pattern L)
        (before after : list str) (c : N) (v : str) :
  download_page (BaseNetBeans.base self) = Some key ->
  lookup key result = Some page ->
  buffer page = Some data ->
  decode_utf8 data = Some text ->
  re_compile L (u ".*/images_www/v6/download/.*") false = Some preg ->
  split BaseNetBeans.lf text = before ++ artifacts_line (c :: v) :: after ->
  matched (re_match L preg (artifacts_line (c :: v))) = true ->
  (forall l, In l after -> matched (re_match L preg l) = false) ->
  forallb version_char (c :: v) = true ->
  re_compile L (add_file_pattern (c :: v) (BaseNetBeans.flavour self)) false = None ->
  exists on_done,
    callbacks (BaseNetBeans.get_metadata_and_check_license L self result)
    = [([page_request (BaseNetBeans.files_js (c :: v))], on_done)] /\
    forall r files data' url_file,
      lookup (BaseNetBeans.files_js (c :: v)) r = Some files ->
      buffer files = Some data' ->
      decode_utf8 data' = Some url_file ->
      on_done r = Log INFO "Netbeans {}" [AStr (c :: v)] (Raise re_error).
Proof.
  intros Hkey Hpage Hbuf Hdec Hpat Hsplit Hline Hafter Hv Hbad.
  unfold BaseNetBeans.get_metadata_and_check_license.
  rewrite Hkey, Hpage, Hbuf, Hdec, Hpat.
  rewrite (scan_version_artifacts _ text before after (c :: v) _ Hsplit Hline Hafter Hv).
  unfold BaseNetBeans.fetch_files. cbn [callbacks].
  eexists. split; [reflexivity|].
  intros r files data' url_file Hfiles Hbuf' Hdec'.
  unfold BaseNetBeans.parse_download_page_callback.
  cbn [BaseNetBeans.set_version BaseNetBeans.version BaseNetBeans.version_download_page
       BaseNetBeans.flavour].
  rewrite Hfiles, Hbuf', Hdec'.
  change (u "add_file\(" ++ BaseNetBeans.dq ++ u "zip/netbeans-" ++ (c :: v)
            ++ u "-[0-9]{12}" ++ BaseNetBeans.flavour self ++ u ".zip" ++ BaseNetBeans.dq)
    with (add_file_pattern (c :: v) (BaseNetBeans.flavour self)).
  now rewrite Hbad.
Qed.

Lemma scraped_version_reaches_pattern_witness :
  exists on_done,
    callbacks (BaseNetBeans.get_metadata_and_check_license
                 (Ref.lib []) Example.netbeans
                 [(Sample.zip_url, Example.fetched Sample.odd_version)])
    = [([page_request (BaseNetBeans.files_js (u "8.1("))], on_done)] /\
    forall r files data' url_file,
      lookup (BaseNetBeans.files_js (u "8.1(")) r = Some files ->
      buffer files = Some data' ->
      decode_utf8 data' = Some url_file ->
      on_done r = Log INFO "Netbeans {}" [AStr (u "8.1(")] (Raise re_error).
Proof.
  refine (scraped_version_reaches_pattern
            (Ref.lib []) Example.netbeans
            [(Sample.zip_url, Example.fetched Sample.odd_version)]
            Sample.zip_url (Example.fetched Sample.odd_version) Sample.odd_version
            (artifacts_line (u "8.1("))
            (match Ref.compile (u ".*/images_www/v6/download/.*") false with
             | Some preg => preg
             | None => (Ref.Eps, false)
             end)
            [] [] 0x38 (u ".1(")
            eq_refl eq_refl eq_refl eq_refl eq_refl eq_refl eq_refl _ eq_refl eq_refl).
  intros l [].
Defined.

(** ** What the resolvers ask of the Download Coordinator *)

Lemma done_pages_only (self : BaseInstaller) (arch md5_url : str) (r : results) :
  pages_only (Eclipse.done self arch md5_url r).
Proof.
  unfold Eclipse.done.
  destruct (lookup md5_url r) as [res|]; [|exact I].
  destruct (truthy_opt (error res)); [exact I|].
  destruct (buffer res) as [data|]; [|exact I].
  destruct (decode_utf8 data) as [text|]; [|exact I].
  destruct (split_ws text); [exact I|].
  cbn [pages_only].
  destruct (str_eqb arch (u "i686")); [exact I|].
  destruct (str_eqb arch (u "x86_64")); exact I.
Qed.

Lemma checksum_downloaded_pages_only (self : BaseJetBrains.t) (download_url : str)
      (r : results) :
  pages_only (BaseJetBrains.checksum_downloaded self download_url r).
Proof.
  unfold BaseJetBrains.checksum_downloaded.
  destruct (first_value r) as [res|]; [|exact I].
  destruct (truthy_opt (error res)); [exact I|].
  destruct (buffer res) as [data|]; [|exact I].
  destruct (decode_utf8 data) as [text|]; [|exact I].
  destruct (split_ws text); exact I.
Qed.

Lemma prepare_pages_only (L : PyLib) (os : OS) (self : Arduino.t) (r : results) :
  pages_only (Arduino.prepare_to_download_archive L os self r).
Proof.
  destruct (prepare_cases L os self r)
    as [[e Hp] | [(msg & args & Hp) | (? & ? & ? & ? & ? & ? & ? & _ & _ & _ & _ & _ & _ & Hp)]];
    cbv zeta in Hp; rewrite Hp; [exact I | exact I |].
  cbn [pages_only].
  destruct (negb (Arduino.was_in_arduino_group self)); [|exact I].
  cbn [pages_only]. destruct (snd _) as [[|]|e]; exact I.
Qed.

Lemma parse_download_page_pages_only (L : PyLib) (self : BaseNetBeans.t) (r : results) :
  pages_only (BaseNetBeans.parse_download_page_callback L self r).
Proof.
  unfold BaseNetBeans.parse_download_page_callback.
  destruct (BaseNetBeans.version self) as [| |version_]; [exact I| |];
    cbn [pages_only];
    (destruct (BaseNetBeans.version_download_page self) as [key|]; [|exact I]);
    (destruct (lookup key r) as [page|]; [|exact I]);
    (destruct (buffer page) as [data|]; [|exact I]);
    (destruct (decode_utf8 data) as [url_file|]; [|exact I]); [exact I|].
  destruct (re_compile L _ false) as [preg|]; [|exact I].
  destruct (BaseNetBeans.scan_files _ url_file) as [url_string|]; [|exact I].
  destruct (negb (truthy url_string)); [exact I|].
  destruct (split (u ", ") url_string) as [|? [|? [|? ?]]]; exact I.
Qed.

(** X9.  The resolvers use the Download Coordinator for pages only: every
    call, in a handler or in a continuation, passes [download=False] and
    requests without checksum or cookies.  The archive itself is requested
    through [start_download_and_install] alone. *)
Theorem resolvers_fetch_pages_only (L : PyLib) (os : OS) (result : results) :
  (forall self, pages_only (Eclipse.download_provider_page os self)) /\
  (forall self, pages_only (BaseJetBrains.get_metadata_and_check_license L self result)) /\
  (forall self, pages_only (Arduino.get_metadata_and_check_license L os self result)) /\
  (forall self, pages_only (BaseNetBeans.get_metadata_and_check_license L self result)).
Proof.
  split; [|split; [|split]].
  - intros self. unfold Eclipse.download_provider_page. cbn [pages_only].
    destruct (str_eqb (machine os) (u "i686")).
    + cbn [pages_only]. split; [reflexivity|]. split; [repeat constructor|].
      split; [|exact I]. intros r. apply done_pages_only.
    + destruct (str_eqb (machine os) (u "x86_64")); [|exact I].
      cbn [pages_only]. split; [reflexivity|]. split; [repeat constructor|].
      split; [|exact I]. intros r. apply done_pages_only.
  - intros self. unfold BaseJetBrains.get_metadata_and_check_license. cbn [pages_only].
    destruct (download_page (BaseJetBrains.base self)) as [key|]; [|exact I].
    destruct (lookup key result) as [page|]; [|exact I].
    destruct (truthy_opt (error page)); [exact I|].
    destruct (buffer page) as [data|]; [|exact I].
    destruct (Bs4.find _ _) as [link|]; [|exact I].
    destruct (Bs4.get _ _) as [download_url|]; [|exact I].
    cbn [pages_only]. split; [reflexivity|]. split; [repeat constructor|].
    split; [|exact I]. intros r. apply checksum_downloaded_pages_only.
  - intros self. unfold Arduino.get_metadata_and_check_license. cbn [pages_only].
    destruct (download_page (Arduino.base self)) as [key|]; [|exact I].
    destruct (lookup key result) as [page|]; [|exact I].
    destruct (truthy_opt (error page)); [exact I|].
    destruct (buffer page) as [data|]; [|exact I].
    destruct (Arduino.scrape L self (BeautifulSoup L data)) as [e|[d c]]; [exact I|].
    destruct (if truthy_opt d then d else None); [|exact I].
    destruct (if truthy_opt c then c else None); [|exact I].
    cbn [pages_only]. split; [reflexivity|]. split; [repeat constructor|].
    split; [|exact I]. intros r. apply prepare_pages_only.
  - intros self. unfold BaseNetBeans.get_metadata_and_check_license.
    destruct (download_page (BaseNetBeans.base self)) as [key|]; [|exact I].
    destruct (lookup key result) as [page|]; [|exact I].
    destruct (buffer page) as [data|]; [|exact I].
    destruct (decode_utf8 data) as [url_version_str|]; [|exact I].
    destruct (re_compile L _ false) as [preg|]; [|exact I].
    assert (Hfetch : forall s v, pages_only (BaseNetBeans.fetch_files L s v)).
    { intros s v. unfold BaseNetBeans.fetch_files. cbn [pages_only].
      split; [reflexivity|]. split; [repeat constructor|].
      split; [|exact I]. intros r. apply parse_download_page_pages_only. }
    destruct (BaseNetBeans.scan_version _ _ _) as [| |[|c s]];
      [exact I | | | apply Hfetch]; cbn [pages_only]; apply Hfetch.
Qed.

(** ** Arduino: what a new installer scrapes, and whom it adds to the group *)

(** What the constructor leaves in the fields the resolver reads. *)
Lemma init_fields (L : PyLib) (os : OS) (path : str) (self : Arduino.t) :
  Arduino.__init__ L os path = inr self ->
  Arduino.scraped_download_url self = None /\
  Arduino.scraped_checksum_url self = None /\
  download_page (Arduino.base self) = Some (u "http://www.arduino.cc/en/Main/Software") /\
  exists uid, Arduino.sudo_uid L os = Some uid
              /\ getpwuid os uid = Some (Arduino._current_user self).
Proof.
  unfold Arduino.__init__.
  destruct (Arduino.sudo_uid L os) as [uid|]; [|discriminate].
  destruct (getpwuid os uid) as [pw_name|] eqn:Hpw; [|discriminate].
  intros H. injection H as <-. cbn. repeat split. now exists uid.
Qed.

(** The block under [suppress(TypeError)], for an installer that has
    scraped nothing yet: both URLs with the scheme in front, or not both. *)
Lemma scrape_fresh (L : PyLib) (self : Arduino.t) (soup : list Bs4.node) :
  Arduino.scraped_download_url self = None ->
  Arduino.scraped_checksum_url self = None ->
  (exists e, Arduino.scrape L self soup = inl e) \/
  (exists d, Arduino.scrape L self soup = inr (d, None)) \/
  (exists download_href checksum_href,
     Arduino.scrape L self soup
     = inr (Some (u "http:" ++ download_href), Some (u "http:" ++ checksum_href))).
Proof.
  intros Hd Hc. unfold Arduino.scrape. rewrite Hd, Hc.
  destruct (re_compile L _ false) as [pat|]; [|left; eauto].
  destruct (Bs4.find _ soup) as [link|]; [|right; left; eauto].
  destruct (Bs4.get (Bs4.attrs link) (u "href")) as [download_href|]; [|left; eauto].
  destruct (re_compile L (u "Checksums") false) as [pat'|]; [|left; eauto].
  destruct (Bs4.find _ soup) as [link'|]; [|right; left; eauto].
  destruct (Bs4.get (Bs4.attrs link') (u "href")) as [checksum_href|]; [|left; eauto].
  right; right. eauto.
Qed.

(** X10.  A newly constructed Arduino installer either hands the Download
    Coordinator exactly two pages, or it calls the coordinator not at all
    and does not return normally either.  The two pages are read off the
    Software page it was given: the [href] of the first anchor whose
    [href] matches the archive pattern for the installer's [bits], and the
    [href] of the first anchor labelled Checksums, each with [http:] put
    in front. *)
Theorem arduino_fetches_two_http_urls
        (L : PyLib) (os : OS) (path : str) (self : Arduino.t) (result : results) :
  Arduino.__init__ L os path = inr self ->
  let p := Arduino.get_metadata_and_check_license L os self result in
  (callbacks p = [] /\ end_of p <> Returned) \/
  (exists page data pat pat' link link' download_href checksum_href on_done,
     lookup (u "http://www.arduino.cc/en/Main/Software") result = Some page /\
     buffer page = Some data /\
     re_compile L (Arduino.download_link_pat (Arduino.bits self)) false = Some pat /\
     re_compile L (u "Checksums") false = Some pat' /\
     hd_error (Bs4.find_all (download_anchor L pat) (BeautifulSoup L data)) = Some link /\
     Bs4.get (Bs4.attrs link) (u "href") = Some download_href /\
     hd_error (Bs4.find_all (labelled L (u "a") pat') (BeautifulSoup L data)) = Some link' /\
     Bs4.get (Bs4.attrs link') (u "href") = Some checksum_href /\
     callbacks p = [([page_request (u "http:" ++ download_href);
                      page_request (u "http:" ++ checksum_href)], on_done)]
     /\ end_of p = Returned /\ filter is_error_log (events p) = []).
Proof.
  intros Hinit. cbv zeta.
  destruct (init_fields L os path self Hinit) as (Hd & Hc & Hpage & _).
  unfold Arduino.get_metadata_and_check_license. rewrite Hpage.
  destruct (lookup _ result) as [page|] eqn:Hlookup; [|left; split; [reflexivity | discriminate]].
  destruct (truthy_opt (error page)); [left; split; [reflexivity | discriminate]|].
  destruct (buffer page) as [data|] eqn:Hbuf; [|left; split; [reflexivity | discriminate]].
  unfold Arduino.scrape. rewrite Hd, Hc.
  destruct (re_compile L (Arduino.download_link_pat _) false) as [pat|] eqn:Hpat;
    [|left; split; [reflexivity | discriminate]].
  fold (download_anchor L pat). rewrite find_first.
  destruct (hd_error (Bs4.find_all (download_anchor L pat) _)) as [link|] eqn:Hlink;
    [|left; split; [reflexivity | discriminate]].
  destruct (Bs4.get (Bs4.attrs link) (u "href")) as [download_href|] eqn:Hhref;
    [|left; split; [reflexivity | discriminate]].
  destruct (re_compile L (u "Checksums") false) as [pat'|] eqn:Hpat';
    [|left; split; [reflexivity | discriminate]].
  fold (labelled L (u "a") pat'). rewrite find_first.
  destruct (hd_error (Bs4.find_all (labelled L (u "a") pat') _)) as [link'|] eqn:Hlink';
    [|left; destruct download_href; (split; [reflexivity | discriminate])].
  destruct (Bs4.get (Bs4.attrs link') (u "href")) as [checksum_href|] eqn:Hhref';
    [|left; split; [reflexivity | discriminate]].
  right. exists page, data, pat, pat', link, link', download_href, checksum_href.
  eexists. cbn. repeat split; assumption.
Qed.

(** On the example Software page the two anchors are found, and the
    requests are for the two URLs the page links to. *)
Lemma arduino_fetches_two_http_urls_witness :
  let p := Arduino.get_metadata_and_check_license
             (Ref.lib Example.arduino_pages) (Example.host (u "x86_64") [] true)
             (Example.arduino false) Example.software_result in
  map fst (callbacks p) =
  [[page_request
      (u "http://www.arduino.cc/download_handler.php?f=/arduino-1.6.5-linux64.tar.xz");
    page_request (u "http://arduino.cc/download.php?f=/arduino-1.6.5.md5sum.txt")]]
  /\ end_of p = Returned /\ filter is_error_log (events p) = [].
Proof.
  cbv zeta.
  destruct (arduino_fetches_two_http_urls
              (Ref.lib Example.arduino_pages) (Example.host (u "x86_64") [] true)
              Example.install_dir (Example.arduino false) Example.software_result eq_refl)
    as [[_ Hend] |
        (page & data & pat & pat' & link & link' & download_href & checksum_href & on_done
         & Hpage & Hdata & Hpat & Hpat' & Hlink & Hhref & Hlink' & Hhref' & Hcb & Hend & Hlog)].
  - exfalso. apply Hend. vm_compute. reflexivity.
  - split; [|split; [exact Hend | exact Hlog]].
    rewrite Hcb. cbn [map fst].
    vm_compute in Hpage. injection Hpage as <-.
    vm_compute in Hdata. injection Hdata as <-.
    vm_compute in Hpat. injection Hpat as <-.
    vm_compute in Hpat'. injection Hpat' as <-.
    vm_compute in Hlink. injection Hlink as <-.
    vm_compute in Hlink'. injection Hlink' as <-.
    vm_compute in Hhref. injection Hhref as <-.
    vm_compute in Hhref'. injection Hhref' as <-.
    vm_compute. reflexivity.
Defined.

Lemma prepare_submits_only (L : PyLib) (os : OS) (self : Arduino.t) (r : results) :
  submits_only (Arduino._current_user self) Arduino.ARDUINO_GROUP
               (Arduino.prepare_to_download_archive L os self r).
Proof.
  destruct (prepare_cases L os self r)
    as [[e Hp] | [(msg & args & Hp) | (? & ? & ? & ? & ? & ? & ? & _ & _ & _ & _ & _ & _ & Hp)]];
    cbv zeta in Hp; rewrite Hp; [exact I | exact I |].
  cbn [submits_only].
  destruct (negb (Arduino.was_in_arduino_group self)); [|exact I].
  cbn [submits_only]. split; [reflexivity|]. split; [reflexivity|].
  destruct (snd _) as [[|]|e]; exact I.
Qed.

(** X11.  The only account the Arduino resolver ever hands to the group
    helper is the one whose membership the constructor checked, the
    account of the uid in SUDO_UID (uid 0 without it), and the only group
    is dialout; this holds in the handler and in every continuation. *)
Theorem arduino_adds_checked_user_only
        (L : PyLib) (os : OS) (path : str) (self : Arduino.t) (result : results) :
  Arduino.__init__ L os path = inr self ->
  exists uid,
    Arduino.sudo_uid L os = Some uid /\
    getpwuid os uid = Some (Arduino._current_user self) /\
    Arduino.was_in_arduino_group self
    = existsb (fun g => str_eqb (fst g) (u "dialout")
                        && str_in (Arduino._current_user self) (snd g))
              (getgrall os) /\
    submits_only (Arduino._current_user self) (u "dialout")
                 (Arduino.get_metadata_and_check_license L os self result).
Proof.
  intros Hinit.
  destruct (init_fields L os path self Hinit) as (_ & _ & _ & uid & Huid & Hpw).
  exists uid. split; [exact Huid|]. split; [exact Hpw|]. split.
  - revert Hinit. unfold Arduino.__init__. rewrite Huid, Hpw.
    intros H. injection H as <-. cbn [Arduino.was_in_arduino_group Arduino._current_user].
    unfold Arduino.groups_of.
    induction (getgrall os) as [|[nm members] groups IH]; [reflexivity|].
    cbn [filter map existsb fst snd].
    destruct (str_in (Arduino._current_user self) members) eqn:Hmem.
    + cbn [map existsb fst]. rewrite IH. now rewrite andb_true_r.
    + rewrite IH. now rewrite andb_false_r.
  - unfold Arduino.get_metadata_and_check_license. cbn [submits_only].
    destruct (download_page (Arduino.base self)) as [key|]; [|exact I].
    destruct (lookup key result) as [page|]; [|exact I].
    destruct (truthy_opt (error page)); [exact I|].
    destruct (buffer page) as [data|]; [|exact I].
    destruct (Arduino.scrape L self (BeautifulSoup L data)) as [e|[d c]]; [exact I|].
    destruct (if truthy_opt d then d else None); [|exact I].
    destruct (if truthy_opt c then c else None); [|exact I].
    cbn [submits_only]. split; [|exact I]. intros r.
    exact (prepare_submits_only L os (Arduino.set_scraped d c self) r).
Qed.

Lemma arduino_adds_checked_user_only_witness :
  exists uid,
    Arduino.sudo_uid (Ref.lib Example.arduino_pages) (Example.host (u "x86_64") [] true)
    = Some uid /\
    getpwuid (Example.host (u "x86_64") [] true) uid
    = Some (Arduino._current_user (Example.arduino false)) /\
    Arduino.was_in_arduino_group (Example.arduino false)
    = existsb (fun g => str_eqb (fst g) (u "dialout")
                        && str_in (Arduino._current_user (Example.arduino false)) (snd g))
              (getgrall (Example.host (u "x86_64") [] true)) /\
    submits_only (Arduino._current_user (Example.arduino false)) (u "dialout")
                 (Arduino.get_metadata_and_check_license
                    (Ref.lib Example.arduino_pages) (Example.host (u "x86_64") [] true)
                    (Example.arduino false) Example.software_result).
Proof.
  exact (arduino_adds_checked_user_only
           (Ref.lib Example.arduino_pages) (Example.host (u "x86_64") [] true)
           Example.install_dir (Example.arduino false) Example.software_result eq_refl).
Defined.
